(** * PseudoNetCDF [sci_var]: dimension-aware arrays, datasets and the
      dimension transformation engine.

    A shallow embedding of [src/PseudoNetCDF/sci_var.py] and the properties
    its specification states about it.  Part I holds the definitions (the
    Python runtime fragment the module relies on, the numpy array fragment,
    the classes and the module-level functions); Part II holds the lemmas
    and theorems. *)

From Stdlib Require Import ZArith QArith Qminmax Ascii String DecimalString DecimalZ DecimalPos.
From stdpp Require Import gmap strings list fin_maps sorting.

Open Scope string_scope.

(* ===================================================================== *)
(** * Part I: definitions *)
(* ===================================================================== *)

(** ** Exceptions and results *)

(** The exceptions the module can raise.  [Unmodelled] marks Python
    behaviour outside the embedded fragment, and [DepthExceeded] that the
    bound the model puts on the nesting of recursive calls was reached
    (it never is, see [slice_dim_within_depth] and
    [reduce_dim_within_depth]); Python reports neither under that name. *)
Inductive exn :=
| KeyError | AttributeError | TypeError | ValueError | IndexError
| NameError | Unmodelled | DepthExceeded.

Inductive result (A : Type) : Type :=
| Ok (a : A)
| Raise (e : exn).
Arguments Ok {A} a.
Arguments Raise {A} e.

#[global] Instance result_ret : MRet result := λ A, @Ok A.
#[global] Instance result_bind : MBind result :=
  λ A B f m, match m with Ok a => f a | Raise e => Raise e end.
#[global] Instance result_fmap : FMap result :=
  λ A B f m, match m with Ok a => Ok (f a) | Raise e => Raise e end.

Definition from_option {A} (e : exn) (o : option A) : result A :=
  match o with Some a => Ok a | None => Raise e end.

(** [for x in xs: s = body(s, x)] with exceptions. *)
Fixpoint for_each {S X} (body : S → X → result S) (xs : list X) (s : S)
  : result S :=
  match xs with
  | [] => Ok s
  | x :: xs' => s' ← body s x; for_each body xs' s'
  end.

(** [[g(x) for x in xs]] with exceptions. *)
Fixpoint map_result {X Y} (g : X → result Y) (xs : list X) : result (list Y) :=
  match xs with
  | [] => Ok []
  | x :: xs' => y ← g x; ys ← map_result g xs'; Ok (y :: ys)
  end.

(** A loop whose body may reach the bound on nested calls of a recursive
    function of the model: [None] when it does. *)
Fixpoint for_each_bounded {S X} (body : S → X → option (result S))
    (xs : list X) (s : S) : option (result S) :=
  match xs with
  | [] => Some (Ok s)
  | x :: xs' =>
      match body s x with
      | None => None
      | Some (Raise e) => Some (Raise e)
      | Some (Ok s') => for_each_bounded body xs' s'
      end
  end.

(** ** Strings *)

(** [s[:n]] and [s[n:]] for [n >= 0]. *)
Fixpoint str_take (n : nat) (s : string) : string :=
  match n, s with
  | S n', String c s' => String c (str_take n' s')
  | _, _ => ""
  end.

Fixpoint str_drop (n : nat) (s : string) : string :=
  match n, s with
  | S n', String c s' => str_drop n' s'
  | _, _ => s
  end.

Definition is_digit (c : ascii) : bool :=
  let n := nat_of_ascii c in (48 <=? n)%nat && (n <=? 57)%nat.

Fixpoint all_digits (s : string) : bool :=
  match s with
  | "" => true
  | String c s' => is_digit c && all_digits s'
  end.

(** [str.isdigit()]: non-empty and every character a decimal digit. *)
Definition isdigit (s : string) : bool :=
  match s with "" => false | _ => all_digits s end.

(** [s.split(sep)] for a one-character separator. *)
Fixpoint split_on (sep : ascii) (s : string) : list string :=
  match s with
  | "" => [""]
  | String c s' =>
      if Ascii.eqb c sep then "" :: split_on sep s'
      else match split_on sep s' with
           | [] => [String c ""]
           | w :: ws => String c w :: ws
           end
  end.

(** [s.count(sep)] for a one-character separator. *)
Fixpoint count_char (sep : ascii) (s : string) : nat :=
  match s with
  | "" => 0
  | String c s' => (if Ascii.eqb c sep then 1 else 0) + count_char sep s'
  end.

(** [sep.join(ws)]. *)
Fixpoint join (sep : string) (ws : list string) : string :=
  match ws with
  | [] => ""
  | [w] => w
  | w :: ws' => w ++ sep ++ join sep ws'
  end.

Definition is_space (c : ascii) : bool :=
  let n := nat_of_ascii c in (n =? 32)%nat || ((9 <=? n)%nat && (n <=? 13)%nat).

Fixpoint lstrip (s : string) : string :=
  match s with
  | String c s' => if is_space c then lstrip s' else s
  | "" => ""
  end.

Fixpoint rstrip (s : string) : string :=
  match s with
  | "" => ""
  | String c s' =>
      match rstrip s' with
      | "" => if is_space c then "" else String c ""
      | r => String c r
      end
  end.

(** [s.strip()]. *)
Definition strip (s : string) : string := rstrip (lstrip s).

(** [s.split()]: the maximal runs of non-blank characters. *)
Fixpoint words_aux (cur : string) (s : string) : list string :=
  match s with
  | "" => match cur with "" => [] | _ => [cur] end
  | String c s' =>
      if is_space c
      then match cur with "" => words_aux "" s' | _ => cur :: words_aux "" s' end
      else words_aux (cur ++ String c "") s'
  end.
Definition words (s : string) : list string := words_aux "" s.

(** [a in b] for strings: [a] occurs in [b] as a substring. *)
Fixpoint contains (a b : string) : bool :=
  String.prefix a b ||
  match b with
  | "" => false
  | String _ b' => contains a b'
  end.

Definition str_in (k : string) (ks : list string) : bool :=
  bool_decide (k ∈ ks).

(** [list(t).index(k)]. *)
Fixpoint index_of (k : string) (ks : list string) : result nat :=
  match ks with
  | [] => Raise ValueError
  | k' :: ks' => if String.eqb k k' then Ok 0%nat
                 else S <$> index_of k ks'
  end.

(** [str(n)] for an integer. *)
Definition str_int (z : Z) : string := NilZero.string_of_int (Z.to_int z).

Definition str_bool (b : bool) : string := if b then "True" else "False".

(** [sorted(ks)]: byte-wise lexicographic order. *)
Definition str_le (a b : string) : Prop := String.leb a b = true.
#[global] Instance str_le_dec : RelDecision str_le.
Proof. intros a b. unfold str_le. apply _. Defined.
Definition sorted (ks : list string) : list string := merge_sort str_le ks.

(** ** Dimensions *)

(** [class PseudoNetCDFDimension]. *)
Record PseudoNetCDFDimension := mkDim { _len : Z; _unlimited : bool }.

(** [PseudoNetCDFDimension(group, name, size)]. *)
Definition PseudoNetCDFDimension__init__ (size : Z) : PseudoNetCDFDimension :=
  {| _len := size; _unlimited := false |}.
Definition isunlimited (d : PseudoNetCDFDimension) : bool := _unlimited d.
Definition setunlimited (d : PseudoNetCDFDimension) (unlimited : bool)
  : PseudoNetCDFDimension :=
  {| _len := _len d; _unlimited := unlimited |}.
(** [len(dim)]: Python rejects a negative [__len__]. *)
Definition len_dim (d : PseudoNetCDFDimension) : result nat :=
  if (_len d <? 0)%Z then Raise ValueError else Ok (Z.to_nat (_len d)).

(** ** Attribute values *)

(** What a slot of a mapping read by [get_dimension_length] may hold. *)
Inductive dimlike :=
| DimNone
| DimInt (n : Z)
| DimObj (d : PseudoNetCDFDimension).

(** The Python values that occur as attribute values and as evaluated
    fields of a transformation-spec string. *)
Inductive pyval :=
| PyNone
| PyInt (z : Z)
| PyStr (s : string)
| PyTuple (items : list string)      (* a tuple of names *)
| PyLambda (ret : string)            (* [lambda: typecode] *)
| PyMethod (name : string)           (* a class attribute of ndarray *)
| PyDimMap (m : gmap string dimlike). (* a mapping of dimension slots *)

(** [str(v)], as the [%s] conversions of the module use it. *)
Definition str_val (v : pyval) : result string :=
  match v with
  | PyNone => Ok "None"
  | PyInt z => Ok (str_int z)
  | PyStr s => Ok s
  | _ => Raise Unmodelled
  end.

(** [eval(s)] on the literals the module itself writes with [%s]: a
    canonical decimal integer, or [None].  Other expressions are not
    modelled. *)
Definition py_eval (s : string) : result pyval :=
  match NilZero.int_of_string s with
  | Some d =>
      let z := Z.of_int d in
      if String.eqb (str_int z) s then Ok (PyInt z) else Raise Unmodelled
  | None => if String.eqb s "None" then Ok PyNone else Raise Unmodelled
  end.

(** [v + 1]. *)
Definition py_succ (v : pyval) : result pyval :=
  match v with
  | PyInt z => Ok (PyInt (z + 1))
  | _ => Raise TypeError
  end.

(** A slice bound: an integer or [None]. *)
Definition slice_arg (v : pyval) : result (option Z) :=
  match v with
  | PyNone => Ok None
  | PyInt z => Ok (Some z)
  | _ => Raise TypeError
  end.

(** [for k in v] over a value holding names. *)
Definition iter_names (v : pyval) : result (list string) :=
  match v with
  | PyTuple ks => Ok ks
  | PyStr s => Ok ((λ c, String c "") <$> list_ascii_of_string s)
  | _ => Raise TypeError
  end.

(** ** The numpy fragment *)

(** numpy's numerics are external to the module.  The element type [V] of
    arrays and the numeric functions the module calls are an interface;
    the index structure of arrays (shapes, views, slices, axis reductions)
    is modelled below. *)
Class Numeric (V : Type) := {
  (** the fill value of [numpy.zeros] *)
  np_zero : V;
  (** elementwise [*] and [/] *)
  np_multiply : V → V → V;
  np_divide : V → V → V;
  (** [ndarray.min()] and [ndarray.max()] over the elements of an array *)
  np_amin : list V → V;
  np_amax : list V → V;
  (** [getattr(np, func)] for a reduction [func], as the function applied
      to each lane along the reduced axis; [None] when the numpy namespace
      has no such name *)
  np_getattr : string → option (list V → V);
  (** the dtype code of [getattr(np, func)(a, axis)] for [a] of a dtype code *)
  np_reduction_dtype : string → string → string;
  (** the dtype code of an elementwise operation on two dtype codes *)
  np_result_dtype : string → string → string;
  (** [float(s)] *)
  py_float : string → option V;
  (** [abs(x - a).argmin()] over the elements of a non-empty array *)
  argmin_absdiff : V → list V → nat
}.

Section Arrays.
Context {V : Type}.

(** A C-contiguous array: its shape, its dtype code and its elements in
    row-major order. *)
Record ndarray := mkArr { shape : list nat; dtype : string; data : list V }.

Definition ndim (a : ndarray) : nat := length (shape a).

Definition size_of (s : list nat) : nat := foldr Nat.mul 1%nat s.

(** The elements of an array are as many as its shape says. *)
Definition wf_array (a : ndarray) : Prop :=
  length (data a) = size_of (shape a).

(** All indices of a shape, in row-major order. *)
Fixpoint indices (s : list nat) : list (list nat) :=
  match s with
  | [] => [[]]
  | n :: s' => flat_map (λ i, map (cons i) (indices s')) (seq 0 n)
  end.

(** The row-major offset of an index. *)
Fixpoint ravel (s idx : list nat) : nat :=
  match s, idx with
  | n :: s', i :: idx' => i * size_of s' + ravel s' idx'
  | _, _ => 0%nat
  end.

Fixpoint in_bounds (s idx : list nat) : bool :=
  match s, idx with
  | [], [] => true
  | n :: s', i :: idx' => (i <? n)%nat && in_bounds s' idx'
  | _, _ => false
  end.

(** [a[idx]] for a full integer index. *)
Definition get (a : ndarray) (idx : list nat) : option V :=
  if in_bounds (shape a) idx then data a !! ravel (shape a) idx else None.

(** The array of shape [s'] whose element at [idx] is [a[src idx]]: the
    common form of views and of integer-array indexing. *)
Definition gather (a : ndarray) (s' : list nat) (src : list nat → list nat)
  : ndarray :=
  {| shape := s'; dtype := dtype a;
     data := omap (λ idx, get a (src idx)) (indices s') |}.

(** Exchange the entries at positions [i] and [j]. *)
Definition swap_at {A} (i j : nat) (l : list A) : list A :=
  match l !! i, l !! j with
  | Some x, Some y => <[i := y]> (<[j := x]> l)
  | _, _ => l
  end.

(** [a.swapaxes(i, j)] for non-negative axes. *)
Definition swapaxes (i j : nat) (a : ndarray) : result ndarray :=
  if (i <? ndim a)%nat && (j <? ndim a)%nat
  then Ok (gather a (swap_at i j (shape a)) (swap_at i j))
  else Raise ValueError.

(** [slice(start, stop, step).indices(n)], with the number of selected
    positions: the first position, the count and the step. *)
Definition slice_indices (start stop step : option Z) (n : Z)
  : result (Z * nat * Z) :=
  let step := default 1%Z step in
  if (step =? 0)%Z then Raise ValueError else
  let clip (v : Z) : Z :=
    if (v <? 0)%Z
    then (if (v + n <? 0)%Z then (if (step <? 0)%Z then -1 else 0)%Z
          else (v + n)%Z)
    else (if (n <=? v)%Z then (if (step <? 0)%Z then n - 1 else n)%Z
          else v) in
  let start := match start with
               | Some v => clip v
               | None => if (step <? 0)%Z then (n - 1)%Z else 0%Z
               end in
  let stop := match stop with
              | Some v => clip v
              | None => if (step <? 0)%Z then (-1)%Z else n
              end in
  let count :=
    if (step <? 0)%Z
    then (if (stop <? start)%Z then ((start - stop - 1) / (- step) + 1)%Z
          else 0%Z)
    else (if (start <? stop)%Z then ((stop - start - 1) / step + 1)%Z
          else 0%Z) in
  Ok (start, Z.to_nat count, step).

(** Basic slicing [start:stop:step] along axis [k], full slices
    elsewhere. *)
Definition slice_axis (k : nat) (start stop step : option Z) (a : ndarray)
  : result ndarray :=
  match shape a !! k with
  | None => Raise IndexError
  | Some n =>
      '(first, count, step) ← slice_indices start stop step (Z.of_nat n);
      Ok (gather a (<[k := count]> (shape a))
            (λ idx, match idx !! k with
                    | Some i => <[k := Z.to_nat (first + Z.of_nat i * step)]> idx
                    | None => idx
                    end))
  end.

(** [a[(slice(None),) * k + (None,)]]: a new axis of length one at
    position [k]. *)
Definition newaxis_at (k : nat) (a : ndarray) : result ndarray :=
  if (k <=? ndim a)%nat
  then Ok {| shape := take k (shape a) ++ 1%nat :: drop k (shape a);
             dtype := dtype a; data := data a |}
  else Raise IndexError.

Definition insert_at {A} (k : nat) (x : A) (l : list A) : list A :=
  take k l ++ x :: drop k l.

(** [func(a, axis = axis)] for a reduction: the axis disappears and each
    element of the result is the reduction of one lane of [a]. *)
Definition reduce_axis (agg : list V → V) (dt : string) (axis : nat)
    (a : ndarray) : result ndarray :=
  match shape a !! axis with
  | None => Raise ValueError
  | Some n =>
      Ok {| shape := delete axis (shape a); dtype := dt;
            data := map (λ idx, agg (omap (λ j, get a (insert_at axis j idx))
                                          (seq 0 n)))
                        (indices (delete axis (shape a))) |}
  end.

(** [np.array(a, ndmin = n)]: ones are prepended to the shape. *)
Definition array_ndmin (n : nat) (a : ndarray) : ndarray :=
  {| shape := replicate (n - ndim a) 1%nat ++ shape a;
     dtype := dtype a; data := data a |}.

(** The common shape of two operands under numpy broadcasting (shapes
    aligned at their last axis). *)
Fixpoint broadcast_rev (s1 s2 : list nat) : result (list nat) :=
  match s1, s2 with
  | [], s | s, [] => Ok s
  | n1 :: s1', n2 :: s2' =>
      r ← broadcast_rev s1' s2';
      if (n1 =? n2)%nat then Ok (n1 :: r)
      else if (n1 =? 1)%nat then Ok (n2 :: r)
      else if (n2 =? 1)%nat then Ok (n1 :: r)
      else Raise ValueError
  end.
Definition broadcast_shape (s1 s2 : list nat) : result (list nat) :=
  reverse <$> broadcast_rev (reverse s1) (reverse s2).

(** The index into an operand of shape [s] for the index [idx] of the
    broadcast result. *)
Definition broadcast_index (s idx : list nat) : list nat :=
  zip_with (λ n i, if (n =? 1)%nat then 0%nat else i) s
           (drop (length idx - length s) idx).

(** An elementwise binary operation with broadcasting. *)
Definition elementwise (op : V → V → V) (dt : string) (a b : ndarray)
  : result ndarray :=
  s ← broadcast_shape (shape a) (shape b);
  Ok {| shape := s; dtype := dt;
        data := omap (λ idx,
                        x ← get a (broadcast_index (shape a) idx);
                        y ← get b (broadcast_index (shape b) idx);
                        Some (op x y))
                     (indices s) |}.

(** [a[0] = (lo, hi)]: the pair is broadcast over the first row, so the
    last axis must have length two (or the row be a pair itself). *)
Definition assign_row0_pair (lo hi : V) (a : ndarray) : result ndarray :=
  match shape a with
  | [] => Raise IndexError
  | n :: rest =>
      if (n =? 0)%nat then Raise IndexError else
      match last rest with
      | Some 2%nat =>
          let row := size_of rest in
          Ok {| shape := shape a; dtype := dtype a;
                data := imap (λ i x, if (i <? row)%nat
                                      then (if Nat.even i then lo else hi)
                                      else x) (data a) |}
      | _ => Raise ValueError
      end
  end.

(** The source index of integer-array indexing: the entries of [spec]
    that are index arrays read position [q], the full slices consume the
    remaining indices in order. *)
Fixpoint fancy_source (spec : list (option (list nat))) (q : nat)
    (free : list nat) : list nat :=
  match spec with
  | [] => free
  | Some ixs :: spec' => default 0%nat (ixs !! q) :: fancy_source spec' q free
  | None :: spec' =>
      match free with
      | x :: free' => x :: fancy_source spec' q free'
      | [] => []
      end
  end.

(** The positions of the index arrays in [spec]. *)
Fixpoint advanced_positions (i : nat) (spec : list (option (list nat)))
  : list nat :=
  match spec with
  | [] => []
  | Some _ :: spec' => i :: advanced_positions (S i) spec'
  | None :: spec' => advanced_positions (S i) spec'
  end.

Fixpoint fancy_in_range (s : list nat) (spec : list (option (list nat)))
  : bool :=
  match s, spec with
  | n :: s', Some ixs :: spec' =>
      forallb (λ i, (i <? n)%nat) ixs && fancy_in_range s' spec'
  | _ :: s', None :: spec' => fancy_in_range s' spec'
  | _, _ => true
  end.

(** The axes of [s] that [spec] leaves to full slices. *)
Fixpoint free_axes (s : list nat) (spec : list (option (list nat)))
  : list nat :=
  match s, spec with
  | n :: s', Some _ :: spec' => free_axes s' spec'
  | n :: s', None :: spec' => n :: free_axes s' spec'
  | s, [] => s
  | [], _ => []
  end.

(** [a[spec]] where each entry of [spec] is an integer index array of
    the common length [p] or a full slice: the indexed axes are replaced
    by one axis of length [p], in place when they are adjacent and in
    front otherwise. *)
Definition fancy_index (p : nat) (spec : list (option (list nat)))
    (a : ndarray) : result ndarray :=
  if (ndim a <? length spec)%nat then Raise IndexError else
  if negb (fancy_in_range (shape a) spec) then Raise IndexError else
  match advanced_positions 0 spec with
  | [] => Ok a
  | first :: others =>
      let adjacent :=
        bool_decide (first :: others = seq first (S (length others))) in
      let at_ := if adjacent then first else 0%nat in
      Ok (gather a (insert_at at_ p (free_axes (shape a) spec))
            (λ idx, fancy_source spec (default 0%nat (idx !! at_))
                      (delete at_ idx)))
  end.
End Arrays.
Arguments ndarray V : clear implicits.

(** ** Attributed arrays: [class PseudoNetCDFVariable(ndarray)] *)

(** The names the [ndarray] type defines as data descriptors ... *)
Definition ndarray_descriptors : list string :=
  ["T"; "base"; "ctypes"; "data"; "dtype"; "flags"; "flat"; "imag";
   "itemsize"; "nbytes"; "ndim"; "real"; "shape"; "size"; "strides"].

(** ... and as methods, with the three methods of the subclass. *)
Definition ndarray_methods : list string :=
  ["all"; "any"; "argmax"; "argmin"; "argpartition"; "argsort"; "astype";
   "byteswap"; "choose"; "clip"; "compress"; "conj"; "conjugate"; "copy";
   "cumprod"; "cumsum"; "diagonal"; "dot"; "dump"; "dumps"; "fill";
   "flatten"; "getfield"; "item"; "itemset"; "max"; "mean"; "min";
   "newbyteorder"; "nonzero"; "partition"; "prod"; "ptp"; "put"; "ravel";
   "repeat"; "reshape"; "resize"; "round"; "searchsorted"; "setfield";
   "setflags"; "sort"; "squeeze"; "std"; "sum"; "swapaxes"; "take";
   "tofile"; "tolist"; "tostring"; "trace"; "transpose"; "var"; "view";
   "ncattrs"; "getValue"; "assignValue"].

Section Model.
Context {V : Type} `{!Numeric V}.

(** An instance: the array it views and its instance [__dict__].  A
    plain [ndarray] is an instance with an empty [__dict__]. *)
Record PseudoNetCDFVariable :=
  mkVar { arr : ndarray V; __dict__ : gmap string pyval }.

Definition hasattr (self : PseudoNetCDFVariable) (k : string) : bool :=
  match __dict__ self !! k with
  | Some _ => true
  | None => str_in k ndarray_descriptors || str_in k ndarray_methods
  end.

Definition getattr (self : PseudoNetCDFVariable) (k : string) : result pyval :=
  if str_in k ndarray_descriptors then Raise Unmodelled else
  match __dict__ self !! k with
  | Some v => Ok v
  | None => if str_in k ndarray_methods then Ok (PyMethod k)
            else Raise AttributeError
  end.

(** [ndarray.__setattr__(self, k, v)]: stored in the instance
    [__dict__]; assignments to the data descriptors of [ndarray] act on
    the buffer and are not modelled. *)
Definition ndarray__setattr__ (self : PseudoNetCDFVariable) (k : string)
    (v : pyval) : result PseudoNetCDFVariable :=
  if str_in k ndarray_descriptors then Raise Unmodelled
  else Ok {| arr := arr self; __dict__ := <[k := v]> (__dict__ self) |}.

(** [t + (k,)]. *)
Definition tuple_add (t : pyval) (k : string) : result pyval :=
  match t with
  | PyTuple ks => Ok (PyTuple (ks ++ [k]))
  | _ => Raise TypeError
  end.

(** [PseudoNetCDFVariable.__setattr__].  The augmented assignment
    [self._ncattrs += (k,)] re-enters [__setattr__] with the name
    [_ncattrs], which the underscore test sends straight to
    [ndarray.__setattr__]. *)
Definition PseudoNetCDFVariable__setattr__ (self : PseudoNetCDFVariable)
    (k : string) (v : pyval) : result PseudoNetCDFVariable :=
  self ← (if negb (hasattr self k) && negb (String.eqb (str_take 1 k) "_")
          then nc ← getattr self "_ncattrs";
               nc' ← tuple_add nc k;
               ndarray__setattr__ self "_ncattrs" nc'
          else Ok self);
  ndarray__setattr__ self k v.

(** [PseudoNetCDFVariable.ncattrs]. *)
Definition PseudoNetCDFVariable_ncattrs (self : PseudoNetCDFVariable)
  : result pyval :=
  getattr self "_ncattrs".

(** [t[:-1]]. *)
Definition tuple_init (t : pyval) : result pyval :=
  match t with
  | PyTuple ks => Ok (PyTuple (removelast ks))
  | PyStr s => Ok (PyStr (str_take (String.length s - 1) s))
  | _ => Raise TypeError
  end.

(** The second half of [__array_finalize__]: the dimension names. *)
Definition finalize_dimensions (self : PseudoNetCDFVariable)
    (obj : option PseudoNetCDFVariable) : result PseudoNetCDFVariable :=
  if negb (hasattr self "dimensions") then
    match obj with
    | Some o =>
        if hasattr o "dimensions" then
          d ← getattr o "dimensions";
          self ← PseudoNetCDFVariable__setattr__ self "dimensions" d;
          nc ← getattr self "_ncattrs";
          nc' ← tuple_init nc;
          PseudoNetCDFVariable__setattr__ self "_ncattrs" nc'
        else Ok self
    | None => Ok self
    end
  else Ok self.

(** [PseudoNetCDFVariable.__array_finalize__(self, obj)]. *)
Definition PseudoNetCDFVariable__array_finalize__
    (self : PseudoNetCDFVariable) (obj : option PseudoNetCDFVariable)
  : result PseudoNetCDFVariable :=
  if negb (hasattr self "_ncattrs") then
    self ← PseudoNetCDFVariable__setattr__ self "_ncattrs" (PyTuple []);
    match obj with
    | None => Ok self
    | Some o =>
        self ← (if hasattr o "_ncattrs" then
                  nc ← getattr o "_ncattrs";
                  ks ← iter_names nc;
                  for_each (λ self k,
                              v ← getattr o k;
                              PseudoNetCDFVariable__setattr__ self k v)
                           ks self
                else Ok self);
        finalize_dimensions self (Some o)
    end
  else finalize_dimensions self obj.

(** How numpy produces a derived array (a view, a slice, the result of
    an arithmetic operation or of a reduction): it allocates the new
    instance over the result buffer, with an empty [__dict__], and calls
    [__array_finalize__] on it with the array it was derived from. *)
Definition derive (a : ndarray V) (parent : PseudoNetCDFVariable)
  : result PseudoNetCDFVariable :=
  PseudoNetCDFVariable__array_finalize__
    {| arr := a; __dict__ := ∅ |} (Some parent).

(** A numpy operation on the buffer, seen from the subclass. *)
Definition derived_by (op : ndarray V → result (ndarray V))
    (parent : PseudoNetCDFVariable) : result PseudoNetCDFVariable :=
  a ← op (arr parent);
  derive a parent.

(** [var[...]]. *)
Definition ellipsis (var : PseudoNetCDFVariable) : result PseudoNetCDFVariable :=
  derived_by Ok var.

(** [var.dimensions] read as a tuple of names. *)
Definition var_dimensions (var : PseudoNetCDFVariable) : result (list string) :=
  d ← getattr var "dimensions";
  iter_names d.

(** [numpy.zeros(shape, typecode)]. *)
Definition zeros (s : list nat) (typecode : string) : ndarray V :=
  {| shape := s; dtype := typecode; data := replicate (size_of s) np_zero |}.

(** [PseudoNetCDFVariable.__new__(subtype, parent, name, typecode,
    dimensions, **kwds)].  [values] is the keyword the constructor pops
    from [kwds]; [parent_dimensions] is [parent.dimensions]. *)
Definition PseudoNetCDFVariable__new__
    (parent_dimensions : gmap string PseudoNetCDFDimension)
    (name typecode : string) (dimensions : list string)
    (values : option PseudoNetCDFVariable) (kwds : gmap string pyval)
  : result PseudoNetCDFVariable :=
  result ← match values with
           | Some v => Ok v
           | None =>
               s ← map_result
                     (λ d, dim ← from_option KeyError (parent_dimensions !! d);
                           len_dim dim)
                     dimensions;
               Ok {| arr := zeros s typecode; __dict__ := ∅ |}
           end;
  result ← ellipsis result;
  result ← derived_by Ok result;
  let result :=
    {| arr := arr result;
       __dict__ := <["dimensions" := PyTuple dimensions]>
                     (<["typecode" := PyLambda typecode]> (__dict__ result)) |} in
  for_each (λ r kv, PseudoNetCDFVariable__setattr__ r kv.1 kv.2)
           (map_to_list (delete "values" kwds)) result.

(** ** Datasets: [class PseudoNetCDFFile] *)

(** An instance: the three entries of its [__dict__] that [__new__]
    creates, at their types, and the remaining entries. *)
Record PseudoNetCDFFile := mkFile {
  variables : gmap string PseudoNetCDFVariable;
  dimensions : gmap string PseudoNetCDFDimension;
  _ncattrs : list string;
  props : gmap string pyval
}.

(** A value assigned to an attribute of a Dataset. *)
Inductive fval :=
| FVars (m : gmap string PseudoNetCDFVariable)
| FDims (m : gmap string PseudoNetCDFDimension)
| FVal (v : pyval).

(** [object.__setattr__(self, k, v)].  The record keeps [variables],
    [dimensions] and [_ncattrs] at their types; rebinding one of them to
    a value of another type is not modelled. *)
Definition object__setattr__ (self : PseudoNetCDFFile) (k : string) (v : fval)
  : result PseudoNetCDFFile :=
  if String.eqb k "variables" then
    match v with
    | FVars m => Ok {| variables := m; dimensions := dimensions self;
                       _ncattrs := _ncattrs self; props := props self |}
    | _ => Raise Unmodelled
    end
  else if String.eqb k "dimensions" then
    match v with
    | FDims m => Ok {| variables := variables self; dimensions := m;
                       _ncattrs := _ncattrs self; props := props self |}
    | _ => Raise Unmodelled
    end
  else if String.eqb k "_ncattrs" then
    match v with
    | FVal (PyTuple ks) =>
        Ok {| variables := variables self; dimensions := dimensions self;
              _ncattrs := ks; props := props self |}
    | _ => Raise Unmodelled
    end
  else
    match v with
    | FVal v => Ok {| variables := variables self;
                      dimensions := dimensions self;
                      _ncattrs := _ncattrs self;
                      props := <[k := v]> (props self) |}
    | _ => Raise Unmodelled
    end.

(** [PseudoNetCDFFile.__setattr__]. *)
Definition PseudoNetCDFFile__setattr__ (self : PseudoNetCDFFile) (k : string)
    (v : fval) : result PseudoNetCDFFile :=
  self ← (if negb (String.eqb (str_take 1 k) "_"
                   || str_in k ["dimensions"; "variables"; "groups"])
          then object__setattr__ self "_ncattrs"
                 (FVal (PyTuple (_ncattrs self ++ [k])))
          else Ok self);
  object__setattr__ self k v.

(** [PseudoNetCDFFile.__new__] followed by [__init__] on the keyword arguments [properties]. *)
Definition PseudoNetCDFFile__new__ : PseudoNetCDFFile :=
  {| variables := ∅; dimensions := ∅; _ncattrs := []; props := ∅ |}.

Definition PseudoNetCDFFile__init__ (properties : gmap string fval)
  : result PseudoNetCDFFile :=
  for_each (λ self kv, PseudoNetCDFFile__setattr__ self kv.1 kv.2)
           (map_to_list properties) PseudoNetCDFFile__new__.

(** [PseudoNetCDFFile.ncattrs]. *)
Definition ncattrs (self : PseudoNetCDFFile) : list string := _ncattrs self.

(** The methods of the class. *)
Definition file_methods : list string :=
  ["createDimension"; "createVariable"; "close"; "ncattrs"; "sync"; "flush"].

Definition file_hasattr (self : PseudoNetCDFFile) (k : string) : bool :=
  str_in k ["variables"; "dimensions"; "_ncattrs"]
  || bool_decide (is_Some (props self !! k))
  || str_in k file_methods.

(** [getattr(self, k)]. *)
Definition file_getattr (self : PseudoNetCDFFile) (k : string) : result fval :=
  if String.eqb k "variables" then Ok (FVars (variables self))
  else if String.eqb k "dimensions" then Ok (FDims (dimensions self))
  else if String.eqb k "_ncattrs" then Ok (FVal (PyTuple (_ncattrs self)))
  else match props self !! k with
       | Some v => Ok (FVal v)
       | None => if str_in k file_methods then Ok (FVal (PyMethod k))
                 else Raise AttributeError
       end.

(** [self.dimensions[name] = d]. *)
Definition set_dimension (self : PseudoNetCDFFile) (name : string)
    (d : PseudoNetCDFDimension) : PseudoNetCDFFile :=
  {| variables := variables self;
     dimensions := <[name := d]> (dimensions self);
     _ncattrs := _ncattrs self; props := props self |}.

(** [self.variables[name] = var]. *)
Definition set_variable (self : PseudoNetCDFFile) (name : string)
    (var : PseudoNetCDFVariable) : PseudoNetCDFFile :=
  {| variables := <[name := var]> (variables self);
     dimensions := dimensions self;
     _ncattrs := _ncattrs self; props := props self |}.

(** [del self.variables[name]]. *)
Definition del_variable (self : PseudoNetCDFFile) (name : string)
  : PseudoNetCDFFile :=
  {| variables := delete name (variables self);
     dimensions := dimensions self;
     _ncattrs := _ncattrs self; props := props self |}.

(** [PseudoNetCDFFile.createDimension(name, length)]; the new Dimension
    is [dimensions self !! name] of the result. *)
Definition createDimension (self : PseudoNetCDFFile) (name : string)
    (length : Z) : PseudoNetCDFFile :=
  set_dimension self name (PseudoNetCDFDimension__init__ length).

(** [d.setunlimited(u)] on the Dimension object stored under [name]. *)
Definition setunlimited_at (self : PseudoNetCDFFile) (name : string)
    (u : bool) : PseudoNetCDFFile :=
  {| variables := variables self;
     dimensions := alter (λ d, setunlimited d u) name (dimensions self);
     _ncattrs := _ncattrs self; props := props self |}.

(** [PseudoNetCDFFile.createVariable(name, type, dimensions,
    **properties)]. *)
Definition createVariable (self : PseudoNetCDFFile) (name type : string)
    (dims : list string) (values : option PseudoNetCDFVariable)
    (properties : gmap string pyval) : result PseudoNetCDFFile :=
  var ← PseudoNetCDFVariable__new__ (dimensions self) name type dims
          values properties;
  Ok (set_variable self name var).
End Model.
Arguments PseudoNetCDFVariable V : clear implicits.
Arguments PseudoNetCDFFile V : clear implicits.
Arguments fval V : clear implicits.

(** ** The lazy variable registry: [class PseudoNetCDFVariables(defaultdict)] *)

Section Registry.
Context {Var : Type}.

(** The underlying dict, the factory and the declared keys.  The
    constructor does not call [defaultdict.__init__], so the
    [default_factory] is unset and every miss goes to [__missing__]. *)
Record PseudoNetCDFVariables := mkRegistry {
  store : gmap string Var;
  __func : string → result Var;
  __keys : list string
}.

(** [PseudoNetCDFVariables(func, keys)]. *)
Definition PseudoNetCDFVariables__init__ (func : string → result Var)
    (keys : list string) : PseudoNetCDFVariables :=
  {| store := ∅; __func := func; __keys := keys |}.

(** [keys()]: [tuple(set(dict.keys(self) + self.__keys))]. *)
Definition registry_keys (self : PseudoNetCDFVariables) : list string :=
  remove_dups ((map_to_list (store self)).*1 ++ __keys self).

Definition has_key (self : PseudoNetCDFVariables) (k : string) : bool :=
  str_in k (registry_keys self).

(** [addkey(k)]. *)
Definition addkey (self : PseudoNetCDFVariables) (k : string)
  : PseudoNetCDFVariables :=
  {| store := store self; __func := __func self;
     __keys := __keys self ++ [k] |}.

(** [self[k] = v], inherited from [dict]. *)
Definition registry_setitem (self : PseudoNetCDFVariables) (k : string)
    (v : Var) : PseudoNetCDFVariables :=
  {| store := <[k := v]> (store self); __func := __func self;
     __keys := __keys self |}.

(** The state a lookup runs in: the registry and the log of the keys the
    factory has been invoked on. *)
Record registry_state := mkRState {
  registry : PseudoNetCDFVariables;
  factory_calls : list string
}.

(** [__missing__(k)]. *)
Definition __missing__ (k : string) (st : registry_state)
  : result Var * registry_state :=
  if str_in k (registry_keys (registry st))
  then (__func (registry st) k,
        {| registry := registry st;
           factory_calls := factory_calls st ++ [k] |})
  else (Raise KeyError, st).

(** [self[k]]: [dict.__getitem__], which calls [__missing__] on a miss
    and returns what it returns. *)
Definition __getitem__ (k : string) (st : registry_state)
  : result Var * registry_state :=
  match store (registry st) !! k with
  | Some v => (Ok v, st)
  | None => __missing__ k st
  end.

(** [n] successive lookups of [k]: the results, oldest first, and the
    final state. *)
Fixpoint lookups (n : nat) (k : string) (st : registry_state)
  : list (result Var) * registry_state :=
  match n with
  | 0 => ([], st)
  | S n' => let '(r, st1) := __getitem__ k st in
            let '(rs, st2) := lookups n' k st1 in
            (r :: rs, st2)
  end.
End Registry.
Arguments PseudoNetCDFVariables Var : clear implicits.
Arguments registry_state Var : clear implicits.

Section Engine.
Context {V : Type} `{!Numeric V}.
Abbreviation Variable_ := (PseudoNetCDFVariable V).
Abbreviation File := (PseudoNetCDFFile V).

(** [k in t] for an attribute value [t]. *)
Definition name_in (k : string) (t : pyval) : result bool :=
  match t with
  | PyTuple ks => Ok (str_in k ks)
  | PyStr s => Ok (contains k s)
  | _ => Raise TypeError
  end.

(** ** [get_dimension_length] *)

(** [m[key]] for the value of the attribute the function reads. *)
Definition getitem_dimlike (m : fval V) (key : string) : result dimlike :=
  match m with
  | FDims d => DimObj <$> from_option KeyError (d !! key)
  | FVal (PyDimMap d) => from_option KeyError (d !! key)
  | FVars _ => Raise Unmodelled
  | FVal _ => Raise TypeError
  end.

(** The loop of the [dim is None] branch, over the remaining keys. *)
Fixpoint first_axis_length (vars : gmap string Variable_) (key : string)
    (ks : list string) : result Z :=
  match ks with
  | [] => Ok 0%Z
  | k :: ks' =>
      v ← from_option KeyError (vars !! k);
      d ← getattr v "dimensions";
      b ← name_in key d;
      if (b : bool) then
        v' ← ellipsis v;
        names ← iter_names d;
        i ← index_of key names;
        n ← from_option IndexError (shape (arr v') !! i);
        Ok (Z.of_nat n)
      else first_axis_length vars key ks'
  end.

(** [get_dimension_length(pfile, key)]. *)
Definition get_dimension_length (pfile : File) (key : string) : result Z :=
  m ← file_getattr pfile "dimsensions";
  dim ← getitem_dimlike m key;
  match dim with
  | DimNone =>
      first_axis_length (variables pfile) key
        (map_to_list (variables pfile)).*1
  | DimInt n => Ok n
  | DimObj d => Z.of_nat <$> len_dim d
  end.

(** ** [slice_dim] *)

(** The first lines of [slice_dim]: the fields of
    ['dim,start,stop,stride']. *)
Definition parse_slicedef (slicedef : string)
  : result (string * pyval * pyval * pyval) :=
  match split_on "," slicedef with
  | [] => Raise ValueError
  | dimkey :: fields =>
      vals ← map_result py_eval fields;
      let slicedef := PyStr dimkey :: vals in
      slicedef ← (if (length slicedef =? 2)%nat
                  then match last slicedef with
                       | Some v => s ← py_succ v; Ok (slicedef ++ [s])%list
                       | None => Ok slicedef
                       end
                  else Ok slicedef);
      match take 4 (slicedef ++ [PyNone])%list with
      | [PyStr dimkey; dmin; dmax; dstride] => Ok (dimkey, dmin, dmax, dstride)
      | _ => Raise ValueError
      end
  end.

(** The keys of a dict, in its iteration order. *)
Definition keys {A} (m : gmap string A) : list string := (map_to_list m).*1.

(** The fuzzy siblings of [dimkey]:
    [[key for key in f.dimensions
      if dimkey == key[:len(dimkey)] and key[len(dimkey):].isdigit()]]. *)
Definition partial_check (f : File) (dimkey : string) : list string :=
  List.filter
    (λ key, String.eqb dimkey (str_take (String.length dimkey) key)
            && isdigit (str_drop (String.length dimkey) key))
    (keys (dimensions f)).

(** ['%s,%s,%s,%s' % (dimk, dmin, dmax, dstride)]. *)
Definition format_slicedef (dimk : string) (dmin dmax dstride : pyval)
  : result string :=
  a ← str_val dmin; b ← str_val dmax; c ← str_val dstride;
  Ok (dimk ++ "," ++ a ++ "," ++ b ++ "," ++ c).

(** [var[...].swapaxes(0, axis)[dmin:dmax:dstride].swapaxes(0, axis)]. *)
Definition slice_var (axis : nat) (dmin dmax dstride : pyval)
    (var : Variable_) : result Variable_ :=
  v ← ellipsis var;
  v ← derived_by (swapaxes 0 axis) v;
  lo ← slice_arg dmin; hi ← slice_arg dmax; st ← slice_arg dstride;
  v ← derived_by (slice_axis 0 lo hi st) v;
  derived_by (swapaxes 0 axis) v.

(** The body of the loop over the variables. *)
Definition slice_dim_step (dimkey : string) (dmin dmax dstride : pyval)
    (unlimited : bool) (f : File) (varkey : string) : result File :=
  var ← from_option KeyError (variables f !! varkey);
  d ← getattr var "dimensions";
  b ← name_in dimkey d;
  if negb b then Ok f else
  names ← iter_names d;
  axis ← index_of dimkey names;
  vout ← slice_var axis dmin dmax dstride var;
  newlen ← from_option IndexError (shape (arr vout) !! axis);
  let f := createDimension f dimkey (Z.of_nat newlen) in
  let f := setunlimited_at f dimkey unlimited in
  Ok (set_variable f varkey vout).

(** [history = getattr(f, 'history', ''); history += historydef;
    setattr(f, 'history', history)]. *)
Definition append_history (f : File) (historydef : string) : result File :=
  history ← match props f !! "history" with
            | Some (PyStr h) => Ok (h ++ historydef)
            | Some _ => Raise TypeError
            | None => Ok historydef
            end;
  PseudoNetCDFFile__setattr__ f "history" (FVal (PyStr history)).

(** What [slice_dim] does after the fuzzy siblings: the loop over the
    variables and the history record. *)
Definition slice_dim_target (dimkey : string) (dmin dmax dstride : pyval)
    (unlimited : bool) (historydef : string) (f : File) : result File :=
  f ← for_each (slice_dim_step dimkey dmin dmax dstride unlimited)
               (keys (variables f)) f;
  append_history f historydef.

Definition slice_historydef (slicedef : string) (fuzzydim : bool) : string :=
  "slice_dim(f, " ++ slicedef ++ ", fuzzydim = " ++ str_bool fuzzydim ++ "); ".

(** [slice_dim(f, slicedef, fuzzydim)], as its effect on the Dataset
    object [f] refers to, with [depth] bounding the nesting of the
    recursive calls: [None] when the bound is reached. *)
Fixpoint slice_dim_rec (depth : nat) (f : File) (slicedef : string)
    (fuzzydim : bool) : option (result File) :=
  match depth with
  | 0 => None
  | S depth' =>
      let historydef := slice_historydef slicedef fuzzydim in
      match parse_slicedef slicedef with
      | Raise e => Some (Raise e)
      | Ok (dimkey, dmin, dmax, dstride) =>
          match dimensions f !! dimkey with
          | None => Some (Raise KeyError)
          | Some d =>
              let unlimited := isunlimited d in
              let siblings :=
                if fuzzydim then
                  for_each_bounded
                    (λ f dimk,
                       match format_slicedef dimk dmin dmax dstride with
                       | Raise e => Some (Raise e)
                       | Ok sd => slice_dim_rec depth' f sd true
                       end)
                    (partial_check f dimkey) f
                else Some (Ok f) in
              match siblings with
              | None => None
              | Some (Raise e) => Some (Raise e)
              | Some (Ok f) =>
                  Some (slice_dim_target dimkey dmin dmax dstride unlimited
                          historydef f)
              end
          end
      end
  end.

(** The longest dimension name bounds the nesting: each recursive call
    is on a strictly longer name of the same Dataset. *)
Definition max_key_length (f : File) : nat :=
  foldr (λ k n, Nat.max (String.length k) n) 0%nat (keys (dimensions f)).

(** What a call returns when the bound on nested calls is not reached. *)
Definition within_depth {A} (r : option (result A)) : result A :=
  match r with Some r => r | None => Raise DepthExceeded end.

(** [slice_dim(f, slicedef, fuzzydim)]. *)
Definition slice_dim (f : File) (slicedef : string) (fuzzydim : bool)
  : result File :=
  within_depth (slice_dim_rec (S (max_key_length f)) f slicedef fuzzydim).

(** ** [reduce_dim] *)

Definition default_metakeys : list string :=
  ["time"; "layer"; "level"; "latitude"; "longitude"; "time_bounds";
   "latitude_bounds"; "longitude_bounds"; "ROW"; "COL"; "LAY"; "TFLAG";
   "ETFLAG"].

(** [repr] of a list of plain names. *)
Definition repr_list (ks : list string) : string :=
  "[" ++ join ", " ((λ k, "'" ++ k ++ "'") <$> ks) ++ "]".

Definition reduce_historydef (reducedef : string) (fuzzydim : bool)
    (metakeys : list string) : string :=
  "reduce_dim(f, " ++ reducedef ++ ", fuzzydim = " ++ str_bool fuzzydim
    ++ ", metakeys = " ++ repr_list metakeys ++ "); ".

(** The fields of ['dim,function[,weight[,weight]]'] and the weight
    variables. *)
Record reducedef_fields := mkReducedef {
  rd_dimkey : string;
  rd_func : string;
  rd_numweightkey : option string;
  rd_denweightkey : option string;
  rd_numweight : option Variable_;
  rd_denweight : option Variable_
}.

(** The branches on [commacount]; with another count the names stay
    unbound and their first use raises. *)
Definition parse_reducedef (f : File) (reducedef : string)
  : result reducedef_fields :=
  let commacount := count_char "," reducedef in
  if (commacount =? 3)%nat then
    match split_on "," reducedef with
    | [dimkey; func; numweightkey; denweightkey] =>
        numweight ← from_option KeyError (variables f !! numweightkey);
        denweight ← from_option KeyError (variables f !! denweightkey);
        Ok (mkReducedef dimkey func (Some numweightkey) (Some denweightkey)
              (Some numweight) (Some denweight))
    | _ => Raise ValueError
    end
  else if (commacount =? 2)%nat then
    match split_on "," reducedef with
    | [dimkey; func; numweightkey] =>
        numweight ← from_option KeyError (variables f !! numweightkey);
        Ok (mkReducedef dimkey func (Some numweightkey) None
              (Some numweight) None)
    | _ => Raise ValueError
    end
  else if (commacount =? 1)%nat then
    match split_on "," reducedef with
    | [dimkey; func] => Ok (mkReducedef dimkey func None None None None)
    | _ => Raise ValueError
    end
  else Raise NameError.

(** ['%s,%s' % (dimk, func)] and its weighted forms. *)
Definition format_reducedef (dimk : string) (r : reducedef_fields) : string :=
  match rd_numweightkey r, rd_denweightkey r with
  | None, _ => dimk ++ "," ++ rd_func r
  | Some nk, None => dimk ++ "," ++ rd_func r ++ "," ++ nk
  | Some nk, Some dk => dimk ++ "," ++ rd_func r ++ "," ++ nk ++ "," ++ dk
  end.

(** [v.k.strip()]. *)
Definition stripped_attr (v : Variable_) (k : string) : result string :=
  x ← getattr v k;
  match x with
  | PyStr s => Ok (strip s)
  | _ => Raise AttributeError
  end.

(** [getattr(np, func)(v[(slice(None),) * (axis + 1) + (None,)],
    axis = axis)]. *)
Definition reduce_keepdims (func : string) (axis : nat) (v : Variable_)
  : result Variable_ :=
  agg ← from_option AttributeError (np_getattr func);
  v1 ← derived_by (newaxis_at (S axis)) v;
  derived_by (λ a, reduce_axis agg (np_reduction_dtype func (dtype a)) axis a)
             v1.

(** [np.array(w, ndmin = var.ndim)[(slice(None),) * axis +
    (slice(0, var.shape[axis]),)]], a plain array. *)
Definition aligned_weight (var w : Variable_) (axis : nat)
  : result (ndarray V) :=
  let w0 := array_ndmin (ndim (arr var)) (arr w) in
  n ← from_option IndexError (shape (arr var) !! axis);
  slice_axis axis (Some 0%Z) (Some (Z.of_nat n)) None w0.

(** [var * weight]. *)
Definition weighted (var w : Variable_) (axis : nat) : result Variable_ :=
  w1 ← aligned_weight var w axis;
  derived_by (λ a, elementwise np_multiply
                     (np_result_dtype (dtype a) (dtype w1)) a w1) var.

(** The value the loop of [reduce_dim] computes for one variable. *)
Definition reduce_var (metakeys : list string) (r : reducedef_fields)
    (varkey : string) (axis : nat) (var : Variable_) : result Variable_ :=
  let func := rd_func r in
  if negb (str_in varkey metakeys) then
    match rd_numweight r, rd_denweight r with
    | None, _ => reduce_keepdims func axis var
    | Some numweight, None =>
        wvar ← weighted var numweight axis;
        vout ← reduce_keepdims func axis wvar;
        u ← stripped_attr vout "units";
        wu ← stripped_attr numweight "units";
        vout ← PseudoNetCDFVariable__setattr__ vout "units"
                 (PyStr (u ++ " * " ++ wu));
        if hasattr vout "base_units" then
          u ← stripped_attr vout "base_units";
          wu ← stripped_attr numweight "base_units";
          PseudoNetCDFVariable__setattr__ vout "base_units"
            (PyStr (u ++ " * " ++ wu))
        else Ok vout
    | Some numweight, Some denweight =>
        nwvar ← weighted var numweight axis;
        num ← reduce_keepdims func axis nwvar;
        agg ← from_option AttributeError (np_getattr func);
        d1 ← aligned_weight var denweight axis;
        d2 ← newaxis_at (S axis) d1;
        den ← reduce_axis agg (np_reduction_dtype func (dtype d2)) axis d2;
        derived_by (λ a, elementwise np_divide
                           (np_result_dtype (dtype a) (dtype den)) a den) num
    end
  else if negb (contains "_bounds" varkey) && negb (contains "_bnds" varkey)
  then reduce_keepdims func axis var
  else
    vout ← reduce_keepdims func axis var;
    v1 ← ellipsis var;
    lo ← (if bool_decide (data (arr v1) = []) then Raise ValueError
          else Ok (np_amin (data (arr v1))));
    v2 ← ellipsis var;
    hi ← (if bool_decide (data (arr v2) = []) then Raise ValueError
          else Ok (np_amax (data (arr v2))));
    a ← assign_row0_pair lo hi (arr vout);
    Ok {| arr := a; __dict__ := __dict__ vout |}.

(** The body of the loop over the variables. *)
Definition reduce_dim_step (metakeys : list string) (r : reducedef_fields)
    (f : File) (varkey : string) : result File :=
  let dimkey := rd_dimkey r in
  var ← from_option KeyError (variables f !! varkey);
  d ← getattr var "dimensions";
  b ← name_in dimkey d;
  if negb b then Ok f else
  names ← iter_names d;
  axis ← index_of dimkey names;
  vout ← reduce_var metakeys r varkey axis var;
  d ← getattr var "dimensions";
  names ← iter_names d;
  new ← PseudoNetCDFVariable__new__ (dimensions f) varkey (dtype (arr var))
          names (Some vout) ∅;
  Ok (set_variable f varkey new).

(** What [reduce_dim] does after the fuzzy siblings. *)
Definition reduce_dim_target (metakeys : list string) (r : reducedef_fields)
    (historydef : string) (f : File) : result File :=
  let dimkey := rd_dimkey r in
  d ← from_option KeyError (dimensions f !! dimkey);
  let unlimited := isunlimited d in
  let f := createDimension f dimkey 1 in
  let f := if unlimited then setunlimited_at f dimkey true else f in
  f ← for_each (reduce_dim_step metakeys r) (keys (variables f)) f;
  append_history f historydef.

(** [reduce_dim(f, reducedef, fuzzydim, metakeys)], as its effect on the
    Dataset object [f] refers to, with [depth] bounding the nesting of
    the recursive calls: [None] when the bound is reached.  The recursive
    calls leave [fuzzydim] and [metakeys] at their defaults. *)
Fixpoint reduce_dim_rec (depth : nat) (f : File) (reducedef : string)
    (fuzzydim : bool) (metakeys : list string) : option (result File) :=
  match depth with
  | 0 => None
  | S depth' =>
      let metakeys :=
        List.filter (λ k, str_in k (keys (variables f))) metakeys in
      let historydef := reduce_historydef reducedef fuzzydim metakeys in
      match parse_reducedef f reducedef with
      | Raise e => Some (Raise e)
      | Ok r =>
          let siblings :=
            if fuzzydim then
              for_each_bounded
                (λ f dimk,
                   reduce_dim_rec depth' f (format_reducedef dimk r)
                     true default_metakeys)
                (partial_check f (rd_dimkey r)) f
            else Some (Ok f) in
          match siblings with
          | None => None
          | Some (Raise e) => Some (Raise e)
          | Some (Ok f) => Some (reduce_dim_target metakeys r historydef f)
          end
      end
  end.

(** [reduce_dim(f, reducedef, fuzzydim, metakeys)]. *)
Definition reduce_dim (f : File) (reducedef : string) (fuzzydim : bool)
    (metakeys : list string) : result File :=
  within_depth
    (reduce_dim_rec (S (max_key_length f)) f reducedef fuzzydim metakeys).

(** ** [extract] *)

(** The nearest grid index of one ["lon,lat"] point along each
    coordinate: [(latidx, lonidx)]. *)
Definition nearest_indices (longitude latitude : Variable_) (ll : string)
  : result (nat * nat) :=
  xs ← map_result (λ w, from_option ValueError (py_float w)) (split_on "," ll);
  match xs with
  | [lon; lat] =>
      if bool_decide (data (arr longitude) = []) then Raise ValueError else
      let lonidx := argmin_absdiff lon (data (arr longitude)) in
      if bool_decide (data (arr latitude) = []) then Raise ValueError else
      let latidx := argmin_absdiff lat (data (arr latitude)) in
      Ok (latidx, lonidx)
  | _ => Raise ValueError
  end.

(** [coords]: the words of [v.coordinates], or [v.dimensions] when that
    fails. *)
Definition coords_of (v : Variable_) : result pyval :=
  match getattr v "coordinates" with
  | Ok (PyStr s) => Ok (PyTuple (words s))
  | Raise Unmodelled => Raise Unmodelled
  | _ => getattr v "dimensions"
  end.

(** The body of the loop over the items of [outf.variables]. *)
Definition extract_step (latidxs lonidxs : list nat) (f : File)
    (kv : string * Variable_) : result File :=
  let '(k, v) := kv in
  coords ← coords_of v;
  dims ← getattr v "dimensions";
  let f := createDimension f "points" (Z.of_nat (length latidxs)) in
  has_lon ← name_in "longitude" coords;
  has_lat ← (if (has_lon : bool) then Ok true else name_in "latitude" coords);
  if negb has_lat then Ok f else
  let f := del_variable f k in
  names ← iter_names dims;
  let newdims :=
    (List.filter (λ d, negb (str_in d ["longitude"; "latitude"])) names
     ++ ["points"])%list in
  let newslice :=
    (λ d, if String.eqb d "latitude" then Some latidxs
          else if String.eqb d "longitude" then Some lonidxs
          else None) <$> names in
  values ← derived_by (fancy_index (length latidxs) newslice) v;
  f ← createVariable f k (dtype (arr v)) newdims (Some values) ∅;
  nc ← getattr v "_ncattrs";
  aks ← iter_names nc;
  nv ← from_option KeyError (variables f !! k);
  nv ← for_each (λ nv ak, x ← getattr v ak;
                          PseudoNetCDFVariable__setattr__ nv ak x) aks nv;
  Ok (set_variable f k nv).

(** [extract(f, lonlat)], as its effect on the Dataset object [f]
    refers to; [outf] is another name of that object. *)
Definition extract (f : File) (lonlat : list string) : result File :=
  longitude ← from_option KeyError (variables f !! "longitude");
  latitude ← from_option KeyError (variables f !! "latitude");
  idxs ← map_result (nearest_indices longitude latitude)
           (flat_map (split_on "/") lonlat);
  let latidxs := idxs.*1 in
  let lonidxs := idxs.*2 in
  for_each (extract_step latidxs lonidxs) (map_to_list (variables f)) f.

(** ** [getvarpnc] *)

Definition is_ident_start (c : ascii) : bool :=
  let n := nat_of_ascii c in
  ((65 <=? n)%nat && (n <=? 90)%nat) || ((97 <=? n)%nat && (n <=? 122)%nat)
  || (n =? 95)%nat.

Fixpoint all_ident_chars (s : string) : bool :=
  match s with
  | "" => true
  | String c s' => (is_ident_start c || is_digit c) && all_ident_chars s'
  end.

Definition py_keywords : list string :=
  ["and"; "as"; "assert"; "break"; "class"; "continue"; "def"; "del";
   "elif"; "else"; "except"; "exec"; "finally"; "for"; "from"; "global";
   "if"; "import"; "in"; "is"; "lambda"; "not"; "or"; "pass"; "print";
   "raise"; "return"; "try"; "while"; "with"; "yield"; "None"].

Definition is_identifier (s : string) : bool :=
  match s with
  | "" => false
  | String c _ => is_ident_start c && all_ident_chars s
                  && negb (str_in s py_keywords)
  end.

(** [eval(varkey, None, f.variables)] with the fallback of the bare
    [except]: a name is looked up among the variables; other expressions
    are not modelled. *)
Definition lookup_variable (f : File) (varkey : string) : result Variable_ :=
  if is_identifier varkey
  then from_option KeyError (variables f !! varkey)
  else Raise Unmodelled.

(** [dict([(k, getattr(var, k)) for k in var.ncattrs()])]. *)
Definition propd_of (var : Variable_) : result (gmap string pyval) :=
  nc ← getattr var "_ncattrs";
  ks ← iter_names nc;
  kvs ← map_result (λ k, v ← getattr var k; Ok (k, v)) ks;
  Ok (list_to_map (reverse kvs)).

(** [outf.createVariable(key, var.dtype.char, var.dimensions,
    values = var[...], **propd)]; a key [values] in [propd] collides
    with the keyword. *)
Definition copy_variable (outf : File) (key : string) (var : Variable_)
  : result File :=
  propd ← propd_of var;
  d ← getattr var "dimensions";
  values ← ellipsis var;
  if bool_decide (is_Some (propd !! "values")) then Raise TypeError else
  names ← iter_names d;
  createVariable outf key (dtype (arr var)) names (Some values) propd.

(** The body of [for dimk, dimv in zip(var.dimensions, var.shape)]. *)
Definition getvarpnc_dim (f : File) (st : File * gset string)
    (dim : string * nat) : result (File * gset string) :=
  let '(outf, coordkeys) := st in
  let '(dimk, dimv) := dim in
  if bool_decide (is_Some (dimensions outf !! dimk)) then Ok st else
  let outf := createDimension outf dimk (Z.of_nat dimv) in
  d ← from_option KeyError (dimensions f !! dimk);
  let outf := if isunlimited d then setunlimited_at outf dimk true else outf in
  let coordkeys := coordkeys ∪ {[dimk]} in
  match variables f !! dimk with
  | None => Ok (outf, coordkeys)
  | Some tempv =>
      if hasattr tempv "bounds" then
        match getattr tempv "bounds" with
        | Ok (PyStr b) => Ok (outf, coordkeys ∪ {[strip b]})
        | Raise Unmodelled => Raise Unmodelled
        | _ => Ok (outf, coordkeys)
        end
      else Ok (outf, coordkeys)
  end.

(** The body of [for coordk in coordkeys] inside the loop. *)
Definition getvarpnc_coorddim (f : File) (outf : File) (coordk : string)
  : result File :=
  match dimensions f !! coordk with
  | Some d =>
      if bool_decide (is_Some (dimensions outf !! coordk)) then Ok outf else
      n ← len_dim d;
      let outf := createDimension outf coordk (Z.of_nat n) in
      Ok (if isunlimited d then setunlimited_at outf coordk true else outf)
  | None => Ok outf
  end.

(** The body of [for varkey in varkeys]. *)
Definition getvarpnc_var (f : File) (st : File * gset string)
    (varkey : string) : result (File * gset string) :=
  var ← lookup_variable f varkey;
  d ← getattr var "dimensions";
  names ← iter_names d;
  '(outf, coordkeys) ← for_each (getvarpnc_dim f)
                         (zip names (shape (arr var))) st;
  outf ← for_each (getvarpnc_coorddim f) (elements coordkeys) outf;
  outf ← copy_variable outf varkey var;
  Ok (outf, coordkeys).

(** The body of the final [for coordkey in coordkeys]. *)
Definition getvarpnc_coordvar (f : File) (outf : File) (coordkey : string)
  : result File :=
  match variables f !! coordkey with
  | Some coordvar => copy_variable outf coordkey coordvar
  | None => Ok outf
  end.

(** The first lines of [getvarpnc]: the variable keys kept and the
    warnings issued. *)
Definition getvarpnc_keys (f : File) (varkeys : option (list string))
    (coordkeys : gset string) : list string * list string :=
  match varkeys with
  | None => (elements (dom (variables f) ∖ coordkeys), [])
  | Some varkeys =>
      let newvarkeys :=
        sorted (elements ((list_to_set varkeys : gset string)
                          ∩ dom (variables f))) in
      let oldvarkeys := sorted varkeys in
      (newvarkeys,
       if bool_decide (newvarkeys ≠ oldvarkeys)
       then ["Skipping " ++
             join ", " (elements ((list_to_set oldvarkeys : gset string)
                                  ∖ list_to_set newvarkeys))]
       else [])
  end.

(** The coordinate keys after the loop over the variable keys. *)
Definition getvarpnc_loop (f : File) (varkeys : list string)
    (coordkeys : gset string) (outf : File) : result (File * gset string) :=
  for_each (getvarpnc_var f) varkeys (outf, coordkeys).

(** [getvarpnc(f, varkeys, coordkeys)]: the new Dataset and the warnings
    issued.  [f] is only read. *)
Definition getvarpnc (f : File) (varkeys : option (list string))
    (coordkeys : list string) : result (File * list string) :=
  let coordkeys : gset string := list_to_set coordkeys in
  let '(varkeys, warnings) := getvarpnc_keys f varkeys coordkeys in
  let outf := createDimension PseudoNetCDFFile__new__ "nv" 2 in
  outf ← for_each (λ outf propkey,
                     v ← file_getattr f propkey;
                     PseudoNetCDFFile__setattr__ outf propkey v)
                  (ncattrs f) outf;
  '(outf, coordkeys) ← getvarpnc_loop f varkeys coordkeys outf;
  outf ← for_each (getvarpnc_coordvar f) (elements coordkeys) outf;
  Ok (outf, warnings).

(** ** The functions on references

    The module's functions receive and return references to Dataset
    objects.  A store maps the references to the objects; a call that
    mutates the object its argument refers to writes the new state of
    that object back at the same reference. *)






End Engine.

(** ** Predicates of the statements *)

(** The names [PseudoNetCDFFile.__setattr__] does not record. *)
Definition excluded (k : string) : bool :=
  String.eqb (str_take 1 k) "_" || str_in k ["dimensions"; "variables"; "groups"].

(** The names [PseudoNetCDFVariable.__setattr__] records when they are
    first assigned: no underscore in front, and not a name of the
    [ndarray] class. *)
Definition recordable (k : string) : bool :=
  negb (String.eqb (str_take 1 k) "_")
  && negb (str_in k ndarray_descriptors) && negb (str_in k ndarray_methods).

Section Statements.
Context {V : Type} `{!Numeric V}.

(** An Attributed Array as the constructor, attribute assignment and
    derivation leave it: its user-attribute names [nc] are recorded once
    each, each has a value, and it has a dimension-name entry [dims]
    that is not itself recorded. *)
Record attributed (v : PseudoNetCDFVariable V) (nc : list string)
    (dims : pyval) : Prop := {
  attributed_ncattrs : __dict__ v !! "_ncattrs" = Some (PyTuple nc);
  attributed_nodup : NoDup nc;
  attributed_present : ∀ k, k ∈ nc → is_Some (__dict__ v !! k);
  attributed_recordable : ∀ k, k ∈ nc → recordable k = true ∧ k ≠ "dimensions";
  attributed_dimensions : __dict__ v !! "dimensions" = Some dims
}.

(** Whether a variable references a dimension, and at which axis: the
    test and the index the loops of [slice_dim] and [reduce_dim] compute
    for each variable. *)
Definition axis_of (dimkey : string) (var : PseudoNetCDFVariable V)
  : result (option nat) :=
  d ← getattr var "dimensions";
  b ← name_in dimkey d;
  if (b : bool) then names ← iter_names d; Some <$> index_of dimkey names
  else Ok None.

(** The number of positions the slice [lo:hi:st] selects on an axis of
    length [n]. *)
Definition sliced_length (lo hi st : pyval) (n : nat) : result nat :=
  lo ← slice_arg lo; hi ← slice_arg hi; st ← slice_arg st;
  r ← slice_indices lo hi st (Z.of_nat n);
  Ok r.1.2.

(** Fuzzy matching finds no sibling of [dimkey] in [f], or is off. *)
Definition no_siblings (fuzzydim : bool) (f : PseudoNetCDFFile V)
    (dimkey : string) : Prop :=
  (if fuzzydim then partial_check f dimkey else []) = [].



(** Every variable of [f] is an Attributed Array over a well-formed
    buffer, with a tuple of dimension names. *)
Definition well_formed_file (f : PseudoNetCDFFile V) : Prop :=
  ∀ k var, variables f !! k = Some var →
           wf_array (arr var)
           ∧ ∃ nc names, attributed var nc (PyTuple names).



(** The lane of [a] along [axis] through the index [idx]: the elements
    [a[..., j, ...]] for [j] over the axis, the other coordinates as in
    [idx]. *)
Definition lane (a : ndarray V) (axis : nat) (idx : list nat) : list V :=
  omap (λ j, get a (<[axis := j]> idx))
       (seq 0 (default 0 (shape a !! axis))).

(** [r] is [a] reduced by [agg] along [axis], the axis kept with length
    one. *)
Definition reduced_along (agg : list V → V) (axis : nat) (a r : ndarray V)
  : Prop :=
  shape r = <[axis := 1]> (shape a)
  ∧ ∀ idx, in_bounds (shape r) idx = true →
           get r idx = Some (agg (lane a axis idx)).

(** A chain of derived views: each buffer of [bufs] is the result of
    some numpy operation on the previous array of the chain. *)
Fixpoint derive_chain (bufs : list (ndarray V)) (p : PseudoNetCDFVariable V)
  : result (PseudoNetCDFVariable V) :=
  match bufs with
  | [] => Ok p
  | a :: bufs' => d ← derive a p; derive_chain bufs' d
  end.
End Statements.

(** ** Example data

    A numeric instance over the rationals (exact arithmetic, results in
    lowest terms) and small Datasets on which the statements of Part II
    are evaluated. *)

Definition Qsum (l : list Q) : Q := Qred (foldr Qplus 0%Q l).
Definition Qmean (l : list Q) : Q :=
  Qred (Qsum l / inject_Z (Z.of_nat (length l))).

#[global] Instance numeric_Q : Numeric Q := {|
  np_zero := 0%Q;
  np_multiply := λ x y, Qred (x * y);
  np_divide := λ x y, Qred (x / y);
  np_amin := λ l, foldr Qmin (default 0%Q (head l)) l;
  np_amax := λ l, foldr Qmax (default 0%Q (head l)) l;
  np_getattr := λ func,
    if String.eqb func "mean" then Some Qmean
    else if String.eqb func "sum" then Some Qsum
    else None;
  np_reduction_dtype := λ func dt, if String.eqb func "mean" then "d" else dt;
  np_result_dtype := λ d1 d2, d1;
  py_float := λ s, None;
  argmin_absdiff := λ x l, 0%nat
|}.

(** A plain array. *)
Definition plain (s : list nat) (xs : list Q) : PseudoNetCDFVariable Q :=
  {| arr := {| shape := s; dtype := "d"; data := xs |}; __dict__ := ∅ |}.

(** A one-dimensional Attributed Array and its sum, a scalar array. *)
Definition o3_parent : result (PseudoNetCDFVariable Q) :=
  PseudoNetCDFVariable__new__ ∅ "O3" "d" ["TIME"]
    (Some (plain [3%nat] [1%Q; 2%Q; 3%Q])) {["units" := PyStr "ppbv"]}.
Definition o3_sum : result (PseudoNetCDFVariable Q) :=
  p ← o3_parent; derived_by (reduce_axis Qsum "d" 0) p.
Definition o3 : PseudoNetCDFVariable Q :=
  match o3_parent with Ok p => p | Raise _ => plain [] [] end.

(** The buffers of a reduction to a scalar and of a slice of [o3]. *)
Definition o3_scalar_buffer : ndarray Q :=
  {| shape := []; dtype := "d"; data := [6%Q] |}.
Definition o3_slice_buffer : ndarray Q :=
  {| shape := [2%nat]; dtype := "d"; data := [2%Q; 3%Q] |}.

(** The registry of the module's own test: declared keys [NO] and [O3]
    over a factory that builds the same array for every key. *)
Definition test_factory (k : string) : result (PseudoNetCDFVariable Q) :=
  PseudoNetCDFVariable__new__ ∅ k "f" ["TIME"]
    (Some (plain [3%nat] [0%Q; 1%Q; 2%Q])) ∅.
Definition test_registry : registry_state (PseudoNetCDFVariable Q) :=
  {| registry := PseudoNetCDFVariables__init__ test_factory ["NO"; "O3"];
     factory_calls := [] |}.

(** The value of a computation that succeeds. *)
Definition get_ok {A} (dflt : A) (r : result A) : A :=
  match r with Ok a => a | Raise _ => dflt end.

(** A Dataset with dimensions [x = 3] (unlimited) and [y = 2] and one
    variable [v] over them. *)
Definition xy_file : PseudoNetCDFFile Q :=
  get_ok PseudoNetCDFFile__new__
    (let f := createDimension PseudoNetCDFFile__new__ "x" 3 in
     let f := setunlimited_at f "x" true in
     let f := createDimension f "y" 2 in
     createVariable f "v" "d" ["x"; "y"]
       (Some (plain [3; 2]%nat [1; 2; 3; 5; 8; 13]%Q))
       {["units" := PyStr "ppb"]}).



(** A Dataset with dimensions [x = 2] and [x1 = 2] and a variable [v] over
    both. *)
Definition square_file : PseudoNetCDFFile Q :=
  get_ok PseudoNetCDFFile__new__
    (let f := createDimension PseudoNetCDFFile__new__ "x" 2 in
     let f := createDimension f "x1" 2 in
     createVariable f "v" "d" ["x"; "x1"]
       (Some (plain [2; 2]%nat [1; 2; 3; 5]%Q)) ∅).

(** A Dataset with an axis [x] of length 3 sharded as [x1] and [x10], and
    a variable over each shard. *)
Definition sharded_file : PseudoNetCDFFile Q :=
  get_ok PseudoNetCDFFile__new__
    (let f := createDimension PseudoNetCDFFile__new__ "x" 3 in
     let f := createDimension f "x1" 3 in
     let f := createDimension f "x10" 3 in
     f ← createVariable f "w1" "d" ["x1"]
           (Some (plain [3%nat] [1; 2; 4]%Q)) ∅;
     createVariable f "w10" "d" ["x10"]
       (Some (plain [3%nat] [1; 2; 4]%Q)) ∅).

(** ** The statement of the projection *)

Section Projection.
Context {V : Type} `{!Numeric V}.

(** The names [for dimk, dimv in zip(var.dimensions, var.shape)] visits. *)
Definition loop_dimensions (var : PseudoNetCDFVariable V) : list string :=
  match var_dimensions var with
  | Ok names => (zip names (shape (arr var))).*1
  | Raise _ => []
  end.

(** The dimension names of the variables of [f] named in [kept]. *)
Definition kept_dimensions (f : PseudoNetCDFFile V) (kept : list string)
  : gset string :=
  ⋃ ((λ k, match variables f !! k with
           | Some var => list_to_set (loop_dimensions var)
           | None => ∅
           end) <$> kept).



End Projection.

(** A Dataset with a time axis, a variable [temp] over it, the coordinate
    variable [time] whose [bounds] attribute names [time_bnds], and the
    bounds variable over [(time, bnds)]. *)
Definition bounds_file : PseudoNetCDFFile Q :=
  get_ok PseudoNetCDFFile__new__
    (let f := createDimension PseudoNetCDFFile__new__ "time" 2 in
     let f := createDimension f "bnds" 2 in
     f ← PseudoNetCDFFile__setattr__ f "title" (FVal (PyStr "hourly"));
     f ← createVariable f "temp" "d" ["time"]
           (Some (plain [2%nat] [10; 20]%Q)) {["units" := PyStr "K"]};
     f ← createVariable f "time" "d" ["time"]
           (Some (plain [2%nat] [0; 1]%Q)) {["bounds" := PyStr "time_bnds"]};
     createVariable f "time_bnds" "d" ["time"; "bnds"]
       (Some (plain [2; 2]%nat [0; 1; 1; 2]%Q)) ∅).

(* ===================================================================== *)
(** * Part I, continued: the rest of the module *)
(* ===================================================================== *)

(** ** The rest of the lazy variable registry *)

Section RegistryIteration.
Context {Var : Type}.

(** The items a loop over the keys [ks] yields as [(k, self[k])], up to
    the first lookup that raises. *)
Fixpoint registry_items (ks : list string) (st : registry_state Var)
  : result (list (string * Var)) * registry_state Var :=
  match ks with
  | [] => (Ok [], st)
  | k :: ks' =>
      let '(r, st1) := __getitem__ k st in
      match r with
      | Raise e => (Raise e, st1)
      | Ok v =>
          let '(rs, st2) := registry_items ks' st1 in
          ((λ items, (k, v) :: items) <$> rs, st2)
      end
  end.

(** [list(self.iteritems())]: the generator run to its end. *)
Definition iteritems (st : registry_state Var)
  : result (list (string * Var)) * registry_state Var :=
  registry_items (registry_keys (registry st)) st.

(** [list(self.iterkeys())]. *)
Definition iterkeys (self : PseudoNetCDFVariables Var) : list string :=
  registry_keys self.
End RegistryIteration.

(** ** Statements about [extract] *)

Section ExtractStatements.
Context {V : Type} `{!Numeric V}.

(** The test of the loop of [extract]:
    ['longitude' in coords or 'latitude' in coords]. *)
Definition on_grid (v : PseudoNetCDFVariable V) : result bool :=
  coords ← coords_of v;
  has_lon ← name_in "longitude" coords;
  if (has_lon : bool) then Ok true else name_in "latitude" coords.

(** [newdims] and [newslice] of the loop, for the dimension names
    [names]. *)
Definition extract_newdims (names : list string) : list string :=
  (List.filter (λ d, negb (str_in d ["longitude"; "latitude"])) names
   ++ ["points"])%list.

Definition extract_newslice (latidxs lonidxs : list nat) (names : list string)
  : list (option (list nat)) :=
  (λ d, if String.eqb d "latitude" then Some latidxs
        else if String.eqb d "longitude" then Some lonidxs
        else None) <$> names.
End ExtractStatements.

(** Example numerics with [float] on integer literals and the position
    of the first nearest element, and a Dataset on a 2 x 3 grid: the
    coordinate variables, a field [temp] over [(latitude, longitude)]
    and a variable [time] off the grid. *)
Definition Qabsdiff (x a : Q) : Q := Qmax (x - a) (a - x).
Fixpoint Qargmin_from (x : Q) (l : list Q) (i best : nat) (m : Q) : nat :=
  match l with
  | [] => best
  | a :: l' => if Qlt_le_dec (Qabsdiff x a) m
               then Qargmin_from x l' (S i) i (Qabsdiff x a)
               else Qargmin_from x l' (S i) best m
  end.
Definition Qargmin_absdiff (x : Q) (l : list Q) : nat :=
  match l with
  | [] => 0%nat
  | a :: l' => Qargmin_from x l' 1 0 (Qabsdiff x a)
  end.

Definition numeric_Q_points : Numeric Q := {|
  np_zero := 0%Q;
  np_multiply := λ x y, Qred (x * y);
  np_divide := λ x y, Qred (x / y);
  np_amin := λ l, foldr Qmin (default 0%Q (head l)) l;
  np_amax := λ l, foldr Qmax (default 0%Q (head l)) l;
  np_getattr := λ func,
    if String.eqb func "mean" then Some Qmean
    else if String.eqb func "sum" then Some Qsum
    else None;
  np_reduction_dtype := λ func dt, if String.eqb func "mean" then "d" else dt;
  np_result_dtype := λ d1 d2, d1;
  py_float := λ s, (λ d, inject_Z (Z.of_int d)) <$> NilZero.int_of_string s;
  argmin_absdiff := Qargmin_absdiff
|}.

Definition grid_file : PseudoNetCDFFile Q :=
  get_ok PseudoNetCDFFile__new__
    (let f := createDimension PseudoNetCDFFile__new__ "latitude" 2 in
     let f := createDimension f "longitude" 3 in
     let f := createDimension f "time" 2 in
     f ← createVariable f "latitude" "d" ["latitude"]
           (Some (plain [2%nat] [50; 60]%Q)) ∅;
     f ← createVariable f "longitude" "d" ["longitude"]
           (Some (plain [3%nat] [0; 10; 20]%Q)) ∅;
     f ← createVariable f "temp" "d" ["latitude"; "longitude"]
           (Some (plain [2; 3]%nat [1; 2; 3; 4; 5; 6]%Q))
           {["units" := PyStr "K"]};
     createVariable f "time" "d" ["time"]
       (Some (plain [2%nat] [0; 1]%Q)) ∅).

(** ** Statements about the Dimensions [getvarpnc] creates *)

Section ProjectedDimensions.
Context {V : Type} `{!Numeric V}.

(** The Dimension [d'] stands in the result for the Dimension [k] of the
    source [f]: it has its unlimited flag, and its length is that of the
    source Dimension or the extent of a variable of [f] along an axis
    named [k]. *)
Definition projected_dimension (f : PseudoNetCDFFile V) (k : string)
    (d' : PseudoNetCDFDimension) : Prop :=
  ∃ d, dimensions f !! k = Some d
       ∧ isunlimited d' = isunlimited d
       ∧ (_len d' = _len d
          ∨ ∃ varkey var names axis n,
              variables f !! varkey = Some var
              ∧ var_dimensions var = Ok names
              ∧ names !! axis = Some k
              ∧ shape (arr var) !! axis = Some n
              ∧ _len d' = Z.of_nat n).
End ProjectedDimensions.

(** ** [PseudoIOAPIVariable] *)

(** [s.ljust(width)]. *)
Definition ljust (s : string) (width : nat) : string :=
  s ++ string_of_list_ascii (replicate (width - String.length s) " "%char).

(** The double quote, for the texts that contain one. *)
Definition dquote : string := String (ascii_of_nat 34) "".

Section IOAPI.
Context {V : Type} `{!Numeric V}.

(** The text of the warning: the format is never applied, so the [%s]
    stays in the text. *)
Definition ioapi_units_warning : string :=
  "IOAPI variables must have units; %s has been initialized with "
  ++ dquote ++ "None" ++ dquote ++ " units".

(** [PseudoIOAPIVariable(parent, name, typecode, dimensions, **kwds)]:
    the variable and the warnings issued.  [values] is the keyword the
    constructor of the variable pops, [kwds] the keywords as the function
    received them. *)
Definition PseudoIOAPIVariable
    (parent_dimensions : gmap string PseudoNetCDFDimension)
    (name typecode : string) (dimensions : list string)
    (values : option (PseudoNetCDFVariable V)) (kwds : gmap string pyval)
  : result (PseudoNetCDFVariable V * list string) :=
  retval ← PseudoNetCDFVariable__new__ parent_dimensions name typecode
             dimensions values kwds;
  '(retval, warnings) ←
    (if bool_decide (is_Some (kwds !! "units")) then Ok (retval, [])
     else retval ← PseudoNetCDFVariable__setattr__ retval "units" (PyStr "None");
          Ok (retval, [ioapi_units_warning]));
  retval ← (if bool_decide (is_Some (kwds !! "long_name")) then Ok retval
            else PseudoNetCDFVariable__setattr__ retval "long_name"
                   (PyStr (ljust name 16)));
  retval ← (if bool_decide (is_Some (kwds !! "var_desc")) then Ok retval
            else PseudoNetCDFVariable__setattr__ retval "var_desc"
                   (PyStr (ljust name 80)));
  Ok (retval, warnings).
End IOAPI.

(** ** [get_ncf_object] and [class Pseudo2NetCDF] *)

(** What [get_ncf_object] may be handed: a path, a dataset object of this
    module, or [None]. *)
Inductive ncf_argument (F : Type) :=
| NcfPath (path : string)
| NcfObject (f : F)
| NcfNone.
Arguments NcfPath {F} path.
Arguments NcfObject {F} f.
Arguments NcfNone {F}.

Definition read_only : list string := ["r"; "r+"; "rs"; "rs+"; "r+s"].

(** [get_ncf_object(path_or_object, mode)].  A dataset object is returned
    as it is; a path, and [None] with a writing mode, open a file of the
    netCDF library, which is outside the model. *)
Definition get_ncf_object {F} (path_or_object : ncf_argument F) (mode : string)
  : result F :=
  match path_or_object with
  | NcfPath _ => Raise Unmodelled
  | NcfObject f => Ok f
  | NcfNone => if str_in mode read_only then Raise ValueError
               else Raise Unmodelled
  end.

(** The class attributes of the converter. *)
Definition ignore_global_properties : list string := ["variables"; "dimensions"].
Definition ignore_variable_properties : list string := ["typecode"; "dimensions"].
Definition unlimited_dimensions : list string := [].
Definition create_variable_kwds : gmap string pyval := ∅.

(** [ignore_global_re.match(k) != None], and the same for
    [ignore_variable_re].  The pattern asks for an underscore at the start
    of [k], then any number of word characters, then optionally two
    underscores and word characters: it matches exactly when [k] starts
    with an underscore, since what follows the first underscore also
    matches the empty string. *)
Definition ignore_re_match (k : string) : bool :=
  String.eqb (str_take 1 k) "_".

(** The instance attributes [__init__] sets. *)
Record Pseudo2NetCDF := mkConverter { datafirst : bool; verbose : bool }.


Section Converter.
Context {V : Type} `{!Numeric V}.
#[local] Abbreviation File := (PseudoNetCDFFile V).
#[local] Abbreviation Variable_ := (PseudoNetCDFVariable V).

(** [nfile.createDimension(name, length)] for a length that may be
    [None]: [PseudoNetCDFDimension.__init__] applies [int] to it. *)
Definition createDimension_of (self : File) (name : string) (length : pyval)
  : result File :=
  match length with
  | PyInt z => Ok (createDimension self name z)
  | PyNone => Raise TypeError
  | _ => Raise Unmodelled
  end.

(** The body of the loop of [addDimensions]. *)
Definition addDimensions_step (nfile : File)
    (dv : string * PseudoNetCDFDimension) : result File :=
  let '(d, v) := dv in
  v ← (if str_in d unlimited_dimensions || isunlimited v then Ok PyNone
       else n ← len_dim v; Ok (PyInt (Z.of_nat n)));
  createDimension_of nfile d v.

(** [Pseudo2NetCDF.addDimensions(pfile, nfile)] onto a dataset object of
    this module, whose [sync] does nothing. *)
Definition addDimensions (pfile nfile : File) : result File :=
  for_each addDimensions_step (map_to_list (dimensions pfile)) nfile.

(** [pfile.__dict__.keys()]. *)
Definition file_dict_keys (pfile : File) : list string :=
  (["variables"; "dimensions"; "_ncattrs"] ++ keys (props pfile))%list.

(** The names the loop of [addGlobalProperties] visits. *)
Definition global_property_names (pfile : File) : list string :=
  List.filter (λ k, negb (str_in k ignore_global_properties)
                    && negb (ignore_re_match k))
              (file_dict_keys pfile).

(** The body of the loop of [addGlobalProperties]; the state is the target
    and the warnings issued so far. *)
Definition addGlobalProperties_step (pfile : File) (st : File * list string)
    (k : string) : result (File * list string) :=
  let '(nfile, warnings) := st in
  value ← file_getattr pfile k;
  match value with
  | FVal (PyMethod _) => Ok st
  | _ =>
      match PseudoNetCDFFile__setattr__ nfile k value with
      | Ok nfile => Ok (nfile, warnings)
      | Raise Unmodelled => Raise Unmodelled
      | Raise _ =>
          let w := "Could not add " ++ k ++ " to file" in
          Ok (nfile, (warnings ++ [w])%list)
      end
  end.

(** [Pseudo2NetCDF.addGlobalProperties(pfile, nfile)]. *)
Definition addGlobalProperties (pfile : File) (st : File * list string)
  : result (File * list string) :=
  for_each (addGlobalProperties_step pfile) (global_property_names pfile) st.

(** The names the loop of [addVariableProperties] visits. *)
Definition variable_property_names (pvar : Variable_) : list string :=
  List.filter (λ k, negb (str_in k ignore_variable_properties)
                    && negb (ignore_re_match k))
              (keys (__dict__ pvar)).

(** The text of the warning of [addVariableProperties]. *)
Definition variable_property_warning (pvar : Variable_) (a : string)
    (value : pyval) : result string :=
  if str_in "long_name" (keys (__dict__ pvar)) then
    s ← str_val value;
    long_name ← getattr pvar "long_name";
    l ← str_val long_name;
    Ok ("Could not add " ++ a ++ "=" ++ s ++ " to variable " ++ l)
  else
    s ← str_val value;
    Ok ("Could not add " ++ a ++ "=" ++ s ++ " to variable").

(** The body of the loop of [addVariableProperties]. *)
Definition addVariableProperties_step (pvar : Variable_)
    (st : Variable_ * list string) (a : string)
  : result (Variable_ * list string) :=
  let '(nvar, warnings) := st in
  value ← getattr pvar a;
  match value with
  | PyMethod _ => Ok st
  | _ =>
      match PseudoNetCDFVariable__setattr__ nvar a value with
      | Ok nvar => Ok (nvar, warnings)
      | Raise Unmodelled => Raise Unmodelled
      | Raise _ =>
          w ← variable_property_warning pvar a value;
          Ok (nvar, (warnings ++ [w])%list)
      end
  end.

(** [Pseudo2NetCDF.addVariableProperties(pvar, nvar)]. *)
Definition addVariableProperties (pvar : Variable_)
    (st : Variable_ * list string) : result (Variable_ * list string) :=
  for_each (addVariableProperties_step pvar) (variable_property_names pvar) st.

(** [target[:] = source]: the elements of [source] are broadcast over the
    whole of [target], which keeps its shape and dtype.  A target without
    axes cannot be sliced.  The casts between dtypes are not modelled. *)
Definition assign_all (target source : ndarray V) : result (ndarray V) :=
  if (ndim target =? 0)%nat then Raise IndexError
  else if negb (String.eqb (dtype target) (dtype source)) then Raise Unmodelled
  else
    s ← broadcast_shape (shape source) (shape target);
    if bool_decide (s = shape target) then
      Ok {| shape := shape target; dtype := dtype target;
            data := omap (λ idx, get source (broadcast_index (shape source) idx))
                         (indices (shape target)) |}
    else Raise ValueError.

(** [Pseudo2NetCDF.addVariableData(pfile, nfile, k)].  [isscalar(nvar)] is
    false of an array instance, and the model has no masked arrays: the
    last branch is taken, after [pvar[...]] was derived once for the test
    of the branch before it. *)
Definition addVariableData (pfile nfile : File) (k : string) : result File :=
  nvar ← from_option KeyError (variables nfile !! k);
  pvar ← from_option KeyError (variables pfile !! k);
  _ ← ellipsis pvar;
  values ← ellipsis pvar;
  a ← assign_all (arr nvar) (arr values);
  Ok (set_variable nfile k {| arr := a; __dict__ := __dict__ nvar |}).

(** [typecode = pvar.typecode()], and what the [except] puts in its place. *)
Definition variable_typecode (pvar : Variable_) : result string :=
  match getattr pvar "typecode" with
  | Ok (PyLambda typecode) => Ok typecode
  | Ok (PyMethod _) | Raise Unmodelled => Raise Unmodelled
  | _ => values ← ellipsis pvar; Ok (dtype (arr values))
  end.

(** [Pseudo2NetCDF.addVariable(pfile, nfile, k, data)]; [sync] and [flush]
    do nothing on a dataset object of this module. *)
Definition addVariable (pfile : File) (st : File * list string) (k : string)
    (data : bool) : result (File * list string) :=
  let '(nfile, warnings) := st in
  pvar ← from_option KeyError (variables pfile !! k);
  typecode ← variable_typecode pvar;
  d ← getattr pvar "dimensions";
  names ← iter_names d;
  nfile ← createVariable nfile k typecode names None create_variable_kwds;
  nvar ← from_option KeyError (variables nfile !! k);
  '(nvar, warnings) ← addVariableProperties pvar (nvar, warnings);
  let nfile := set_variable nfile k nvar in
  nfile ← (if data then addVariableData pfile nfile k else Ok nfile);
  Ok (nfile, warnings).

(** What a conversion has produced so far: the target, the lines printed
    and the warnings issued. *)
Record conversion := mkConversion {
  nfile_of : File; printed : list string; warned : list string
}.

(** [if self.verbose: print >> sys.stdout, line]. *)
Definition say (self : Pseudo2NetCDF) (line : string) (c : conversion)
  : conversion :=
  {| nfile_of := nfile_of c;
     printed := if verbose self then (printed c ++ [line])%list else printed c;
     warned := warned c |}.

(** The body of the first loop of [addVariables]. *)
Definition define_step (self : Pseudo2NetCDF) (pfile : File) (c : conversion)
    (k : string) : result conversion :=
  let c := say self ("Defining " ++ k) c in
  '(nfile, warnings) ← addVariable pfile (nfile_of c, warned c) k
                         (datafirst self);
  Ok {| nfile_of := nfile; printed := printed c; warned := warnings |}.

(** The body of the second loop of [addVariables]. *)
Definition populate_step (self : Pseudo2NetCDF) (pfile : File) (c : conversion)
    (k : string) : result conversion :=
  let c := say self ("Populating " ++ k) c in
  nfile ← addVariableData pfile (nfile_of c) k;
  Ok {| nfile_of := nfile; printed := printed c; warned := warned c |}.

(** [Pseudo2NetCDF.addVariables(pfile, nfile)]. *)
Definition addVariables (self : Pseudo2NetCDF) (pfile : File) (c : conversion)
  : result conversion :=
  c ← for_each (define_step self pfile) (keys (variables pfile)) c;
  if datafirst self then Ok c
  else for_each (populate_step self pfile) (keys (variables pfile)) c.

(** [Pseudo2NetCDF.convert(pfile, npath, inmode, outmode)] for a source
    and a target that are different objects. *)
Definition convert (self : Pseudo2NetCDF) (pfile npath : ncf_argument File)
    (inmode outmode : string) : result conversion :=
  pfile ← get_ncf_object pfile inmode;
  nfile ← get_ncf_object npath outmode;
  let c := say self "Adding dimensions"
             {| nfile_of := nfile; printed := []; warned := [] |} in
  nfile ← addDimensions pfile (nfile_of c);
  let c := say self "Adding globals"
             {| nfile_of := nfile; printed := printed c; warned := warned c |} in
  '(nfile, warnings) ← addGlobalProperties pfile (nfile_of c, warned c);
  let c := say self "Adding variables"
             {| nfile_of := nfile; printed := printed c; warned := warnings |} in
  addVariables self pfile c.
End Converter.

(** ** Predicates of the statements about the converter *)

Definition is_method (v : pyval) : bool :=
  match v with PyMethod _ => true | _ => false end.

(** An entry of the source's [__dict__] that [addGlobalProperties] copies:
    its name is not ignored and its value is not a method. *)
Definition copied_property (kv : string * pyval) : bool :=
  negb (str_in kv.1 ignore_global_properties) && negb (ignore_re_match kv.1)
  && negb (is_method kv.2).



Section ConverterStatements.
Context {V : Type} `{!Numeric V}.



End ConverterStatements.


(** ** [PseudoNetCDFVariableConvertUnit] *)

(** [x.strip()]: only a string has the method. *)
Definition py_strip (x : pyval) : result string :=
  match x with
  | PyStr s => Ok (strip s)
  | _ => Raise AttributeError
  end.

(** [x()] for an attribute value. *)
Definition py_call (x : pyval) : result string :=
  match x with
  | PyLambda ret => Ok ret
  | PyMethod _ => Raise Unmodelled
  | _ => Raise TypeError
  end.

Section ConvertUnit.
Context {V : Type} `{!Numeric V}.

(** [units.convert(var, unit, outunit)], a function of another module:
    the array it returns. *)
Variable convert : PseudoNetCDFVariable V → pyval → string
                   → result (PseudoNetCDFVariable V).

(** [PseudoNetCDFVariableConvertUnit(var, outunit)]. *)
Definition PseudoNetCDFVariableConvertUnit (var : PseudoNetCDFVariable V)
    (outunit : string) : result (PseudoNetCDFVariable V) :=
  let do : PseudoNetCDFFile V := PseudoNetCDFFile__new__ in
  d ← getattr var "dimensions";
  names ← iter_names d;
  do ← for_each (λ do id,
                   n ← from_option IndexError (shape (arr var) !! id.1);
                   Ok (createDimension do id.2 (Z.of_nat n)))
                (imap pair names) do;
  long_name ← getattr var "long_name";
  name ← py_strip long_name;
  typecode ← getattr var "typecode";
  typecode ← py_call typecode;
  d ← getattr var "dimensions";
  names ← iter_names d;
  unit ← getattr var "units";
  values ← convert var unit outunit;
  outvar ← PseudoNetCDFVariable__new__ (dimensions do) name typecode names
             (Some values) ∅;
  outvar ← for_each (λ outvar kv, PseudoNetCDFVariable__setattr__ outvar kv.1 kv.2)
                    (map_to_list (__dict__ var)) outvar;
  PseudoNetCDFVariable__setattr__ outvar "units" (PyStr outunit).
End ConvertUnit.

(** An IOAPI-style variable over [TIME], and a conversion that leaves the
    elements as they are. *)
Definition o3_ioapi : PseudoNetCDFVariable Q :=
  get_ok (plain [] [])
    (PseudoNetCDFVariable__new__ ∅ "O3" "d" ["TIME"]
       (Some (plain [3%nat] [1; 2; 3]%Q))
       {["units" := PyStr "ppbv"; "long_name" := PyStr "O3  "]}).
Definition same_elements (var : PseudoNetCDFVariable Q) (unit : pyval)
    (outunit : string) : result (PseudoNetCDFVariable Q) :=
  Ok {| arr := arr var; __dict__ := ∅ |}.

(* ===================================================================== *)
(** * Part II: properties *)
(* ===================================================================== *)

(** From here on [++] is list concatenation; strings are joined with
    [+:+]. *)
Open Scope list_scope.
#[local] Set Warnings "-clear-no-such-hyp".

(** ** Results and loops *)

Lemma bind_Ok {A B} (m : result A) (k : A → result B) (b : B) :
  m ≫= k = Ok b ↔ ∃ a, m = Ok a ∧ k a = Ok b.
Proof.
  destruct m as [a|e]; simpl; split.
  - intros Hk. exists a. by split.
  - intros (a' & Ha & Hk). by simplify_eq.
  - intros [=].
  - intros (a' & [=] & _).
Qed.

Lemma fmap_Ok {A B} (m : result A) (g : A → B) (b : B) :
  g <$> m = Ok b ↔ ∃ a, m = Ok a ∧ b = g a.
Proof.
  destruct m as [a|e]; simpl; split.
  - intros [= <-]. by exists a.
  - intros (a' & [= <-] & ->). done.
  - intros [=].
  - intros (a' & [=] & _).
Qed.

Lemma for_each_app {S X} (body : S → X → result S) (xs ys : list X) (s : S) :
  for_each body (xs ++ ys) s = for_each body xs s ≫= for_each body ys.
Proof.
  revert s. induction xs as [|x xs IH]; intros s; simpl; [done|].
  destruct (body s x) as [s'|e]; simpl; [apply IH|done].
Qed.

(** A property that every iteration preserves holds after the loop. *)
Lemma for_each_invariant {S X} (P : S → Prop) (body : S → X → result S)
    (xs : list X) (s s' : S) :
  (∀ s x s', x ∈ xs → P s → body s x = Ok s' → P s') →
  P s → for_each body xs s = Ok s' → P s'.
Proof.
  revert s. induction xs as [|x xs IH]; intros s Hbody HP; simpl.
  - by intros [= <-].
  - intros (s1 & H1 & H2)%bind_Ok.
    eapply IH; [| |exact H2].
    + intros ? ? ? Hin. apply Hbody. by right.
    + eapply Hbody; [by left|exact HP|exact H1].
Qed.

(** A loop whose iterations leave the state alone leaves it alone. *)
Lemma for_each_id {S X} (body : S → X → result S) (xs : list X) (s : S) :
  (∀ x, x ∈ xs → body s x = Ok s) → for_each body xs s = Ok s.
Proof.
  induction xs as [|x xs IH]; intros Hbody; simpl; [done|].
  rewrite Hbody by (by left). simpl. apply IH.
  intros ? ?. apply Hbody. by right.
Qed.

(** ** C10: [get_dimension_length] *)

Section DimensionLength.
Context {V : Type} `{!Numeric V}.

Lemma file_hasattr_dimsensions (pfile : PseudoNetCDFFile V) :
  file_hasattr pfile "dimsensions" = false ↔ props pfile !! "dimsensions" = None.
Proof.
  unfold file_hasattr. simpl.
  destruct (props pfile !! "dimsensions") as [v|] eqn:E; split; done.
Qed.

Lemma object_setattr_ncattrs (f : PseudoNetCDFFile V) ks :
  object__setattr__ f "_ncattrs" (FVal (PyTuple ks))
  = Ok {| variables := variables f; dimensions := dimensions f;
          _ncattrs := ks; props := props f |}.
Proof. reflexivity. Qed.

(** The reserved entries never reach [props]; an assignment adds at most
    its own name to it. *)
Lemma file_setattr_props (f f' : PseudoNetCDFFile V) k v j :
  PseudoNetCDFFile__setattr__ f k v = Ok f' → j ≠ k →
  props f' !! j = props f !! j.
Proof.
  unfold PseudoNetCDFFile__setattr__.
  intros (f1 & H1 & H2)%bind_Ok Hj.
  assert (props f1 = props f) as <-.
  { destruct (negb _); [|by simplify_eq].
    rewrite object_setattr_ncattrs in H1. by simplify_eq. }
  revert H2. unfold object__setattr__.
  repeat case_match; intros; simplify_eq/=; try done.
  all: by rewrite lookup_insert_ne.
Qed.

(** C10.  For every file object with no attribute named [dimsensions]
    and every key, [get_dimension_length] raises an attribute-lookup
    error: the misspelt field is read before any other branch runs.  In
    particular this is so for every Dataset built by [PseudoNetCDFFile]
    from keyword properties that do not name [dimsensions]. *)
Theorem get_dimension_length_raises (pfile : PseudoNetCDFFile V) (key : string) :
  file_hasattr pfile "dimsensions" = false →
  get_dimension_length pfile key = Raise AttributeError
  ∧ (∀ (properties : gmap string (fval V)) (f : PseudoNetCDFFile V),
       properties !! "dimsensions" = None →
       PseudoNetCDFFile__init__ properties = Ok f →
       get_dimension_length f key = Raise AttributeError).
Proof.
  assert (∀ p : PseudoNetCDFFile V, props p !! "dimsensions" = None →
            get_dimension_length p key = Raise AttributeError) as Hraise.
  { intros p Hp. unfold get_dimension_length, file_getattr. simpl.
    by rewrite Hp. }
  intros Hno%file_hasattr_dimsensions. split; [by apply Hraise|].
  intros properties f Hnone Hinit. apply Hraise.
  revert Hinit. unfold PseudoNetCDFFile__init__.
  apply (for_each_invariant (λ f, props f !! "dimsensions" = None)); [|done].
  intros s [k v] s' Hin Hs Hset. simpl in Hset.
  rewrite (file_setattr_props _ _ _ _ _ Hset); [done|].
  intros <-. apply elem_of_map_to_list in Hin. congruence.
Qed.
End DimensionLength.

Lemma get_dimension_length_raises_witness :
  file_hasattr (V := Q) PseudoNetCDFFile__new__ "dimsensions" = false
  ∧ get_dimension_length (V := Q) PseudoNetCDFFile__new__ "TIME"
    = Raise AttributeError
  ∧ (∀ (properties : gmap string (fval Q)) (f : PseudoNetCDFFile Q),
       properties !! "dimsensions" = None →
       PseudoNetCDFFile__init__ properties = Ok f →
       get_dimension_length f "TIME" = Raise AttributeError).
Proof.
  split; [reflexivity|].
  apply (get_dimension_length_raises (V := Q) PseudoNetCDFFile__new__ "TIME").
  reflexivity.
Defined.

(** ** C7: the lazy variable registry *)

Section RegistryFacts.
Context {Var : Type}.
Implicit Types (st : registry_state Var) (k : string).

Lemma registry_keys_declared st k :
  store (registry st) !! k = None →
  k ∈ registry_keys (registry st) ↔ k ∈ __keys (registry st).
Proof.
  intros Hk. unfold registry_keys.
  rewrite elem_of_remove_dups, elem_of_app. split; [|by right].
  intros [Hin|Hin]; [|done].
  apply list_elem_of_fmap in Hin as ([k' v] & -> & Hin).
  apply elem_of_map_to_list in Hin. simpl in Hk. congruence.
Qed.

Lemma getitem_declared st k :
  store (registry st) !! k = None → k ∈ __keys (registry st) →
  __getitem__ k st
  = (__func (registry st) k,
     {| registry := registry st; factory_calls := factory_calls st ++ [k] |}).
Proof.
  intros Hk Hin. unfold __getitem__, __missing__, str_in. rewrite Hk.
  rewrite bool_decide_eq_true_2; [done|]. by apply registry_keys_declared.
Qed.

(** C7.  For a registry with factory [func] and declared keys [K], and a
    key [k] that the underlying mapping does not store: when [k] is not
    declared the lookup raises the missing-key error (and the factory is
    not invoked); when [k] is declared every one of [n] successive
    lookups returns [func k], each invokes the factory again, and the
    registry is left as it was: nothing is cached. *)
Theorem registry_lookup (func : string → result Var) (K : list string)
    st k :
  __func (registry st) = func → __keys (registry st) = K →
  store (registry st) !! k = None →
  (k ∉ K → __getitem__ k st = (Raise KeyError, st))
  ∧ (k ∈ K → ∀ n,
       lookups n k st
       = (replicate n (func k),
          {| registry := registry st;
             factory_calls := factory_calls st ++ replicate n k |})).
Proof.
  intros <- <- Hk. split.
  - intros Hnot. unfold __getitem__, __missing__, str_in. rewrite Hk.
    rewrite bool_decide_eq_false_2; [done|].
    by rewrite registry_keys_declared.
  - intros Hin n. revert st Hk Hin.
    induction n as [|n IH]; intros st Hk Hin; simpl.
    + rewrite app_nil_r. by destruct st.
    + rewrite getitem_declared by done.
      rewrite IH by done. simpl.
      by rewrite <- app_assoc.
Qed.
End RegistryFacts.

Lemma registry_lookup_witness :
  __func (registry test_registry) = test_factory
  ∧ __keys (registry test_registry) = ["NO"; "O3"]
  ∧ store (registry test_registry) !! "O3" = None
  ∧ ("O3" ∉ ["NO"; "O3"] → __getitem__ "O3" test_registry
                             = (Raise KeyError, test_registry))
  ∧ ("O3" ∈ ["NO"; "O3"] → ∀ n,
       lookups n "O3" test_registry
       = (replicate n (test_factory "O3"),
          {| registry := registry test_registry;
             factory_calls := factory_calls test_registry ++ replicate n "O3" |})).
Proof.
  split; [reflexivity|]. split; [reflexivity|]. split; [reflexivity|].
  exact (registry_lookup test_factory ["NO"; "O3"] test_registry "O3"
           eq_refl eq_refl eq_refl).
Defined.

(** ** C2: the file-attribute bookkeeping of a Dataset *)

Section FileAttributes.
Context {V : Type} `{!Numeric V}.
Implicit Types (f : PseudoNetCDFFile V).

(** What one assignment does to the recorded names: a name that is not
    excluded is appended, whether or not it is already there. *)
Lemma file_setattr_ncattrs f f' k (v : pyval) :
  k ≠ "_ncattrs" →
  PseudoNetCDFFile__setattr__ f k (FVal v) = Ok f' →
  ncattrs f' = if excluded k then ncattrs f else ncattrs f ++ [k].
Proof.
  unfold PseudoNetCDFFile__setattr__, ncattrs. fold (excluded k).
  intros Hk (f1 & H1 & H2)%bind_Ok.
  assert (_ncattrs f' = _ncattrs f1) as ->.
  { revert H2. unfold object__setattr__.
    destruct (String.eqb_spec k "_ncattrs"); [done|].
    repeat case_match; intros; by simplify_eq/=. }
  destruct (excluded k); simpl in H1; [by simplify_eq|].
  rewrite object_setattr_ncattrs in H1. by simplify_eq.
Qed.
End FileAttributes.

(** C2.  The bookkeeping is not exact: a fresh Dataset on which the file
    attribute [history] is assigned twice (as two successive
    transformations do) reports the name twice. *)
Theorem file_ncattrs_duplicates :
  (f ← PseudoNetCDFFile__setattr__ (V := Q) PseudoNetCDFFile__new__
         "history" (FVal (PyStr "slice_dim(f, x,0, fuzzydim = True); "));
   f ← PseudoNetCDFFile__setattr__ f
         "history" (FVal (PyStr "slice_dim(f, x,0, fuzzydim = True); slice_dim(f, y,0, fuzzydim = True); "));
   Ok (ncattrs f))
  = Ok ["history"; "history"].
Proof. reflexivity. Qed.

(** ** C1: attribute propagation to derived arrays *)

Section AttributedArrays.
Context {V : Type} `{!Numeric V}.
Implicit Types (v p d self : PseudoNetCDFVariable V) (k : string).

Lemma recordable_spec k :
  recordable k = true →
  String.eqb (str_take 1 k) "_" = false
  ∧ str_in k ndarray_descriptors = false ∧ str_in k ndarray_methods = false.
Proof.
  unfold recordable. rewrite !andb_true_iff, !negb_true_iff. tauto.
Qed.

Lemma recordable_not_ncattrs k : recordable k = true → k ≠ "_ncattrs".
Proof. intros Hk ->. discriminate Hk. Qed.

(** The first assignment of a recordable name records it. *)
Lemma setattr_new self k x nc :
  __dict__ self !! "_ncattrs" = Some (PyTuple nc) →
  __dict__ self !! k = None → recordable k = true →
  PseudoNetCDFVariable__setattr__ self k x
  = Ok {| arr := arr self;
          __dict__ := <[k := x]> (<["_ncattrs" := PyTuple (nc ++ [k])]>
                                    (__dict__ self)) |}.
Proof.
  intros Hnc Hk (Hu & Hd & Hm)%recordable_spec.
  unfold PseudoNetCDFVariable__setattr__, hasattr, getattr.
  rewrite Hk, Hd, Hm, Hu. simpl. rewrite Hnc. simpl.
  unfold ndarray__setattr__. simpl. by rewrite Hd.
Qed.

(** Assigning a name the instance has, or a name with the underscore in
    front, records nothing. *)
Lemma setattr_old self k x :
  hasattr self k = true ∨ String.eqb (str_take 1 k) "_" = true →
  str_in k ndarray_descriptors = false →
  PseudoNetCDFVariable__setattr__ self k x
  = Ok {| arr := arr self; __dict__ := <[k := x]> (__dict__ self) |}.
Proof.
  intros Hk Hd. unfold PseudoNetCDFVariable__setattr__.
  assert (negb (hasattr self k) && negb (String.eqb (str_take 1 k) "_")
          = false) as ->.
  { destruct Hk as [-> | ->]; [done|]. by rewrite andb_false_r. }
  simpl. unfold ndarray__setattr__. by rewrite Hd.
Qed.

Lemma hasattr_present v k : is_Some (__dict__ v !! k) → hasattr v k = true.
Proof. intros [x Hx]. unfold hasattr. by rewrite Hx. Qed.

Lemma hasattr_absent v k :
  __dict__ v !! k = None → recordable k = true → hasattr v k = false.
Proof.
  intros Hx (_ & Hd & Hm)%recordable_spec. unfold hasattr.
  by rewrite Hx, Hd, Hm.
Qed.

Lemma getattr_present v k x :
  __dict__ v !! k = Some x → str_in k ndarray_descriptors = false →
  getattr v k = Ok x.
Proof. intros Hk Hd. unfold getattr. by rewrite Hd, Hk. Qed.

(** The loop of [__array_finalize__] over the names recorded on the
    parent: it copies them, in order, onto an instance that has none of
    them. *)
Lemma finalize_copy_loop p nc dims (l2 l1 : list string) self :
  attributed p nc dims → l1 ++ l2 ⊆ nc → NoDup (l1 ++ l2) →
  __dict__ self !! "_ncattrs" = Some (PyTuple l1) →
  (∀ k, k ∉ l1 → k ≠ "_ncattrs" → __dict__ self !! k = None) →
  (∀ k, k ∈ l1 → __dict__ self !! k = __dict__ p !! k) →
  ∃ self',
    for_each (λ self k, x ← getattr p k;
                        PseudoNetCDFVariable__setattr__ self k x) l2 self
    = Ok self'
    ∧ arr self' = arr self
    ∧ __dict__ self' !! "_ncattrs" = Some (PyTuple (l1 ++ l2))
    ∧ (∀ k, k ∉ l1 ++ l2 → k ≠ "_ncattrs" → __dict__ self' !! k = None)
    ∧ (∀ k, k ∈ l1 ++ l2 → __dict__ self' !! k = __dict__ p !! k).
Proof.
  intros Hp. revert l1 self.
  induction l2 as [|k l2 IH]; intros l1 self Hsub Hnd Hnc Hnone Hsame.
  - exists self. rewrite app_nil_r. by simpl.
  - assert (k ∈ nc) as Hk by (apply Hsub; set_solver).
    destruct (attributed_present _ _ _ Hp k Hk) as [x Hx].
    destruct (attributed_recordable _ _ _ Hp k Hk) as [Hrec Hkd].
    pose proof (recordable_spec _ Hrec) as (Hu & Hd & Hm).
    pose proof (recordable_not_ncattrs _ Hrec) as Hkn.
    apply NoDup_app in Hnd as (Hnd1 & Hnd12 & Hnd2).
    assert (k ∉ l1) as Hk1.
    { intros Hin. apply (Hnd12 _ Hin). by left. }
    simpl. rewrite (getattr_present _ _ _ Hx Hd). simpl.
    rewrite (setattr_new _ _ _ _ Hnc (Hnone _ Hk1 Hkn) Hrec). simpl.
    destruct (IH (l1 ++ [k])
                {| arr := arr self;
                   __dict__ := <[k := x]> (<["_ncattrs" := PyTuple (l1 ++ [k])]>
                                             (__dict__ self)) |})
      as (self' & Hloop & Harr & Hnc' & Hnone' & Hsame').
    + rewrite <- app_assoc. done.
    + rewrite <- app_assoc. simpl. apply NoDup_app. split_and!; [done| |done].
      intros j Hj. by apply Hnd12.
    + simpl. rewrite lookup_insert_ne by done. by rewrite lookup_insert_eq.
    + simpl. intros j Hj Hjn.
      rewrite not_elem_of_app, not_elem_of_cons in Hj.
      destruct Hj as [Hj1 [Hjk _]].
      rewrite !lookup_insert_ne by done. by apply Hnone.
    + simpl. intros j [Hj| ->%list_elem_of_singleton]%elem_of_app.
      * assert (j ≠ k) by (intros ->; done).
        assert (j ≠ "_ncattrs").
        { apply recordable_not_ncattrs.
          apply (attributed_recordable _ _ _ Hp). apply Hsub. set_solver. }
        rewrite !lookup_insert_ne by done. by apply Hsame.
      * by rewrite lookup_insert_eq.
    + exists self'. rewrite <- app_assoc in *. simpl in *. by split_and!.
Qed.

Lemma removelast_snoc {A} (l : list A) (x : A) : removelast (l ++ [x]) = l.
Proof.
  induction l as [|y l IH]; [done|]. simpl.
  rewrite IH. by destruct l.
Qed.

(** One derivation from an Attributed Array, whatever the result buffer
    [a] is: the new instance has the recorded names of the parent, their
    values, and the whole dimension-name entry of the parent. *)
Lemma derive_attributed (a : ndarray V) p nc dims :
  attributed p nc dims →
  ∃ d, derive a p = Ok d
       ∧ arr d = a
       ∧ attributed d nc dims
       ∧ (∀ k, k ∈ nc → __dict__ d !! k = __dict__ p !! k).
Proof.
  intros Hp.
  pose proof (attributed_ncattrs _ _ _ Hp) as Hnc.
  pose proof (attributed_dimensions _ _ _ Hp) as Hdims.
  assert ("dimensions" ∉ nc) as Hdnc.
  { intros Hin. by destruct (attributed_recordable _ _ _ Hp _ Hin). }
  unfold derive, PseudoNetCDFVariable__array_finalize__.
  replace (hasattr {| arr := a; __dict__ := ∅ |} "_ncattrs") with false
    by reflexivity.
  simpl negb. cbv iota.
  rewrite setattr_old by (by right || done). simpl.
  rewrite (hasattr_present p "_ncattrs") by (by rewrite Hnc).
  rewrite (getattr_present _ _ _ Hnc) by reflexivity. simpl.
  destruct (finalize_copy_loop p nc dims nc []
              {| arr := a; __dict__ := <["_ncattrs" := PyTuple []]> ∅ |} Hp)
    as (self1 & -> & Harr & Hnc1 & Hnone1 & Hsame1).
  { done. }
  { apply (attributed_nodup _ _ _ Hp). }
  { simpl. by rewrite lookup_insert_eq. }
  { simpl. intros k _ Hk. rewrite lookup_insert_ne by done. apply lookup_empty. }
  { intros k Hk. by apply not_elem_of_nil in Hk. }
  simpl in *. unfold finalize_dimensions.
  assert (__dict__ self1 !! "dimensions" = None) as Hd1 by (by apply Hnone1).
  rewrite (hasattr_absent self1 "dimensions") by done. simpl.
  rewrite (hasattr_present p "dimensions") by (by rewrite Hdims).
  rewrite (getattr_present _ _ _ Hdims) by reflexivity. simpl.
  rewrite (setattr_new _ _ _ _ Hnc1 Hd1) by reflexivity. simpl.
  unfold getattr at 1. simpl.
  rewrite lookup_insert_ne by done. rewrite lookup_insert_eq. simpl.
  rewrite removelast_snoc.
  rewrite setattr_old; [|right; reflexivity|reflexivity]. simpl.
  eexists. split; [reflexivity|]. simpl. split; [exact Harr|]. split.
  - constructor; simpl.
    + by rewrite lookup_insert_eq.
    + apply (attributed_nodup _ _ _ Hp).
    + intros k Hk.
      destruct (attributed_recordable _ _ _ Hp k Hk) as [Hrec Hkd].
      pose proof (recordable_not_ncattrs _ Hrec).
      rewrite !lookup_insert_ne by done.
      rewrite Hsame1 by done. by apply (attributed_present _ _ _ Hp).
    + apply (attributed_recordable _ _ _ Hp).
    + rewrite lookup_insert_ne by done. by rewrite lookup_insert_eq.
  - intros k Hk.
    destruct (attributed_recordable _ _ _ Hp k Hk) as [Hrec Hkd].
    pose proof (recordable_not_ncattrs _ Hrec).
    rewrite !lookup_insert_ne by done. by apply Hsame1.
Qed.

(** Attribute assignment keeps an Attributed Array one. *)
Lemma setattr_attributed v nc dims k x v' :
  attributed v nc dims → k ≠ "_ncattrs" →
  PseudoNetCDFVariable__setattr__ v k x = Ok v' →
  ∃ nc' dims', attributed v' nc' dims'.
Proof.
  intros Hv Hk Hset.
  destruct (str_in k ndarray_descriptors) eqn:Hd.
  { unfold PseudoNetCDFVariable__setattr__ in Hset.
    apply bind_Ok in Hset as (s1 & _ & H2).
    unfold ndarray__setattr__ in H2. by rewrite Hd in H2. }
  destruct (decide (hasattr v k = true ∨ String.eqb (str_take 1 k) "_" = true))
    as [Hold|Hnew].
  - rewrite setattr_old in Hset by done. simplify_eq.
    exists nc, (if decide (k = "dimensions") then x else dims).
    constructor; simpl.
    + rewrite lookup_insert_ne by done. apply (attributed_ncattrs _ _ _ Hv).
    + apply (attributed_nodup _ _ _ Hv).
    + intros j Hj. rewrite lookup_insert. case_decide; [by eexists|].
      by apply (attributed_present _ _ _ Hv).
    + apply (attributed_recordable _ _ _ Hv).
    + rewrite lookup_insert. case_decide; subst; [done|].
      apply (attributed_dimensions _ _ _ Hv).
  - assert (hasattr v k = false ∧ String.eqb (str_take 1 k) "_" = false)
      as [Hh Hu].
    { split; apply not_true_is_false; tauto. }
    assert (__dict__ v !! k = None ∧ str_in k ndarray_methods = false) as [Hnone Hm].
    { revert Hh. unfold hasattr. rewrite Hd.
      destruct (__dict__ v !! k); [done|]. simpl. done. }
    assert (recordable k = true) as Hrec.
    { unfold recordable. by rewrite Hu, Hd, Hm. }
    rewrite (setattr_new _ _ _ _ (attributed_ncattrs _ _ _ Hv) Hnone Hrec) in Hset.
    simplify_eq.
    assert (k ≠ "dimensions") as Hkd.
    { intros ->. rewrite (attributed_dimensions _ _ _ Hv) in Hnone. done. }
    exists (nc ++ [k]), dims. constructor; simpl.
    + rewrite lookup_insert_ne by done. by rewrite lookup_insert_eq.
    + apply NoDup_app. split_and!.
      * apply (attributed_nodup _ _ _ Hv).
      * intros j Hj ->%list_elem_of_singleton.
        destruct (attributed_present _ _ _ Hv _ Hj) as [y Hy]. congruence.
      * apply NoDup_singleton.
    + intros j [Hj| ->%list_elem_of_singleton]%elem_of_app.
      * rewrite lookup_insert. case_decide; [by eexists|].
        rewrite lookup_insert. case_decide; [by eexists|].
        by apply (attributed_present _ _ _ Hv).
      * rewrite lookup_insert_eq. by eexists.
    + intros j [Hj| ->%list_elem_of_singleton]%elem_of_app; [|done].
      by apply (attributed_recordable _ _ _ Hv).
    + rewrite !lookup_insert_ne by done. apply (attributed_dimensions _ _ _ Hv).
Qed.

(** The constructor builds an Attributed Array, from the Dimensions of
    the parent, from a plain array of values, or from an Attributed
    Array of values. *)
Lemma new_attributed pd name typecode dnames values kwds v :
  (∀ w, values = Some w → __dict__ w = ∅ ∨ ∃ nc dv, attributed w nc dv) →
  kwds !! "_ncattrs" = None →
  PseudoNetCDFVariable__new__ pd name typecode dnames values kwds = Ok v →
  ∃ nc dv, attributed v nc dv.
Proof.
  intros Hvalues Hkw. unfold PseudoNetCDFVariable__new__.
  intros (r0 & Hr0 & (r1 & Hr1 & (r2 & Hr2 & Hloop)%bind_Ok)%bind_Ok)%bind_Ok.
  assert (__dict__ r0 = ∅ ∨ ∃ nc dv, attributed r0 nc dv) as Hr0'.
  { destruct values as [w|].
    - simplify_eq. by apply Hvalues.
    - apply bind_Ok in Hr0 as (s & _ & ?). simplify_eq. by left. }
  clear Hr0 Hvalues.
  assert (∃ nc, attributed
             {| arr := arr r2;
                __dict__ := <["dimensions" := PyTuple dnames]>
                              (<["typecode" := PyLambda typecode]> (__dict__ r2)) |}
             nc (PyTuple dnames)) as [nc Hstart].
  { unfold ellipsis, derived_by in Hr1, Hr2. simpl in Hr1, Hr2.
    destruct Hr0' as [Hplain|(nc & dv & Hattr)].
    - destruct r0 as [a0 d0]. simpl in *. subst d0.
      assert (r1 = {| arr := a0; __dict__ := {["_ncattrs" := PyTuple []]} |})
        as -> by (by vm_compute in Hr1; simplify_eq).
      assert (r2 = {| arr := a0; __dict__ := {["_ncattrs" := PyTuple []]} |})
        as -> by (by vm_compute in Hr2; simplify_eq).
      exists []. constructor; simpl; try done.
      + apply NoDup_nil_2.
      + intros k Hk. by apply not_elem_of_nil in Hk.
      + intros k Hk. by apply not_elem_of_nil in Hk.
    - destruct (derive_attributed (arr r0) r0 nc dv Hattr)
        as (d1 & Hd1 & _ & Hattr1 & _).
      rewrite Hd1 in Hr1. simplify_eq.
      destruct (derive_attributed (arr r1) r1 nc dv Hattr1)
        as (d2 & Hd2 & _ & Hattr2 & _).
      rewrite Hd2 in Hr2. simplify_eq.
      exists nc. constructor; simpl.
      + rewrite !lookup_insert_ne by done. apply (attributed_ncattrs _ _ _ Hattr2).
      + apply (attributed_nodup _ _ _ Hattr2).
      + intros k Hk.
        rewrite lookup_insert. case_decide; [by eexists|].
        rewrite lookup_insert. case_decide; [by eexists|].
        by apply (attributed_present _ _ _ Hattr2).
      + apply (attributed_recordable _ _ _ Hattr2).
      + by rewrite lookup_insert_eq. }
  revert Hloop.
  apply (for_each_invariant (λ v, ∃ nc dv, attributed v nc dv)); [|eauto].
  intros s [k x] s' Hin (nc' & dv' & Hs) Hset. simpl in Hset.
  eapply setattr_attributed; [exact Hs| |exact Hset].
  intros ->. apply elem_of_map_to_list in Hin.
  rewrite lookup_delete_ne in Hin by done. congruence.
Qed.

(** C1, as the code has it.  Every array derived from an Attributed
    Array, through a chain of any length and whatever the rank of the
    result buffers (slice, axis swap, arithmetic, reduction to a
    scalar), carries exactly the user-attribute names of the first
    parent, their values, and its whole dimension-name tuple: nothing in
    [__array_finalize__] looks at the rank, and the last entry it drops
    is the name [dimensions] it has just recorded among the
    user-attribute names. *)
Theorem derived_inherits (bufs : list (ndarray V)) p nc dims :
  attributed p nc dims →
  ∃ d, derive_chain bufs p = Ok d
       ∧ arr d = default (arr p) (last bufs)
       ∧ PseudoNetCDFVariable_ncattrs d = PseudoNetCDFVariable_ncattrs p
       ∧ getattr d "dimensions" = getattr p "dimensions"
       ∧ (∀ k, k ∈ nc → getattr d k = getattr p k)
       ∧ attributed d nc dims.
Proof.
  revert p. induction bufs as [|a bufs IH]; intros p Hp.
  - exists p. by simpl.
  - destruct (derive_attributed a p nc dims Hp) as (d1 & Hd1 & Harr1 & Hattr1 & Hsame1).
    destruct (IH d1 Hattr1) as (d & Hd & Harr & Hnc & Hdims & Hsame & Hattr).
    exists d. simpl. rewrite Hd1. simpl. split; [done|]. split.
    { rewrite Harr, Harr1, last_cons. by destruct (last bufs). }
    unfold PseudoNetCDFVariable_ncattrs in *.
    split_and!; [| | |done].
    + rewrite Hnc. unfold getattr. simpl.
      by rewrite (attributed_ncattrs _ _ _ Hattr1), (attributed_ncattrs _ _ _ Hp).
    + rewrite Hdims. unfold getattr. simpl.
      by rewrite (attributed_dimensions _ _ _ Hattr1),
                 (attributed_dimensions _ _ _ Hp).
    + intros k Hk. rewrite Hsame by done. unfold getattr.
      by rewrite Hsame1.
Qed.
End AttributedArrays.

Lemma o3_attributed : attributed o3 ["units"] (PyTuple ["TIME"]).
Proof.
  constructor.
  - reflexivity.
  - apply NoDup_singleton.
  - intros k ->%list_elem_of_singleton. by eexists.
  - intros k ->%list_elem_of_singleton. by split.
  - reflexivity.
Qed.

Lemma derived_inherits_witness :
  attributed o3 ["units"] (PyTuple ["TIME"])
  ∧ ∃ d, derive_chain [o3_slice_buffer; o3_scalar_buffer] o3 = Ok d
         ∧ arr d = o3_scalar_buffer
         ∧ PseudoNetCDFVariable_ncattrs d = PseudoNetCDFVariable_ncattrs o3
         ∧ getattr d "dimensions" = getattr o3 "dimensions"
         ∧ (∀ k, k ∈ ["units"] → getattr d k = getattr o3 k)
         ∧ attributed d ["units"] (PyTuple ["TIME"]).
Proof.
  split; [exact o3_attributed|].
  exact (derived_inherits [o3_slice_buffer; o3_scalar_buffer] o3
           ["units"] (PyTuple ["TIME"]) o3_attributed).
Defined.

(** C1 as stated fails on the code: the sum of a one-dimensional
    Attributed Array with dimensions [('TIME',)] is a scalar array, of rank
    zero, and it still carries [('TIME',)], not the tuple without its
    last entry. *)
Lemma scalar_result_keeps_dimensions :
  o3_parent = Ok o3
  ∧ var_dimensions o3 = Ok ["TIME"]
  ∧ (o3_sum ≫= λ d, Ok (shape (arr d), data (arr d))) = Ok ([], [6%Q])
  ∧ (o3_sum ≫= var_dimensions) = Ok ["TIME"]
  ∧ (o3_sum ≫= var_dimensions) ≠ Ok (removelast ["TIME"]).
Proof.
  split_and!; [reflexivity..|].
  intros H. vm_compute in H. discriminate H.
Qed.

(** ** The numpy fragment: indices, views, slices *)

Section ArrayFacts.
Context {V : Type}.
Implicit Types (a b : ndarray V) (s idx : list nat).



Lemma ravel_rows s st n :
  map (ravel s) (indices s) = seq 0 (size_of s) →
  map (ravel (n :: s)) (flat_map (λ i, map (cons i) (indices s)) (seq st n))
  = seq (st * size_of s) (n * size_of s).
Proof.
  intros Hs. revert st. induction n as [|n IH]; intros st; simpl; [done|].
  rewrite map_app, IH, map_map. simpl.
  rewrite seq_app. f_equal; [|f_equal; lia].
  rewrite <- (map_map (ravel s) (Nat.add (st * size_of s))), Hs.
  change (Nat.add (st * size_of s) <$> seq 0 (size_of s) = seq (st * size_of s) (size_of s)).
  rewrite fmap_add_seq. f_equal. lia.
Qed.

(** The offsets of the indices of a shape, in order, are [0, 1, ...]. *)
Lemma ravel_indices s : map (ravel s) (indices s) = seq 0 (size_of s).
Proof.
  induction s as [|n s IH]; [done|].
  change (indices (n :: s)) with (flat_map (λ i, map (cons i) (indices s)) (seq 0 n)).
  rewrite (ravel_rows s 0 n IH). done.
Qed.

Lemma in_bounds_indices s idx : idx ∈ indices s ↔ in_bounds s idx = true.
Proof.
  rewrite list_elem_of_In.
  revert idx. induction s as [|n s IH]; intros idx; simpl.
  - destruct idx as [|i idx]; split; intros H; try done.
    + by left.
    + by destruct H as [H|[]].
  - rewrite in_flat_map. split.
    + intros (i & Hi%in_seq & (idx' & <- & Hidx')%in_map_iff).
      apply IH in Hidx'. rewrite Hidx', andb_true_r.
      apply Nat.ltb_lt. lia.
    + destruct idx as [|i idx']; [done|].
      intros [Hi%Nat.ltb_lt Hidx']%andb_true_iff.
      exists i. split; [apply in_seq; lia|].
      apply in_map_iff. exists idx'. split; [done|]. by apply IH.
Qed.




(** The index at the offset of an index is that index. *)
Lemma indices_lookup_ravel s idx :
  in_bounds s idx = true → indices s !! ravel s idx = Some idx.
Proof.
  intros Hb. pose proof Hb as Hin. apply in_bounds_indices in Hin.
  apply list_elem_of_lookup in Hin as [k Hk].
  assert (ravel s idx = k) as ->; [|done].
  pose proof (ravel_indices s) as Hr.
  apply (f_equal (λ l, l !! k)) in Hr.
  change (map (ravel s) (indices s)) with (ravel s <$> indices s) in Hr.
  rewrite list_lookup_fmap, Hk in Hr. simpl in Hr.
  symmetry in Hr. apply lookup_seq in Hr as [? ?]. lia.
Qed.


Lemma get_Some_in_bounds a idx x :
  get a idx = Some x → in_bounds (shape a) idx = true.
Proof. unfold get. by destruct (in_bounds (shape a) idx). Qed.

Lemma omap_total {A B} (g : A → option B) (h : A → B) (l : list A) :
  (∀ x, x ∈ l → g x = Some (h x)) → omap g l = h <$> l.
Proof.
  induction l as [|x l IH]; intros Hg; csimpl; [done|].
  rewrite Hg by (by left). csimpl. rewrite IH; [done|].
  intros ? ?. apply Hg. by right.
Qed.

Lemma omap_ext_in {A B} (g h : A → option B) (l : list A) :
  (∀ x, x ∈ l → g x = h x) → omap g l = omap h l.
Proof.
  induction l as [|x l IH]; intros Hg; csimpl; [done|].
  rewrite Hg by (by left). rewrite IH; [done|].
  intros ? ?. apply Hg. by right.
Qed.








(** *** Axis swaps *)

Lemma swap_at_length {A} i j (l : list A) : length (swap_at i j l) = length l.
Proof.
  unfold swap_at. repeat case_match; try done. by rewrite !length_insert.
Qed.

Lemma swap_at_lookup {A} i j (l : list A) p :
  i < length l → j < length l →
  swap_at i j l !! p
  = l !! (if decide (p = i) then j else if decide (p = j) then i else p).
Proof.
  intros Hi Hj. unfold swap_at.
  destruct (lookup_lt_is_Some_2 l i Hi) as [x Hx].
  destruct (lookup_lt_is_Some_2 l j Hj) as [y Hy].
  rewrite Hx, Hy.
  destruct (decide (p = i)) as [->|Hpi].
  - rewrite list_lookup_insert_eq by (by rewrite length_insert). done.
  - rewrite list_lookup_insert_ne by done.
    destruct (decide (p = j)) as [->|Hpj].
    + by rewrite list_lookup_insert_eq.
    + by rewrite list_lookup_insert_ne.
Qed.






(** *** Slices *)



(** The shape of a slice. *)
Lemma slice_axis_shape k lo hi st a b :
  slice_axis k lo hi st a = Ok b →
  ∃ n first count step,
    shape a !! k = Some n
    ∧ slice_indices lo hi st (Z.of_nat n) = Ok (first, count, step)
    ∧ shape b = <[k := count]> (shape a).
Proof.
  unfold slice_axis. destruct (shape a !! k) as [n|]; [|done].
  intros ([[first count] step] & Hs & [= <-])%bind_Ok.
  by exists n, first, count, step.
Qed.

Lemma swapaxes_shape i j a b :
  swapaxes i j a = Ok b →
  shape b = swap_at i j (shape a) ∧ i < ndim a ∧ j < ndim a.
Proof.
  unfold swapaxes.
  destruct (Nat.ltb_spec i (ndim a)); [|done].
  destruct (Nat.ltb_spec j (ndim a)); [|done].
  by intros [= <-].
Qed.

Lemma swap_insert_swap {A} k (x : A) (l : list A) :
  k < length l →
  swap_at 0 k (<[0 := x]> (swap_at 0 k l)) = <[k := x]> l.
Proof.
  intros Hk. assert (0 < length l) as H0 by lia.
  apply list_eq. intros p.
  rewrite swap_at_lookup by (by rewrite length_insert, swap_at_length).
  destruct (decide (p = k)) as [->|Hpk].
  - rewrite list_lookup_insert_eq by done.
    destruct (decide (k = 0)) as [->|?].
    + by rewrite list_lookup_insert_eq by (by rewrite swap_at_length).
    + by rewrite list_lookup_insert_eq by (by rewrite swap_at_length).
  - rewrite (list_lookup_insert_ne l k p) by done.
    destruct (decide (p = 0)) as [->|Hp0].
    + rewrite list_lookup_insert_ne by done.
      rewrite swap_at_lookup by done.
      rewrite decide_False by done. by rewrite decide_True.
    + rewrite list_lookup_insert_ne by done.
      rewrite swap_at_lookup by done.
      by rewrite !decide_False.
Qed.
End ArrayFacts.

(** ** Derived arrays and their buffers *)

Section DerivedBuffers.
Context {V : Type} `{!Numeric V}.
Implicit Types (v p d self var vout : PseudoNetCDFVariable V) (k : string).

Lemma setattr_arr self k x self' :
  PseudoNetCDFVariable__setattr__ self k x = Ok self' → arr self' = arr self.
Proof.
  unfold PseudoNetCDFVariable__setattr__, ndarray__setattr__.
  intros (s1 & H1 & H2)%bind_Ok.
  assert (arr s1 = arr self) as <-.
  { destruct (_ && _); [|by simplify_eq].
    apply bind_Ok in H1 as (nc & _ & (nc' & _ & H1)%bind_Ok).
    by destruct (str_in "_ncattrs" ndarray_descriptors); simplify_eq. }
  by destruct (str_in k ndarray_descriptors); simplify_eq.
Qed.

Lemma finalize_dimensions_arr self obj self' :
  finalize_dimensions self obj = Ok self' → arr self' = arr self.
Proof.
  unfold finalize_dimensions.
  destruct (negb _); [|by intros [= <-]].
  destruct obj as [o|]; [|by intros [= <-]].
  destruct (hasattr o "dimensions"); [|by intros [= <-]].
  intros (x & _ & (s1 & H1 & (nc & _ & (nc' & _ & H2)%bind_Ok)%bind_Ok)%bind_Ok)%bind_Ok.
  apply setattr_arr in H1, H2. congruence.
Qed.

(** The instance numpy hands to [__array_finalize__] keeps its buffer. *)
Lemma derive_arr (a : ndarray V) p d : derive a p = Ok d → arr d = a.
Proof.
  unfold derive, PseudoNetCDFVariable__array_finalize__.
  replace (hasattr {| arr := a; __dict__ := ∅ |} "_ncattrs") with false
    by reflexivity.
  simpl negb. cbv iota.
  intros (s1 & H1 & (s2 & H2 & H3)%bind_Ok)%bind_Ok.
  apply setattr_arr in H1. apply finalize_dimensions_arr in H3.
  assert (arr s2 = arr s1) as Hs2; [|simpl in *; congruence].
  destruct (hasattr p "_ncattrs"); [|by simplify_eq].
  apply bind_Ok in H2 as (nc & _ & (ks & _ & Hloop)%bind_Ok).
  revert Hloop.
  apply (for_each_invariant (λ s, arr s = arr s1)); [|done].
  intros s k s' _ Hs (x & _ & Hset)%bind_Ok.
  apply setattr_arr in Hset. congruence.
Qed.

Lemma derived_by_arr (op : ndarray V → result (ndarray V)) p d :
  derived_by op p = Ok d → op (arr p) = Ok (arr d).
Proof.
  unfold derived_by. intros (a & Ha & Hd%derive_arr)%bind_Ok. by subst.
Qed.

Lemma ellipsis_arr p d : ellipsis p = Ok d → arr d = arr p.
Proof. unfold ellipsis. intros H%derived_by_arr. by simplify_eq. Qed.

(** The buffer of [var[...].swapaxes(0, axis)[lo:hi:st].swapaxes(0, axis)]. *)
Lemma slice_var_arr axis dmin dmax dstride var vout :
  slice_var axis dmin dmax dstride var = Ok vout →
  ∃ b c lo hi st,
    slice_arg dmin = Ok lo ∧ slice_arg dmax = Ok hi ∧ slice_arg dstride = Ok st
    ∧ swapaxes 0 axis (arr var) = Ok b
    ∧ slice_axis 0 lo hi st b = Ok c
    ∧ swapaxes 0 axis c = Ok (arr vout).
Proof.
  unfold slice_var.
  intros (v1 & H1 & (v2 & H2 & (lo & Hlo & (hi & Hhi & (st & Hst &
            (v3 & H3 & H4)%bind_Ok)%bind_Ok)%bind_Ok)%bind_Ok)%bind_Ok)%bind_Ok.
  apply ellipsis_arr in H1. apply derived_by_arr in H2, H3, H4.
  rewrite H1 in H2.
  exists (arr v2), (arr v3), lo, hi, st. by split_and!.
Qed.

(** Its shape: the axis of the dimension has the length of the sliced
    extent, the other axes are as they were. *)
Lemma slice_var_shape axis dmin dmax dstride var vout :
  slice_var axis dmin dmax dstride var = Ok vout →
  ∃ n count,
    shape (arr var) !! axis = Some n
    ∧ sliced_length dmin dmax dstride n = Ok count
    ∧ shape (arr vout) = <[axis := count]> (shape (arr var)).
Proof.
  intros (b & c & lo & hi & st & Hlo & Hhi & Hst & Hb & Hc & Hout)%slice_var_arr.
  apply swapaxes_shape in Hb as (Hsb & H0 & Haxis).
  apply slice_axis_shape in Hc as (n & first & count & step & Hn & Hsl & Hsc).
  apply swapaxes_shape in Hout as (Hso & _ & _).
  unfold ndim in *.
  rewrite Hsb, swap_at_lookup in Hn by done. simpl in Hn.
  exists n, count. split; [done|]. split.
  - unfold sliced_length. rewrite Hlo, Hhi, Hst. simpl. by rewrite Hsl.
  - rewrite Hso, Hsc, Hsb. by apply swap_insert_swap.
Qed.
End DerivedBuffers.

(** ** The loop of [slice_dim] over the variables *)

Section SliceLoop.
Context {V : Type} `{!Numeric V}.
Implicit Types (f : PseudoNetCDFFile V) (var vout : PseudoNetCDFVariable V).

(** The Dimension [createDimension] and [setunlimited] leave. *)
Lemma resized_dimension_lookup f dimkey (n : Z) (u : bool) key :
  dimensions (setunlimited_at (createDimension f dimkey n) dimkey u) !! key
  = if decide (key = dimkey) then Some {| _len := n; _unlimited := u |}
    else dimensions f !! key.
Proof.
  simpl. case_decide as Hk.
  - subst. rewrite lookup_alter_eq, lookup_insert_eq. done.
  - rewrite lookup_alter_ne by done. by rewrite lookup_insert_ne.
Qed.

Lemma dimensions_set_variable f k var :
  dimensions (set_variable f k var) = dimensions f.
Proof. done. Qed.

Lemma list_dichotomy {A} (P Q : A → Prop) (l : list A) :
  (∀ x, x ∈ l → P x ∨ Q x) → (∀ x, x ∈ l → P x) ∨ (∃ x, x ∈ l ∧ Q x).
Proof.
  induction l as [|x l IH]; intros H.
  - left. intros x Hx. by apply not_elem_of_nil in Hx.
  - destruct (H x) as [HP|HQ]; [by left| |].
    + destruct IH as [HPs|(y & Hy & HQ)].
      * intros y Hy. apply H. by right.
      * left. intros y [->|Hy]%elem_of_cons; auto.
      * right. exists y. split; [by right|done].
    + right. exists x. split; [by left|done].
Qed.

Lemma slice_dim_step_inv dimkey dmin dmax dstride u f varkey f' :
  slice_dim_step dimkey dmin dmax dstride u f varkey = Ok f' →
  ∃ var, variables f !! varkey = Some var ∧
    ((axis_of dimkey var = Ok None ∧ f' = f)
     ∨ ∃ axis vout newlen,
         axis_of dimkey var = Ok (Some axis)
         ∧ slice_var axis dmin dmax dstride var = Ok vout
         ∧ shape (arr vout) !! axis = Some newlen
         ∧ f' = set_variable
                  (setunlimited_at (createDimension f dimkey (Z.of_nat newlen))
                     dimkey u) varkey vout).
Proof.
  unfold slice_dim_step, axis_of.
  destruct (variables f !! varkey) as [var|]; [|done]. simpl.
  intros (d & Hd & (b & Hb & Hrest)%bind_Ok)%bind_Ok.
  exists var. split; [done|]. rewrite Hd. simpl. rewrite Hb. simpl.
  destruct b; simpl in Hrest.
  - right.
    apply bind_Ok in Hrest as (names & Hnames & (axis & Haxis & (vout & Hvout &
                                (newlen & Hlen & Hf)%bind_Ok)%bind_Ok)%bind_Ok).
    exists axis, vout, newlen. rewrite Hnames. simpl. rewrite Haxis. simpl.
    split_and!; try done.
    + by destruct (shape (arr vout) !! axis); simplify_eq/=.
    + by simplify_eq.
  - left. by simplify_eq.
Qed.

(** What the loop leaves: each variable of the keys it ran over is kept
    or replaced by its slice, and nothing but the Dimension of [dimkey]
    and those variables changes. *)
Lemma slice_loop dimkey dmin dmax dstride u ks f f' :
  NoDup ks →
  for_each (slice_dim_step dimkey dmin dmax dstride u) ks f = Ok f' →
  props f' = props f ∧ _ncattrs f' = _ncattrs f
  ∧ (∀ key, key ≠ dimkey → dimensions f' !! key = dimensions f !! key)
  ∧ (∀ k, k ∉ ks → variables f' !! k = variables f !! k)
  ∧ (∀ k, k ∈ ks → ∃ var, variables f !! k = Some var ∧
       ((axis_of dimkey var = Ok None ∧ variables f' !! k = Some var)
        ∨ ∃ axis vout, axis_of dimkey var = Ok (Some axis)
                       ∧ slice_var axis dmin dmax dstride var = Ok vout
                       ∧ variables f' !! k = Some vout))
  ∧ ((∀ k var, k ∈ ks → variables f !! k = Some var →
               axis_of dimkey var = Ok None) →
     dimensions f' !! dimkey = dimensions f !! dimkey)
  ∧ (∀ d, dimensions f !! dimkey = Some d → isunlimited d = u →
          ∃ d', dimensions f' !! dimkey = Some d' ∧ isunlimited d' = u)
  ∧ (∀ count,
       (∀ k var axis vout, k ∈ ks → variables f !! k = Some var →
          axis_of dimkey var = Ok (Some axis) →
          slice_var axis dmin dmax dstride var = Ok vout →
          shape (arr vout) !! axis = Some count) →
       (∃ k var axis, k ∈ ks ∧ variables f !! k = Some var
                      ∧ axis_of dimkey var = Ok (Some axis)) →
       dimensions f' !! dimkey
       = Some {| _len := Z.of_nat count; _unlimited := u |}).
Proof.
  intros Hnd. revert f. induction Hnd as [|k ks Hk Hnd IH]; intros f; simpl.
  - intros [= <-]. split_and!; try done.
    + intros k Hk. by apply not_elem_of_nil in Hk.
    + eauto.
    + intros count _ (k & ? & ? & Hk & _). by apply not_elem_of_nil in Hk.
  - intros (f1 & Hstep & Hloop)%bind_Ok.
    apply slice_dim_step_inv in Hstep as (var & Hvar & Hstep).
    destruct (IH f1 Hloop) as (Hp & Hn & Hdims & Hout & Hin & Hnone & Hflag & Hsome).
    clear IH Hloop.
    assert (props f1 = props f ∧ _ncattrs f1 = _ncattrs f
            ∧ (∀ key, key ≠ dimkey → dimensions f1 !! key = dimensions f !! key)
            ∧ (∀ k', k' ≠ k → variables f1 !! k' = variables f !! k'))
      as (Hp1 & Hn1 & Hdims1 & Hvars1).
    { destruct Hstep as [[_ ->]|(axis & vout & newlen & _ & _ & _ & ->)]; [done|].
      split_and!; try done.
      - intros key Hkey.
        rewrite dimensions_set_variable, resized_dimension_lookup.
        by rewrite decide_False.
      - intros k' Hk'. simpl. by rewrite lookup_insert_ne. }
    split_and!.
    + congruence.
    + congruence.
    + intros key Hkey. rewrite Hdims by done. by apply Hdims1.
    + intros k' Hk'. rewrite not_elem_of_cons in Hk'. destruct Hk' as [Hne Hk'].
      rewrite Hout by done. by apply Hvars1.
    + intros k' [->|Hk']%elem_of_cons.
      * exists var. split; [done|]. rewrite Hout by done.
        destruct Hstep as [[Hax ->]|(axis & vout & newlen & Hax & Hvout & _ & ->)].
        -- left. done.
        -- right. exists axis, vout. split_and!; try done.
           simpl. by rewrite lookup_insert_eq.
      * assert (k' ≠ k) as Hne by (intros ->; done).
        destruct (Hin k' Hk') as (var' & Hvar' & Hcase).
        exists var'. rewrite <- (Hvars1 k') by done. done.
    + intros Hall. rewrite Hnone.
      * destruct Hstep as [[_ ->]|(axis & vout & newlen & Hax & _ & _ & _)]; [done|].
        rewrite (Hall k var) in Hax; [done|by left|done].
      * intros k' var' Hk' Hvar'. apply (Hall k' var'); [by right|].
        rewrite <- Hvars1; [done|]. intros ->. done.
    + intros d Hd Hu.
      assert (∃ d1, dimensions f1 !! dimkey = Some d1 ∧ isunlimited d1 = u)
        as (d1 & Hd1 & Hu1).
      { destruct Hstep as [[_ ->]|(axis & vout & newlen & _ & _ & _ & ->)]; [eauto|].
        eexists.
        rewrite dimensions_set_variable, resized_dimension_lookup, decide_True
          by done. done. }
      eauto.
    + intros count Hcount Hex.
      assert (∀ k' var' axis vout, k' ∈ ks → variables f1 !! k' = Some var' →
                axis_of dimkey var' = Ok (Some axis) →
                slice_var axis dmin dmax dstride var' = Ok vout →
                shape (arr vout) !! axis = Some count) as Hcount1.
      { intros k' var' axis vout Hk' Hvar'. apply (Hcount k'); [by right|].
        rewrite <- Hvars1; [done|]. intros ->. done. }
      destruct (list_dichotomy
                  (λ k', ∃ var', variables f1 !! k' = Some var'
                                 ∧ axis_of dimkey var' = Ok None)
                  (λ k', ∃ var' axis, variables f1 !! k' = Some var'
                                      ∧ axis_of dimkey var' = Ok (Some axis)) ks)
        as [Hall1|(k1 & Hk1 & var1 & axis1 & Hvar1 & Hax1)].
      { intros k' Hk'. destruct (Hin k' Hk') as (var' & Hvar' & Hcase).
        destruct Hcase as [[? _]|(axis' & ? & ? & _)]; [left|right]; eauto. }
      2:{ apply Hsome; [done|]. by exists k1, var1, axis1. }
      assert (¬ ∃ k' var' axis, k' ∈ ks ∧ variables f1 !! k' = Some var'
                                ∧ axis_of dimkey var' = Ok (Some axis)) as Hnex1.
      { intros (k' & var' & axis & Hk' & Hvar' & Hax').
        destruct (Hall1 k' Hk') as (var'' & ? & ?). congruence. }
      rewrite Hnone.
      * destruct Hex as (k' & var' & axis & [->|Hk']%elem_of_cons & Hvar' & Hax).
        -- rewrite Hvar in Hvar'. injection Hvar' as <-.
           destruct Hstep as [[Hax' ->]|(axis' & vout & newlen & Hax' & Hvout & Hlen & ->)].
           { congruence. }
           rewrite dimensions_set_variable, resized_dimension_lookup,
             decide_True by done.
           rewrite Hax in Hax'. injection Hax' as <-.
           rewrite (Hcount k var axis vout) in Hlen; [|by left|done..].
           by injection Hlen as <-.
        -- exfalso. apply Hnex1. exists k', var', axis. split_and!; try done.
           rewrite Hvars1; [done|]. intros ->. done.
      * intros k' var' Hk' Hvar'.
        destruct (axis_of dimkey var') as [[axis|]|e] eqn:Hax.
        -- exfalso. apply Hnex1. by exists k', var', axis.
        -- done.
        -- destruct (Hin k' Hk') as (var'' & Hvar'' & Hcase).
           rewrite Hvar' in Hvar''. injection Hvar'' as <-.
           destruct Hcase as [[? _]|(? & ? & ? & _)]; congruence.
Qed.
End SliceLoop.

(** ** Transformation-spec strings *)

Lemma split_on_no_sep sep s : count_char sep s = 0 → split_on sep s = [s].
Proof.
  induction s as [|c s IH]; simpl; [done|].
  destruct (Ascii.eqb c sep); [done|]. intros Hs. by rewrite IH.
Qed.

Lemma split_on_app sep a b :
  count_char sep a = 0 →
  split_on sep (a +:+ String sep b) = a :: split_on sep b.
Proof.
  induction a as [|c a IH]; simpl.
  - intros _. by rewrite Ascii.eqb_refl.
  - destruct (Ascii.eqb c sep); [done|]. intros Ha. by rewrite IH.
Qed.

Lemma count_char_app sep a b :
  count_char sep (a +:+ b) = count_char sep a + count_char sep b.
Proof. induction a as [|c a IH]; simpl; [done|]. rewrite IH. lia. Qed.

Lemma string_of_uint_no_comma d :
  count_char "," (NilEmpty.string_of_uint d) = 0.
Proof. induction d; simpl; done. Qed.

(** The decimal form of an integer has no comma ... *)
Lemma str_int_no_comma z : count_char "," (str_int z) = 0.
Proof.
  unfold str_int. destruct (Z.to_int z) as [d|d]; simpl.
  - destruct d; try apply (string_of_uint_no_comma (_ _)). done.
  - destruct d; try apply (string_of_uint_no_comma (_ _)). done.
Qed.

(** ... and [eval] reads it back. *)
Lemma py_eval_str_int z : py_eval (str_int z) = Ok (PyInt z).
Proof.
  unfold py_eval, str_int.
  rewrite NilZero.isi.
  - by rewrite DecimalZ.of_to, String.eqb_refl.
  - destruct z; simpl; try done.
    intros [= H]. by apply DecimalPos.Unsigned.to_uint_nonnil in H.
  - destruct z; simpl; try done.
    intros [= H]. by apply DecimalPos.Unsigned.to_uint_nonnil in H.
Qed.

Lemma py_eval_None : py_eval "None" = Ok PyNone.
Proof. reflexivity. Qed.

(** ** [slice_dim] without fuzzy siblings *)

Section SliceDim.
Context {V : Type} `{!Numeric V}.
Implicit Types (f : PseudoNetCDFFile V) (var vout : PseudoNetCDFVariable V).

Lemma keys_NoDup {A} (m : gmap string A) : NoDup (keys m).
Proof. apply NoDup_fst_map_to_list. Qed.

Lemma elem_of_keys {A} (m : gmap string A) k : k ∈ keys m ↔ is_Some (m !! k).
Proof.
  unfold keys. rewrite list_elem_of_fmap. split.
  - intros ([k' x] & -> & Hx%elem_of_map_to_list). by eexists.
  - intros [x Hx]. exists (k, x). split; [done|]. by apply elem_of_map_to_list.
Qed.

Lemma file_setattr_history f x :
  PseudoNetCDFFile__setattr__ f "history" (FVal x)
  = Ok {| variables := variables f; dimensions := dimensions f;
          _ncattrs := _ncattrs f ++ ["history"];
          props := <["history" := x]> (props f) |}.
Proof.
  unfold PseudoNetCDFFile__setattr__.
  replace (negb (String.eqb (str_take 1 "history") "_"
                 || str_in "history" ["dimensions"; "variables"; "groups"]))
    with true by reflexivity.
  by rewrite object_setattr_ncattrs.
Qed.

Lemma append_history_spec f h f' :
  append_history f h = Ok f' →
  variables f' = variables f ∧ dimensions f' = dimensions f
  ∧ _ncattrs f' = _ncattrs f ++ ["history"]
  ∧ ∃ old, (props f !! "history" = None ∧ old = ""
            ∨ props f !! "history" = Some (PyStr old))
           ∧ props f' = <["history" := PyStr (old +:+ h)]> (props f).
Proof.
  unfold append_history. intros (hist & Hh & Hset)%bind_Ok.
  assert (f' = {| variables := variables f; dimensions := dimensions f;
                  _ncattrs := _ncattrs f ++ ["history"];
                  props := <["history" := PyStr hist]> (props f) |}) as ->.
  { rewrite file_setattr_history in Hset. by injection Hset as <-. }
  simpl. split_and!; try done.
  destruct (props f !! "history") as [[]|] eqn:Hp; simplify_eq.
  - eexists. split; [by right|done].
  - exists "". split; [by left|done].
Qed.

(** Without fuzzy siblings [slice_dim] is the loop over the variables and
    the history record. *)
Lemma slice_dim_no_siblings f slicedef (fuzzydim : bool) dimkey dmin dmax
    dstride d :
  parse_slicedef slicedef = Ok (dimkey, dmin, dmax, dstride) →
  dimensions f !! dimkey = Some d →
  (if fuzzydim then partial_check f dimkey else []) = [] →
  slice_dim f slicedef fuzzydim
  = slice_dim_target dimkey dmin dmax dstride (isunlimited d)
      (slice_historydef slicedef fuzzydim) f.
Proof.
  intros Hparse Hd Hsib. unfold slice_dim. simpl.
  rewrite Hparse, Hd.
  destruct fuzzydim; [rewrite Hsib|]; done.
Qed.
End SliceDim.

(** ** C5: start-only slices and the Dimension after a slice *)

Section StartOnly.
Context {V : Type} `{!Numeric V}.
Implicit Types (f : PseudoNetCDFFile V) (var vout : PseudoNetCDFVariable V).





End StartOnly.

Lemma lookup_only_key {A} (m : gmap string A) k0 k x :
  keys m = [k0] → m !! k = Some x → k = k0.
Proof.
  intros Hkeys Hk.
  assert (k ∈ keys m) as Hin by (apply elem_of_keys; eauto).
  rewrite Hkeys in Hin. by apply list_elem_of_singleton in Hin.
Qed.





(** ** C4: the slice over the whole extent *)

Section FullSlice.
Context {V : Type} `{!Numeric V}.
Implicit Types (f : PseudoNetCDFFile V) (var vout : PseudoNetCDFVariable V).

Lemma for_each_total {S X} (I : S → Prop) (body : S → X → result S)
    (xs : list X) (s : S) :
  I s →
  (∀ s x, x ∈ xs → I s → ∃ s', body s x = Ok s' ∧ I s') →
  ∃ s', for_each body xs s = Ok s' ∧ I s'.
Proof.
  revert s. induction xs as [|x xs IH]; intros s Hs Hbody; simpl; [eauto|].
  destruct (Hbody s x) as (s1 & -> & Hs1); [by left|done|]. simpl.
  apply IH; [done|]. intros ? ? ?. apply Hbody. by right.
Qed.

Lemma index_of_Some k ks i : index_of k ks = Ok i → ks !! i = Some k.
Proof.
  revert i. induction ks as [|k' ks IH]; intros i; simpl; [done|].
  destruct (String.eqb_spec k k') as [->|Hne].
  - by intros [= <-].
  - intros (j & Hj & ->)%fmap_Ok. simpl. by apply IH.
Qed.

Lemma index_of_elem k ks : k ∈ ks → ∃ i, index_of k ks = Ok i.
Proof.
  induction ks as [|k' ks IH]; intros Hk; simpl.
  - by apply not_elem_of_nil in Hk.
  - destruct (String.eqb_spec k k') as [->|Hne]; [by eexists|].
    apply elem_of_cons in Hk as [?|Hk]; [done|].
    destruct (IH Hk) as [i ->]. by eexists.
Qed.

(** On an Attributed Array with a tuple of dimension names the test of
    the loop always has an answer. *)
Lemma axis_of_attributed dimkey var nc names :
  attributed var nc (PyTuple names) →
  ((dimkey ∉ names) ∧ axis_of dimkey var = Ok None)
  ∨ ∃ axis, axis_of dimkey var = Ok (Some axis) ∧ names !! axis = Some dimkey.
Proof.
  intros Hvar. unfold axis_of.
  rewrite (getattr_present _ _ _ (attributed_dimensions _ _ _ Hvar)) by done.
  simpl. unfold str_in. case_bool_decide as Hin.
  - right. destruct (index_of_elem _ _ Hin) as [i Hi].
    exists i. rewrite Hi. split; [done|]. by apply index_of_Some.
  - by left.
Qed.




End FullSlice.

Lemma xy_file_well_formed : well_formed_file xy_file.
Proof.
  intros k var Hk.
  assert (k = "v") as ->.
  { apply (lookup_only_key (variables xy_file) "v" k var); [|exact Hk].
    vm_compute. reflexivity. }
  vm_compute in Hk. injection Hk as <-.
  split; [reflexivity|].
  exists ["units"], ["x"; "y"]. constructor.
  - reflexivity.
  - apply NoDup_singleton.
  - intros k ->%list_elem_of_singleton. by eexists.
  - intros k ->%list_elem_of_singleton. by split.
  - reflexivity.
Qed.



(** ** Reductions along an axis *)

Section Reductions.
Context {V : Type}.
Implicit Types (a r : ndarray V) (s idx : list nat).

Lemma delete_new_axis s axis :
  axis < length s →
  delete axis (take (S axis) s ++ 1 :: drop (S axis) s) = <[axis := 1]> s.
Proof.
  revert s. induction axis as [|axis IH]; intros [|n s] Hlt; simpl in *;
    try lia; [by rewrite drop_0|].
  f_equal. apply IH. lia.
Qed.

Lemma size_of_new_axis s k :
  size_of (take k s ++ 1 :: drop k s) = size_of s.
Proof.
  revert s. induction k as [|k IH]; intros [|n s]; simpl; try lia.
  by rewrite IH.
Qed.

(** Reading the array with the new axis at an index of a lane reads the
    array itself. *)
Lemma new_axis_lane s axis j idx :
  in_bounds (<[axis := 1]> s) idx = true → axis < length s →
  in_bounds (take (S axis) s ++ 1 :: drop (S axis) s) (insert_at axis j idx)
  = in_bounds s (<[axis := j]> idx)
  ∧ ravel (take (S axis) s ++ 1 :: drop (S axis) s) (insert_at axis j idx)
    = ravel s (<[axis := j]> idx).
Proof.
  unfold insert_at.
  revert s idx. induction axis as [|axis IH]; intros [|n s] [|i idx];
    simpl; try done; try lia.
  - intros [Hi%Nat.ltb_lt Hidx]%andb_true_iff _.
    assert (i = 0) as -> by lia. rewrite !drop_0. simpl.
    rewrite Hidx. split; [by rewrite andb_true_r|]. lia.
  - intros [Hi Hidx]%andb_true_iff Hlt.
    destruct (IH s idx Hidx) as [Hb Hr]; [lia|].
    simpl in Hb, Hr. rewrite Hb, Hr.
    rewrite (size_of_new_axis s (S axis)). done.
Qed.

(** [func(a[..., None], axis)]: the reduction along [axis] with the axis
    kept. *)
Lemma reduce_new_axis agg dt axis a a1 r :
  newaxis_at (S axis) a = Ok a1 →
  reduce_axis agg dt axis a1 = Ok r →
  reduced_along agg axis a r.
Proof.
  unfold newaxis_at, reduce_axis.
  destruct (Nat.leb_spec (S axis) (ndim a)) as [Hlt|]; [|done].
  intros [= <-]. simpl.
  unfold ndim in Hlt.
  destruct (lookup_lt_is_Some_2 (shape a) axis) as [L HL]; [lia|].
  rewrite lookup_app_l by (rewrite length_take; lia).
  rewrite lookup_take_lt by lia. rewrite HL.
  intros [= <-]. unfold reduced_along. simpl.
  rewrite delete_new_axis by lia. split; [done|].
  intros idx Hidx. unfold get at 1. simpl. rewrite Hidx.
  change (map ?g ?l) with (g <$> l).
  rewrite list_lookup_fmap, indices_lookup_ravel by done. simpl.
  f_equal. f_equal. unfold lane. rewrite HL. simpl.
  apply omap_ext_in. intros j _. unfold get. simpl.
  destruct (new_axis_lane (shape a) axis j idx Hidx) as [-> ->]; [lia|done].
Qed.
End Reductions.

(** ** The loop of [reduce_dim] over the variables *)

Section ReduceLoop.
Context {V : Type} `{!Numeric V}.
Implicit Types (f : PseudoNetCDFFile V) (var vout : PseudoNetCDFVariable V).

(** The constructor called with [values] keeps the buffer of the values. *)
Lemma new_values_arr pd name typecode dnames vout new :
  PseudoNetCDFVariable__new__ pd name typecode dnames (Some vout) ∅ = Ok new →
  arr new = arr vout.
Proof.
  unfold PseudoNetCDFVariable__new__. simpl.
  intros (r1 & Hr1 & (r2 & Hr2 & Hloop)%bind_Ok)%bind_Ok.
  apply ellipsis_arr in Hr1. apply derived_by_arr in Hr2.
  rewrite delete_empty, map_to_list_empty in Hloop. simpl in Hloop.
  injection Hloop as <-. injection Hr2 as Hr2. simpl. congruence.
Qed.

(** The buffer of the unweighted reduction of a variable. *)
Lemma reduce_keepdims_arr func agg axis var vout :
  np_getattr func = Some agg →
  reduce_keepdims func axis var = Ok vout →
  reduced_along agg axis (arr var) (arr vout).
Proof.
  intros Hagg. unfold reduce_keepdims. rewrite Hagg. simpl.
  intros (v1 & H1 & H2)%bind_Ok.
  apply derived_by_arr in H1, H2.
  by eapply reduce_new_axis.
Qed.

Lemma reduce_dim_step_inv metakeys r f varkey f' :
  reduce_dim_step metakeys r f varkey = Ok f' →
  ∃ var, variables f !! varkey = Some var ∧
    ((axis_of (rd_dimkey r) var = Ok None ∧ f' = f)
     ∨ ∃ axis vout new,
         axis_of (rd_dimkey r) var = Ok (Some axis)
         ∧ reduce_var metakeys r varkey axis var = Ok vout
         ∧ arr new = arr vout
         ∧ f' = set_variable f varkey new).
Proof.
  unfold reduce_dim_step, axis_of.
  destruct (variables f !! varkey) as [var|]; [|done]. simpl.
  intros (d & Hd & (b & Hb & Hrest)%bind_Ok)%bind_Ok.
  exists var. split; [done|]. rewrite Hd. simpl. rewrite Hb. simpl.
  destruct b; simpl in Hrest.
  - right.
    apply bind_Ok in Hrest as (names & Hnames & (axis & Haxis & (vout & Hvout &
                                (d' & _ & (names' & _ & (new & Hnew & Hf)%bind_Ok)
                                   %bind_Ok)%bind_Ok)%bind_Ok)%bind_Ok).
    exists axis, vout, new. rewrite Hnames. simpl. rewrite Haxis. simpl.
    split_and!; try done.
    + by eapply new_values_arr.
    + by simplify_eq.
  - left. by simplify_eq.
Qed.

(** What the loop leaves: only the variables that reference the dimension
    change, each to its reduction. *)
Lemma reduce_loop metakeys r ks f f' :
  NoDup ks →
  for_each (reduce_dim_step metakeys r) ks f = Ok f' →
  props f' = props f ∧ _ncattrs f' = _ncattrs f
  ∧ dimensions f' = dimensions f
  ∧ (∀ k, k ∉ ks → variables f' !! k = variables f !! k)
  ∧ (∀ k, k ∈ ks → ∃ var, variables f !! k = Some var ∧
       ((axis_of (rd_dimkey r) var = Ok None ∧ variables f' !! k = Some var)
        ∨ ∃ axis vout new,
            axis_of (rd_dimkey r) var = Ok (Some axis)
            ∧ reduce_var metakeys r k axis var = Ok vout
            ∧ arr new = arr vout
            ∧ variables f' !! k = Some new)).
Proof.
  intros Hnd. revert f. induction Hnd as [|k ks Hk Hnd IH]; intros f; simpl.
  - intros [= <-]. split_and!; try done.
    intros k Hk. by apply not_elem_of_nil in Hk.
  - intros (f1 & Hstep & Hloop)%bind_Ok.
    apply reduce_dim_step_inv in Hstep as (var & Hvar & Hstep).
    destruct (IH f1 Hloop) as (Hp & Hn & Hdims & Hout & Hin).
    clear IH Hloop.
    assert (props f1 = props f ∧ _ncattrs f1 = _ncattrs f
            ∧ dimensions f1 = dimensions f
            ∧ (∀ k', k' ≠ k → variables f1 !! k' = variables f !! k'))
      as (Hp1 & Hn1 & Hdims1 & Hvars1).
    { destruct Hstep as [[_ ->]|(axis & vout & new & _ & _ & _ & ->)]; [done|].
      split_and!; try done.
      intros k' Hk'. simpl. by rewrite lookup_insert_ne. }
    split_and!; try congruence.
    + intros k' Hk'. rewrite not_elem_of_cons in Hk'. destruct Hk' as [Hne Hk'].
      rewrite Hout by done. by apply Hvars1.
    + intros k' [->|Hk']%elem_of_cons.
      * exists var. split; [done|]. rewrite Hout by done.
        destruct Hstep as [[Hax ->]|(axis & vout & new & Hax & Hvout & Hnew & ->)].
        -- by left.
        -- right. exists axis, vout, new. split_and!; try done.
           simpl. by rewrite lookup_insert_eq.
      * assert (k' ≠ k) as Hne by (intros ->; done).
        destruct (Hin k' Hk') as (var' & Hvar' & Hcase).
        exists var'. rewrite <- (Hvars1 k') by done. done.
Qed.

(** Without fuzzy siblings [reduce_dim] is the new Dimension, the loop
    over the variables and the history record. *)
Lemma reduce_dim_no_siblings f reducedef (fuzzydim : bool) metakeys r :
  parse_reducedef f reducedef = Ok r →
  no_siblings fuzzydim f (rd_dimkey r) →
  reduce_dim f reducedef fuzzydim metakeys
  = reduce_dim_target
      (List.filter (λ k, str_in k (keys (variables f))) metakeys) r
      (reduce_historydef reducedef fuzzydim
         (List.filter (λ k, str_in k (keys (variables f))) metakeys)) f.
Proof.
  intros Hparse Hsib. unfold reduce_dim. simpl.
  rewrite Hparse.
  destruct fuzzydim; [unfold no_siblings in Hsib; rewrite Hsib|]; done.
Qed.

Lemma parse_reducedef_unweighted f dim func :
  count_char "," dim = 0 → count_char "," func = 0 →
  parse_reducedef f (dim +:+ "," +:+ func)
  = Ok (mkReducedef dim func None None None None).
Proof.
  intros Hdim Hfunc. unfold parse_reducedef.
  change ("," +:+ func) with (String "," func).
  rewrite count_char_app. simpl. rewrite Hdim, Hfunc. simpl.
  rewrite split_on_app by done. by rewrite split_on_no_sep.
Qed.
End ReduceLoop.

(** ** C3: reduction of a dimension by its mean *)

Section ReduceMean.
Context {V : Type} `{!Numeric V}.
Implicit Types (f : PseudoNetCDFFile V) (var vout : PseudoNetCDFVariable V).

(** The amended C3.  When fuzzy matching finds no sibling of [dim],
    [reduce_dim] with ['dim,mean'] leaves the Dimension of [dim] with
    length one and the unlimited flag it had, and every variable that
    references [dim] and is not among the metadata keys holds, at each
    index of its result, the mean (numpy's [mean]) of the lane of its
    original data along the axis of [dim]. *)
Theorem reduce_dim_mean f dim d (fuzzydim : bool) metakeys
    (mean : list V → V) f' :
  count_char "," dim = 0 →
  np_getattr "mean" = Some mean →
  dimensions f !! dim = Some d →
  no_siblings fuzzydim f dim →
  reduce_dim f (dim +:+ ",mean") fuzzydim metakeys = Ok f' →
  dimensions f' !! dim = Some {| _len := 1; _unlimited := isunlimited d |}
  ∧ ∀ k var axis,
      variables f !! k = Some var → k ∉ metakeys →
      axis_of dim var = Ok (Some axis) →
      ∃ var', variables f' !! k = Some var'
              ∧ reduced_along mean axis (arr var) (arr var').
Proof.
  intros Hdim Hmean Hd Hsib.
  rewrite (reduce_dim_no_siblings f _ fuzzydim metakeys _
             (parse_reducedef_unweighted f dim "mean" Hdim eq_refl) Hsib).
  unfold reduce_dim_target. simpl. rewrite Hd. simpl.
  set (f0 := if isunlimited d
             then setunlimited_at (createDimension f dim 1) dim true
             else createDimension f dim 1).
  assert (variables f0 = variables f
          ∧ dimensions f0 !! dim
            = Some {| _len := 1; _unlimited := isunlimited d |}) as [Hv0 Hd0].
  { unfold f0. destruct (isunlimited d).
    - split; [done|]. by rewrite resized_dimension_lookup, decide_True.
    - split; [done|]. simpl. by rewrite lookup_insert_eq. }
  intros (f1 & Hloop & (Hv & Hdims & _)%append_history_spec)%bind_Ok.
  apply reduce_loop in Hloop as (_ & _ & Hdims1 & _ & Hin); [|apply keys_NoDup].
  split; [by rewrite Hdims, Hdims1|].
  intros k var axis Hvar Hmeta Hax.
  assert (k ∈ keys (variables f0)) as Hk.
  { rewrite Hv0. apply elem_of_keys. eauto. }
  destruct (Hin k Hk) as (var0 & Hvar0 & Hcase).
  rewrite Hv0, Hvar in Hvar0. injection Hvar0 as <-.
  simpl in Hcase.
  destruct Hcase as [[Hax' _]|(axis' & vout & new & Hax' & Hvout & Hnew & Hk1)];
    [congruence|].
  rewrite Hax in Hax'. injection Hax' as <-.
  exists new. rewrite Hv. split; [done|]. rewrite Hnew.
  revert Hvout. unfold reduce_var. simpl.
  assert (str_in k (List.filter (λ k0, str_in k0 (keys (variables f))) metakeys)
          = false) as ->.
  { apply bool_decide_eq_false_2. rewrite list_elem_of_In, filter_In.
    intros [Hin' _]. by apply list_elem_of_In in Hin'. }
  simpl. by apply reduce_keepdims_arr.
Qed.
End ReduceMean.

Lemma reduce_dim_mean_witness :
  count_char "," "x" = 0
  ∧ np_getattr "mean" = Some Qmean
  ∧ dimensions xy_file !! "x" = Some {| _len := 3; _unlimited := true |}
  ∧ no_siblings true xy_file "x"
  ∧ ∃ f' v, reduce_dim xy_file "x,mean" true default_metakeys = Ok f'
            ∧ variables xy_file !! "v" = Some v
            ∧ ("v" ∉ default_metakeys)
            ∧ axis_of "x" v = Ok (Some 0)
            ∧ dimensions f' !! "x" = Some {| _len := 1; _unlimited := true |}
            ∧ ∃ var', variables f' !! "v" = Some var'
                      ∧ reduced_along Qmean 0 (arr v) (arr var').
Proof.
  split; [reflexivity|]. split; [reflexivity|]. split; [reflexivity|].
  split; [reflexivity|].
  destruct (reduce_dim xy_file "x,mean" true default_metakeys) as [f'|e] eqn:Hr;
    [|by vm_compute in Hr].
  destruct (variables xy_file !! "v") as [v|] eqn:Hv; [|by vm_compute in Hv].
  assert (axis_of "x" v = Ok (Some 0)) as Hax.
  { vm_compute in Hv. injection Hv as <-. reflexivity. }
  assert ("v" ∉ default_metakeys) as Hmeta.
  { intros Hin. by apply (bool_decide_eq_true_2 _) in Hin. }
  exists f', v. split; [reflexivity|]. split; [reflexivity|].
  split; [exact Hmeta|]. split; [exact Hax|].
  destruct (reduce_dim_mean xy_file "x" {| _len := 3; _unlimited := true |}
              true default_metakeys Qmean f') as [Hd Hvars];
    [reflexivity..|exact Hr|].
  split; [exact Hd|].
  exact (Hvars "v" v 0 Hv Hmeta Hax).
Defined.

(** C3 as stated fails on the code.  With fuzzy matching on (the
    default), reducing [x] first reduces its sibling [x1]: the variable
    over [(x, x1)] with rows [1 2] and [3 5] ends as the single value
    [11/4], while the mean of its original data across the axis of [x] at
    the first column is [2] (and the result would have shape [(1, 2)]). *)
Lemma reduce_dim_mean_over_siblings :
  partial_check square_file "x" = ["x1"]
  ∧ (shape ∘ arr <$> variables square_file !! "v",
   (λ v, Qmean (lane (arr v) 0 [0; 0])) <$> variables square_file !! "v")
  = (Some [2; 2], Some 2%Q)
  ∧ (f' ← reduce_dim square_file "x,mean" true default_metakeys;
     v' ← from_option KeyError (variables f' !! "v");
     Ok (shape (arr v'), get (arr v') [0; 0]))
    = Ok ([1; 1], Some (11 # 4)).
Proof. split_and!; reflexivity. Qed.

(** ** C6: fuzzy siblings *)

(** *** Names and their numeric suffixes *)

Lemma str_take_drop n s : str_take n s +:+ str_drop n s = s.
Proof.
  revert s. induction n as [|n IH]; intros [|c s]; simpl; try done.
  change (String c (str_take n s +:+ str_drop n s) = String c s).
  f_equal. apply IH.
Qed.

Lemma str_take_app a b : str_take (String.length a) (a +:+ b) = a.
Proof.
  induction a as [|c a IH]; simpl; [by destruct b|]. f_equal. apply IH.
Qed.

Lemma str_drop_app a b : str_drop (String.length a) (a +:+ b) = b.
Proof. induction a as [|c a IH]; simpl; [by destruct b|]. done. Qed.

Lemma str_length_app a b :
  String.length (a +:+ b) = String.length a + String.length b.
Proof. induction a as [|c a IH]; simpl; [done|]. f_equal. apply IH. Qed.

Lemma all_digits_no_comma s : all_digits s = true → count_char "," s = 0.
Proof.
  induction s as [|c s IH]; simpl; [done|].
  intros [Hc Hs]%andb_true_iff. rewrite (IH Hs).
  destruct (Ascii.eqb_spec c ","); [by subst|done].
Qed.

Lemma isdigit_spec s :
  isdigit s = true → 0 < String.length s ∧ count_char "," s = 0.
Proof.
  destruct s as [|c s]; [done|]. intros H. split; [simpl; lia|].
  by apply all_digits_no_comma.
Qed.

(** The test of the comprehension: the key is the target name followed by
    a non-empty run of digits. *)
Lemma sibling_test dimkey key :
  String.eqb dimkey (str_take (String.length dimkey) key)
  && isdigit (str_drop (String.length dimkey) key) = true
  ↔ ∃ suffix, key = dimkey +:+ suffix ∧ isdigit suffix = true.
Proof.
  rewrite andb_true_iff, String.eqb_eq. split.
  - intros [Htake Hdrop]. exists (str_drop (String.length dimkey) key).
    split; [|done]. rewrite Htake at 1. by rewrite str_take_drop.
  - intros (suffix & -> & Hsuffix). by rewrite str_take_app, str_drop_app.
Qed.

Lemma split_on_parts_no_sep sep s w :
  w ∈ split_on sep s → count_char sep w = 0.
Proof.
  revert w. induction s as [|c s IH]; intros w; simpl.
  - by intros ->%list_elem_of_singleton.
  - destruct (Ascii.eqb c sep) eqn:Hc.
    + intros [->|Hw]%elem_of_cons; [done|]. by apply IH.
    + destruct (split_on sep s) as [|w0 ws] eqn:Hs.
      * intros ->%list_elem_of_singleton. simpl. by rewrite Hc.
      * intros [->|Hw]%elem_of_cons.
        -- simpl. rewrite Hc. apply IH. by left.
        -- apply IH. by right.
Qed.

Lemma py_eval_values s v :
  py_eval s = Ok v → v = PyNone ∨ ∃ z, v = PyInt z.
Proof.
  unfold py_eval. repeat case_match; intros; simplify_eq; eauto.
Qed.

Lemma map_result_Forall {X Y} (g : X → result Y) (P : Y → Prop) xs ys :
  (∀ x y, g x = Ok y → P y) → map_result g xs = Ok ys → Forall P ys.
Proof.
  intros Hg. revert ys. induction xs as [|x xs IH]; intros ys; simpl.
  - by intros [= <-].
  - intros (y & Hy & (ys' & Hys & [= <-])%bind_Ok)%bind_Ok.
    constructor; eauto.
Qed.

Section Fuzzy.
Context {V : Type} `{!Numeric V}.
Implicit Types (f : PseudoNetCDFFile V) (var vout : PseudoNetCDFVariable V).

(** The siblings of a name: exactly the other dimension names that are
    the name followed by digits. *)
Lemma elem_of_partial_check f dimkey key :
  key ∈ partial_check f dimkey
  ↔ is_Some (dimensions f !! key)
    ∧ ∃ suffix, key = dimkey +:+ suffix ∧ isdigit suffix = true.
Proof.
  unfold partial_check.
  rewrite list_elem_of_In, filter_In, <- list_elem_of_In, elem_of_keys.
  by rewrite sibling_test.
Qed.

Lemma sibling_longer f dimkey key :
  key ∈ partial_check f dimkey → String.length dimkey < String.length key.
Proof.
  intros (_ & suffix & -> & [Hlen _]%isdigit_spec)%elem_of_partial_check.
  rewrite str_length_app. lia.
Qed.


(** The fields of a spec string are integers or [None], and the name has
    no comma. *)
Lemma parse_slicedef_fields slicedef dimkey dmin dmax dstride :
  parse_slicedef slicedef = Ok (dimkey, dmin, dmax, dstride) →
  count_char "," dimkey = 0
  ∧ Forall (λ v, v = PyNone ∨ ∃ z, v = PyInt z) [dmin; dmax; dstride].
Proof.
  unfold parse_slicedef.
  destruct (split_on "," slicedef) as [|dimkey0 fields] eqn:Hsplit; [done|].
  intros (vals & Hvals & (sd & Hsd & Hmatch)%bind_Ok)%bind_Ok.
  assert (Forall (λ v, v = PyNone ∨ ∃ z, v = PyInt z) vals) as Hall.
  { eapply map_result_Forall; [|exact Hvals]. apply py_eval_values. }
  assert (dimkey0 = dimkey
          ∧ Forall (λ v, v = PyNone ∨ ∃ z, v = PyInt z) [dmin; dmax; dstride])
    as [<- ?].
  { destruct vals as [|v1 [|v2 [|v3 vals]]]; simpl in *.
    - by simplify_eq/=.
    - apply bind_Ok in Hsd as (s & Hs & [= <-]). simpl in Hmatch.
      simplify_eq. split; [done|].
      inversion Hall as [|? ? H1 _]; subst.
      repeat (apply Forall_cons; split); [done| |by left|done].
      destruct dmin; simplify_eq/=. eauto.
    - simplify_eq/=. split; [done|].
      inversion Hall as [|? ? H1 Hall']; subst.
      inversion Hall' as [|? ? H2 _]; subst.
      repeat (apply Forall_cons; split); [done|done|by left|done].
    - simplify_eq/=. split; [done|].
      inversion Hall as [|? ? H1 Hall']; subst.
      inversion Hall' as [|? ? H2 Hall'']; subst.
      inversion Hall'' as [|? ? H3 _]; subst.
      repeat (apply Forall_cons; split); done. }
  split; [|done].
  apply (split_on_parts_no_sep "," slicedef). rewrite Hsplit. by left.
Qed.

Lemma str_val_field v :
  v = PyNone ∨ (∃ z, v = PyInt z) →
  ∃ s, str_val v = Ok s ∧ count_char "," s = 0 ∧ py_eval s = Ok v.
Proof.
  intros [->|[z ->]]; simpl.
  - by exists "None".
  - exists (str_int z). split; [done|]. split.
    + apply str_int_no_comma.
    + apply py_eval_str_int.
Qed.

(** The spec written for a sibling parses to the fields of the target's
    own spec, with the name of the sibling: the sibling receives the
    identical slice. *)
Lemma format_slicedef_parse slicedef dimkey dmin dmax dstride dimk :
  parse_slicedef slicedef = Ok (dimkey, dmin, dmax, dstride) →
  count_char "," dimk = 0 →
  ∃ sd, format_slicedef dimk dmin dmax dstride = Ok sd
        ∧ parse_slicedef sd = Ok (dimk, dmin, dmax, dstride).
Proof.
  intros (_ & Hall)%parse_slicedef_fields Hdimk.
  inversion Hall as [|? ? H1 Hall1]; subst.
  inversion Hall1 as [|? ? H2 Hall2]; subst.
  inversion Hall2 as [|? ? H3 _]; subst.
  destruct (str_val_field _ H1) as (a & Ha & Hca & Hea).
  destruct (str_val_field _ H2) as (b & Hb & Hcb & Heb).
  destruct (str_val_field _ H3) as (c & Hc & Hcc & Hec).
  unfold format_slicedef. rewrite Ha, Hb, Hc. simpl.
  eexists. split; [done|].
  unfold parse_slicedef.
  change (dimk ++ "," ++ a ++ "," ++ b ++ "," ++ c)%string
    with (dimk +:+ String "," (a +:+ String "," (b +:+ String "," c))).
  rewrite !split_on_app by done. rewrite split_on_no_sep by done.
  simpl. rewrite Hea. simpl. rewrite Heb. simpl. by rewrite Hec.
Qed.

Lemma sibling_no_comma f dimkey dimk :
  count_char "," dimkey = 0 → dimk ∈ partial_check f dimkey →
  count_char "," dimk = 0.
Proof.
  intros Hdimkey (_ & suffix & -> & [_ Hs]%isdigit_spec)%elem_of_partial_check.
  rewrite count_char_app. lia.
Qed.
End Fuzzy.

(** *** The bound on nested calls is never reached *)

Lemma for_each_bounded_agree {S X} (I : S → Prop)
    (body1 body2 : S → X → option (result S)) (xs : list X) (s : S) :
  I s →
  (∀ s x, x ∈ xs → I s →
     ∃ r, body1 s x = Some r ∧ body2 s x = Some r ∧ ∀ s', r = Ok s' → I s') →
  ∃ r, for_each_bounded body1 xs s = Some r
       ∧ for_each_bounded body2 xs s = Some r
       ∧ ∀ s', r = Ok s' → I s'.
Proof.
  revert s. induction xs as [|x xs IH]; intros s Hs Hbody; simpl.
  - exists (Ok s). split_and!; try done. by intros ? [= <-].
  - destruct (Hbody s x) as (r & -> & -> & Hr); [by left|done|].
    destruct r as [s1|e].
    + apply IH; [by apply Hr|]. intros ? ? ?. apply Hbody. by right.
    + exists (Raise e). by split_and!.
Qed.


Section Depth.
Context {V : Type} `{!Numeric V}.
Implicit Types (f : PseudoNetCDFFile V) (var vout : PseudoNetCDFVariable V).

Lemma max_key_length_bounds f key :
  is_Some (dimensions f !! key) → (String.length key <= max_key_length f)%nat.
Proof.
  rewrite <- elem_of_keys. unfold max_key_length.
  induction (keys (dimensions f)) as [|k ks IH]; simpl.
  - intros H. by apply not_elem_of_nil in H.
  - intros [->|H]%elem_of_cons; [lia|]. specialize (IH H). lia.
Qed.


(** The loop and the history record keep the names of the Dimensions. *)
Lemma slice_dim_target_dimensions dimkey dmin dmax dstride u h f f' :
  is_Some (dimensions f !! dimkey) →
  slice_dim_target dimkey dmin dmax dstride u h f = Ok f' →
  ∀ key, is_Some (dimensions f' !! key) ↔ is_Some (dimensions f !! key).
Proof.
  intros Hd. unfold slice_dim_target.
  intros (f1 & Hloop & (_ & Hdims & _)%append_history_spec)%bind_Ok.
  rewrite Hdims. revert Hloop.
  apply (for_each_invariant
           (λ f1, ∀ key, is_Some (dimensions f1 !! key)
                         ↔ is_Some (dimensions f !! key))); [|done].
  intros f2 varkey f3 _ Hf2 (var & _ & Hstep)%slice_dim_step_inv key.
  destruct Hstep as [[_ ->]|(axis & vout & newlen & _ & _ & _ & ->)]; [done|].
  rewrite dimensions_set_variable, resized_dimension_lookup.
  case_decide as Hk; [|done]. subst key. split; [done|by eauto].
Qed.

Lemma slice_dim_rec_S depth f slicedef fuzzydim :
  slice_dim_rec (S depth) f slicedef fuzzydim =
  match parse_slicedef slicedef with
  | Raise e => Some (Raise e)
  | Ok (dimkey, dmin, dmax, dstride) =>
      match dimensions f !! dimkey with
      | None => Some (Raise KeyError)
      | Some d =>
          match
            (if fuzzydim then
               for_each_bounded
                 (λ f dimk, match format_slicedef dimk dmin dmax dstride with
                            | Raise e => Some (Raise e)
                            | Ok sd => slice_dim_rec depth f sd true
                            end)
                 (partial_check f dimkey) f
             else Some (Ok f))
          with
          | None => None
          | Some (Raise e) => Some (Raise e)
          | Some (Ok f) =>
              Some (slice_dim_target dimkey dmin dmax dstride (isunlimited d)
                      (slice_historydef slicedef fuzzydim) f)
          end
      end
  end.
Proof. reflexivity. Qed.

(** With the depth above the longest Dimension name (less the length of
    the target name), [slice_dim] returns, and what it returns does not
    depend on the depth. *)
Lemma slice_dim_rec_converges n :
  ∀ m f slicedef (fuzzydim : bool) B,
    (∀ key, is_Some (dimensions f !! key) → (String.length key <= B)%nat) →
    (∀ dimkey dmin dmax dstride,
        parse_slicedef slicedef = Ok (dimkey, dmin, dmax, dstride) →
        (B <= n + String.length dimkey)%nat ∧ (B <= m + String.length dimkey)%nat) →
    ∃ r, slice_dim_rec (S n) f slicedef fuzzydim = Some r
         ∧ slice_dim_rec (S m) f slicedef fuzzydim = Some r
         ∧ ∀ f', r = Ok f' →
                 ∀ key, is_Some (dimensions f' !! key)
                        ↔ is_Some (dimensions f !! key).
Proof.
  induction n as [|n IH]; intros m f slicedef fuzzydim B HB Hdepth.
  all: rewrite !slice_dim_rec_S.
  all: destruct (parse_slicedef slicedef) as [[[[dimkey dmin] dmax] dstride]|e]
         eqn:Hparse; [|by exists (Raise e)].
  all: destruct (Hdepth _ _ _ _ eq_refl) as [Hn Hm].
  all: destruct (dimensions f !! dimkey) as [d|] eqn:Hd;
         [|by exists (Raise KeyError)].
  all: pose proof (parse_slicedef_fields _ _ _ _ _ Hparse) as [Hcomma _].
  all: destruct fuzzydim;
    [|eexists; split; [done|]; split; [done|];
      intros f' Hf'; apply (slice_dim_target_dimensions _ _ _ _ _ _ _ _ (mk_is_Some _ _ Hd) Hf')].
  - (* no name is long enough to be a sibling *)
    assert (partial_check f dimkey = []) as ->.
    { destruct (partial_check f dimkey) as [|dimk l] eqn:Hl; [done|].
      assert (dimk ∈ partial_check f dimkey) as Hin by (rewrite Hl; by left).
      pose proof (sibling_longer _ _ _ Hin).
      apply elem_of_partial_check in Hin as [Hk _]. specialize (HB _ Hk). lia. }
    simpl. eexists. split; [done|]. split; [done|].
    intros f' Hf'. apply (slice_dim_target_dimensions _ _ _ _ _ _ _ _ (mk_is_Some _ _ Hd) Hf').
  - destruct (partial_check f dimkey) as [|dimk0 l0] eqn:Hl.
    { simpl. eexists. split; [done|]. split; [done|].
      intros f' Hf'. apply (slice_dim_target_dimensions _ _ _ _ _ _ _ _ (mk_is_Some _ _ Hd) Hf'). }
    rewrite <- Hl.
    assert (∃ m', m = S m') as [m' ->].
    { assert (dimk0 ∈ partial_check f dimkey) as Hin by (rewrite Hl; by left).
      pose proof (sibling_longer _ _ _ Hin).
      apply elem_of_partial_check in Hin as [Hk _]. specialize (HB _ Hk).
      destruct m; [lia|by eexists]. }
    destruct (for_each_bounded_agree
                (λ f1, ∀ key, is_Some (dimensions f1 !! key)
                              ↔ is_Some (dimensions f !! key))
                (λ f1 dimk, match format_slicedef dimk dmin dmax dstride with
                            | Raise e => Some (Raise e)
                            | Ok sd => slice_dim_rec (S n) f1 sd true
                            end)
                (λ f1 dimk, match format_slicedef dimk dmin dmax dstride with
                            | Raise e => Some (Raise e)
                            | Ok sd => slice_dim_rec (S m') f1 sd true
                            end)
                (partial_check f dimkey) f) as (r & Hr1 & Hr2 & Hdom).
    { done. }
    { intros f1 dimk Hdimk Hf1.
      pose proof (sibling_longer _ _ _ Hdimk) as Hlonger.
      pose proof (sibling_no_comma _ _ _ Hcomma Hdimk) as Hcomma'.
      destruct (format_slicedef_parse _ _ _ _ _ dimk Hparse Hcomma')
        as (sd & -> & Hparse').
      destruct (IH m' f1 sd true B) as (r & Hr1 & Hr2 & Hdom).
      - intros key Hkey. apply HB. by apply Hf1.
      - intros ? ? ? ?. rewrite Hparse'. intros [= <- <- <- <-]. lia.
      - exists r. split_and!; try done.
        intros f2 Hf2 key. rewrite (Hdom f2 Hf2). apply Hf1. }
    rewrite Hr1, Hr2. destruct r as [f1|e]; [|by exists (Raise e)].
    eexists. split; [done|]. split; [done|].
    intros f' Hf' key. specialize (Hdom f1 eq_refl).
    rewrite <- Hdom.
    apply (slice_dim_target_dimensions _ _ _ _ _ _ _ _ (proj2 (Hdom dimkey) (mk_is_Some _ _ Hd)) Hf').
Qed.

(** [slice_dim] never reaches the bound on nested calls. *)
Lemma slice_dim_within_depth f slicedef fuzzydim :
  is_Some (slice_dim_rec (S (max_key_length f)) f slicedef fuzzydim).
Proof.
  destruct (slice_dim_rec_converges (max_key_length f) (max_key_length f)
              f slicedef fuzzydim (max_key_length f)) as (r & -> & _).
  - apply max_key_length_bounds.
  - intros. lia.
  - by eexists.
Qed.

(** The same for [reduce_dim]. *)
Lemma parse_reducedef_fields f reducedef r :
  parse_reducedef f reducedef = Ok r →
  count_char "," (rd_dimkey r) = 0 ∧ count_char "," (rd_func r) = 0
  ∧ (∀ nk, rd_numweightkey r = Some nk → count_char "," nk = 0)
  ∧ (∀ dk, rd_denweightkey r = Some dk →
           count_char "," dk = 0 ∧ is_Some (rd_numweightkey r)).
Proof.
  unfold parse_reducedef.
  pose proof (split_on_parts_no_sep "," reducedef) as Hparts.
  destruct (count_char "," reducedef =? 3)%nat.
  { destruct (split_on "," reducedef) as [|dimk [|func [|nk [|dk [|? ?]]]]];
      try done.
    intros (nw & _ & (dw & _ & [= <-])%bind_Ok)%bind_Ok. simpl.
    split_and!; try (apply Hparts; set_solver).
    - intros ? [= <-]. apply Hparts; set_solver.
    - intros ? [= <-]. split; [apply Hparts; set_solver|by eexists]. }
  destruct (count_char "," reducedef =? 2)%nat.
  { destruct (split_on "," reducedef) as [|dimk [|func [|nk [|? ?]]]];
      try done.
    intros (nw & _ & [= <-])%bind_Ok. simpl.
    split_and!; try (apply Hparts; set_solver); try done.
    intros ? [= <-]. apply Hparts; set_solver. }
  destruct (count_char "," reducedef =? 1)%nat; [|done].
  destruct (split_on "," reducedef) as [|dimk [|func [|? ?]]]; try done.
  intros [= <-]. simpl.
  split_and!; try (apply Hparts; set_solver); done.
Qed.

(** The spec string a sibling is called with names the sibling, and the
    function and the weights of the caller. *)
Lemma format_reducedef_parse f reducedef r dimk f1 r' :
  parse_reducedef f reducedef = Ok r →
  count_char "," dimk = 0 →
  parse_reducedef f1 (format_reducedef dimk r) = Ok r' →
  rd_dimkey r' = dimk ∧ rd_func r' = rd_func r
  ∧ rd_numweightkey r' = rd_numweightkey r
  ∧ rd_denweightkey r' = rd_denweightkey r.
Proof.
  intros (_ & Hfunc & Hnk & Hdk)%parse_reducedef_fields Hdimk.
  unfold format_reducedef.
  destruct (rd_numweightkey r) as [nk|] eqn:Enk.
  - specialize (Hnk nk eq_refl). unfold parse_reducedef.
    destruct (rd_denweightkey r) as [dk|] eqn:Edk.
    + destruct (Hdk dk eq_refl) as [Hdk' _].
      change (dimk +:+ "," +:+ rd_func r +:+ "," +:+ nk +:+ "," +:+ dk)
        with (dimk +:+ String "," (rd_func r +:+ String "," (nk +:+ String "," dk))).
      rewrite !count_char_app. simpl. rewrite !count_char_app. simpl.
      rewrite !count_char_app. simpl. rewrite Hdimk, Hfunc, Hnk, Hdk'. simpl.
      rewrite !split_on_app by done. rewrite split_on_no_sep by done.
      by intros (nw & _ & (dw & _ & [= <-])%bind_Ok)%bind_Ok.
    + change (dimk +:+ "," +:+ rd_func r +:+ "," +:+ nk)
        with (dimk +:+ String "," (rd_func r +:+ String "," nk)).
      rewrite !count_char_app. simpl. rewrite !count_char_app. simpl.
      rewrite Hdimk, Hfunc, Hnk. simpl.
      rewrite !split_on_app by done. rewrite split_on_no_sep by done.
      by intros (nw & _ & [= <-])%bind_Ok.
  - assert (rd_denweightkey r = None) as Edk.
    { destruct (rd_denweightkey r) as [dk|]; [|done].
      by destruct (Hdk dk eq_refl) as [_ [? ?]]. }
    rewrite (parse_reducedef_unweighted f1 dimk (rd_func r)) by done.
    intros [= <-]. by rewrite Edk.
Qed.

Lemma reduce_dim_target_dimensions metakeys r h f f' :
  reduce_dim_target metakeys r h f = Ok f' →
  ∀ key, is_Some (dimensions f' !! key) ↔ is_Some (dimensions f !! key).
Proof.
  unfold reduce_dim_target.
  intros (d & Hd & (f1 & Hloop & (_ & Hdims & _)%append_history_spec)%bind_Ok)%bind_Ok.
  destruct (dimensions f !! rd_dimkey r) as [d0|] eqn:Hd0; [|done].
  apply reduce_loop in Hloop as (_ & _ & Hdims1 & _); [|apply keys_NoDup].
  intros key. rewrite Hdims, Hdims1.
  assert (∀ g : PseudoNetCDFFile V,
             is_Some (dimensions (createDimension f (rd_dimkey r) 1) !! key)
             ↔ is_Some (dimensions f !! key)) as Hcreate.
  { intros _. simpl. destruct (decide (key = rd_dimkey r)) as [->|Hk].
    - rewrite lookup_insert_eq, Hd0. by split.
    - by rewrite lookup_insert_ne. }
  destruct (isunlimited d); [|by apply Hcreate].
  rewrite <- (Hcreate f). simpl.
  destruct (decide (key = rd_dimkey r)) as [->|Hk].
  - rewrite lookup_alter_eq, lookup_insert_eq. by split.
  - by rewrite lookup_alter_ne.
Qed.

Lemma reduce_dim_rec_S depth f reducedef fuzzydim metakeys :
  reduce_dim_rec (S depth) f reducedef fuzzydim metakeys =
  let metakeys := List.filter (λ k, str_in k (keys (variables f))) metakeys in
  match parse_reducedef f reducedef with
  | Raise e => Some (Raise e)
  | Ok r =>
      match
        (if fuzzydim then
           for_each_bounded
             (λ f dimk,
                reduce_dim_rec depth f (format_reducedef dimk r)
                  true default_metakeys)
             (partial_check f (rd_dimkey r)) f
         else Some (Ok f))
      with
      | None => None
      | Some (Raise e) => Some (Raise e)
      | Some (Ok f) =>
          Some (reduce_dim_target metakeys r
                  (reduce_historydef reducedef fuzzydim metakeys) f)
      end
  end.
Proof. reflexivity. Qed.

Lemma reduce_dim_rec_converges n :
  ∀ m f reducedef (fuzzydim : bool) metakeys B,
    (∀ key, is_Some (dimensions f !! key) → (String.length key <= B)%nat) →
    (∀ r, parse_reducedef f reducedef = Ok r →
          (B <= n + String.length (rd_dimkey r))%nat
          ∧ (B <= m + String.length (rd_dimkey r))%nat) →
    ∃ res, reduce_dim_rec (S n) f reducedef fuzzydim metakeys = Some res
           ∧ reduce_dim_rec (S m) f reducedef fuzzydim metakeys = Some res
           ∧ ∀ f', res = Ok f' →
                   ∀ key, is_Some (dimensions f' !! key)
                          ↔ is_Some (dimensions f !! key).
Proof.
  induction n as [|n IH]; intros m f reducedef fuzzydim metakeys B HB Hdepth.
  all: rewrite !reduce_dim_rec_S; cbv zeta.
  all: destruct (parse_reducedef f reducedef) as [r|e] eqn:Hparse;
         [|by exists (Raise e)].
  all: destruct (Hdepth _ eq_refl) as [Hn Hm].
  all: pose proof (parse_reducedef_fields _ _ _ Hparse) as [Hcomma _].
  all: destruct fuzzydim;
    [|eexists; split; [done|]; split; [done|];
      intros f' Hf'; apply (reduce_dim_target_dimensions _ _ _ _ _ Hf')].
  - assert (partial_check f (rd_dimkey r) = []) as ->.
    { destruct (partial_check f (rd_dimkey r)) as [|dimk l] eqn:Hl; [done|].
      assert (dimk ∈ partial_check f (rd_dimkey r)) as Hin
        by (rewrite Hl; by left).
      pose proof (sibling_longer _ _ _ Hin).
      apply elem_of_partial_check in Hin as [Hk _]. specialize (HB _ Hk). lia. }
    simpl. eexists. split; [done|]. split; [done|].
    intros f' Hf'. apply (reduce_dim_target_dimensions _ _ _ _ _ Hf').
  - destruct (partial_check f (rd_dimkey r)) as [|dimk0 l0] eqn:Hl.
    { simpl. eexists. split; [done|]. split; [done|].
      intros f' Hf'. apply (reduce_dim_target_dimensions _ _ _ _ _ Hf'). }
    rewrite <- Hl.
    assert (∃ m', m = S m') as [m' ->].
    { assert (dimk0 ∈ partial_check f (rd_dimkey r)) as Hin
        by (rewrite Hl; by left).
      pose proof (sibling_longer _ _ _ Hin).
      apply elem_of_partial_check in Hin as [Hk _]. specialize (HB _ Hk).
      destruct m; [lia|by eexists]. }
    destruct (for_each_bounded_agree
                (λ f1, ∀ key, is_Some (dimensions f1 !! key)
                              ↔ is_Some (dimensions f !! key))
                (λ f1 dimk, reduce_dim_rec (S n) f1 (format_reducedef dimk r)
                              true default_metakeys)
                (λ f1 dimk, reduce_dim_rec (S m') f1 (format_reducedef dimk r)
                              true default_metakeys)
                (partial_check f (rd_dimkey r)) f) as (res & Hr1 & Hr2 & Hdom).
    { done. }
    { intros f1 dimk Hdimk Hf1.
      pose proof (sibling_longer _ _ _ Hdimk) as Hlonger.
      pose proof (sibling_no_comma _ _ _ Hcomma Hdimk) as Hcomma'.
      destruct (IH m' f1 (format_reducedef dimk r) true default_metakeys B)
        as (res & Hr1 & Hr2 & Hdom).
      - intros key Hkey. apply HB. by apply Hf1.
      - intros r' Hr'.
        destruct (format_reducedef_parse _ _ _ _ _ _ Hparse Hcomma' Hr')
          as (-> & _). lia.
      - exists res. split_and!; try done.
        intros f2 Hf2 key. rewrite (Hdom f2 Hf2). apply Hf1. }
    rewrite Hr1, Hr2. destruct res as [f1|e]; [|by exists (Raise e)].
    eexists. split; [done|]. split; [done|].
    intros f' Hf' key. specialize (Hdom f1 eq_refl).
    rewrite <- Hdom.
    apply (reduce_dim_target_dimensions _ _ _ _ _ Hf').
Qed.

(** [reduce_dim] never reaches the bound on nested calls. *)
Lemma reduce_dim_within_depth f reducedef fuzzydim metakeys :
  is_Some (reduce_dim_rec (S (max_key_length f)) f reducedef fuzzydim metakeys).
Proof.
  destruct (reduce_dim_rec_converges (max_key_length f) (max_key_length f)
              f reducedef fuzzydim metakeys (max_key_length f)) as (r & -> & _).
  - apply max_key_length_bounds.
  - intros. lia.
  - by eexists.
Qed.

End Depth.

(** *** The siblings come first *)

Section FuzzySiblings.
Context {V : Type} `{!Numeric V}.
Implicit Types (f : PseudoNetCDFFile V).

End FuzzySiblings.



(** ** C8: the projection on a list of variables *)


Section ProjectionFacts.
Context {V : Type} `{!Numeric V}.
Implicit Types (f outf : PseudoNetCDFFile V) (var : PseudoNetCDFVariable V).
Implicit Types (C D : gset string).

Lemma elem_of_kept_dimensions f kept d :
  d ∈ kept_dimensions f kept
  ↔ ∃ k var, k ∈ kept ∧ variables f !! k = Some var ∧ d ∈ loop_dimensions var.
Proof.
  unfold kept_dimensions. rewrite elem_of_union_list. split.
  - intros (X & (k & -> & Hk)%list_elem_of_fmap & Hd).
    destruct (variables f !! k) as [var|] eqn:Hvar; [|set_solver].
    exists k, var. split_and!; try done. by apply elem_of_list_to_set in Hd.
  - intros (k & var & Hk & Hvar & Hd).
    eexists. split; [apply list_elem_of_fmap; by exists k|].
    rewrite Hvar. by apply elem_of_list_to_set.
Qed.






(** *** The loop over the dimensions of a variable *)



(** *** The loop over the coordinate keys that are dimensions *)



(** *** The copy of a variable *)

Lemma new_arr pd name typecode dnames vout kwds new :
  PseudoNetCDFVariable__new__ pd name typecode dnames (Some vout) kwds = Ok new →
  arr new = arr vout.
Proof.
  unfold PseudoNetCDFVariable__new__. simpl.
  intros (r1 & Hr1 & (r2 & Hr2 & Hloop)%bind_Ok)%bind_Ok.
  apply ellipsis_arr in Hr1. apply derived_by_arr in Hr2.
  injection Hr2 as Hr2.
  revert Hloop.
  apply (for_each_invariant (λ r, arr r = arr vout)).
  - intros r [k x] r' _ Hr Hset%setattr_arr. congruence.
  - simpl. congruence.
Qed.

Lemma copy_variable_spec outf key var outf' :
  copy_variable outf key var = Ok outf' →
  dimensions outf' = dimensions outf
  ∧ ∃ v', variables outf' = <[key := v']> (variables outf)
          ∧ arr v' = arr var.
Proof.
  unfold copy_variable.
  intros (propd & _ & (d & _ & (values & Hvalues%ellipsis_arr & Hrest)%bind_Ok)%bind_Ok)%bind_Ok.
  case_bool_decide; [done|].
  apply bind_Ok in Hrest as (names & _ & Hcreate).
  unfold createVariable in Hcreate.
  apply bind_Ok in Hcreate as (v' & Hnew%new_arr & [= <-]).
  split; [done|]. exists v'. split; [done|]. congruence.
Qed.

(** *** The body of the loop over the variables kept *)



(** *** The loop over the coordinate keys that are variables *)


(** *** The copy of the file attributes *)

Lemma file_setattr_contents f k x f' :
  excluded k = false →
  PseudoNetCDFFile__setattr__ f k (FVal x) = Ok f' →
  variables f' = variables f ∧ dimensions f' = dimensions f.
Proof.
  unfold PseudoNetCDFFile__setattr__. fold (excluded k).
  intros Hk (f1 & H1 & H2)%bind_Ok.
  rewrite Hk in H1. cbn [negb] in H1.
  rewrite object_setattr_ncattrs in H1. injection H1 as <-.
  revert H2. unfold object__setattr__.
  repeat case_match; intros; by simplify_eq/=.
Qed.

Lemma file_getattr_value f k v :
  excluded k = false → file_getattr f k = Ok v → ∃ x, v = FVal x.
Proof.
  unfold excluded, file_getattr. intros Hk.
  apply orb_false_iff in Hk as [_ Hk].
  destruct (String.eqb_spec k "variables") as [->|_]; [done|].
  destruct (String.eqb_spec k "dimensions") as [->|_]; [done|].
  repeat case_match; intros; simplify_eq; eauto.
Qed.

Lemma copy_attributes_contents f ks outf outf' :
  Forall (λ k, excluded k = false) ks →
  for_each (λ outf propkey, v ← file_getattr f propkey;
                            PseudoNetCDFFile__setattr__ outf propkey v)
    ks outf = Ok outf' →
  variables outf' = variables outf ∧ dimensions outf' = dimensions outf.
Proof.
  intros Hks.
  apply (for_each_invariant
           (λ o, variables o = variables outf ∧ dimensions o = dimensions outf));
    [|done].
  intros o k o' Hk [Hv Hd] (v & Hget & Hset)%bind_Ok.
  rewrite Forall_forall in Hks. specialize (Hks k Hk).
  destruct (file_getattr_value _ _ _ Hks Hget) as [x ->].
  destruct (file_setattr_contents _ _ _ _ Hks Hset) as [-> ->]. done.
Qed.

(** *** The names kept and the warning *)



End ProjectionFacts.



(** ** C9: what the transformations do to the object they are given *)

Lemma map_result_length {X Y} (g : X → result Y) xs ys :
  map_result g xs = Ok ys → length ys = length xs.
Proof.
  revert ys. induction xs as [|x xs IH]; intros ys; simpl.
  - by intros [= <-].
  - intros (y & _ & (ys' & Hys & [= <-])%bind_Ok)%bind_Ok.
    simpl. f_equal. by apply IH.
Qed.

Lemma from_option_Ok {A} e (x : option A) a :
  from_option e x = Ok a → x = Some a.
Proof. destruct x; [by intros [= ->]|done]. Qed.

Section InPlace.
Context {V : Type} `{!Numeric V}.
Implicit Types (o f : PseudoNetCDFFile V) (h : gmap nat (PseudoNetCDFFile V)).






End InPlace.



(* ===================================================================== *)
(** * Part II, continued: further properties of the module *)
(* ===================================================================== *)

(** ** The attribute bookkeeping of a variable *)

Section VariableAttributes.
Context {V : Type} `{!Numeric V}.
Implicit Types (v p self : PseudoNetCDFVariable V) (k : string).

End VariableAttributes.


(** ** The constructor of a variable *)


(** The first element on which the body fails decides the exception. *)
Lemma map_result_Raise {X Y} (g : X → result Y) xs x e :
  x ∈ xs → g x = Raise e →
  (∀ x', x' ∈ xs → (∃ y, g x' = Ok y) ∨ g x' = Raise e) →
  map_result g xs = Raise e.
Proof.
  induction xs as [|x0 xs IH]; intros Hx Hgx Hall; [by apply elem_of_nil in Hx|].
  simpl. destruct (Hall x0) as [[y Hy]|Hr]; [by left| |by rewrite Hr].
  rewrite Hy. simpl.
  apply elem_of_cons in Hx as [->|Hx]; [congruence|].
  rewrite IH; [done|done|done|]. intros x' Hx'. apply Hall. by right.
Qed.

Section Constructor.
Context {V : Type} `{!Numeric V}.
Implicit Types (f : PseudoNetCDFFile V) (v : PseudoNetCDFVariable V).

Lemma view_of_plain (a : ndarray V) :
  ellipsis {| arr := a; __dict__ := ∅ |}
  = Ok {| arr := a; __dict__ := {["_ncattrs" := PyTuple []]} |}.
Proof. reflexivity. Qed.

Lemma view_of_fresh (a : ndarray V) :
  derived_by Ok {| arr := a; __dict__ := {["_ncattrs" := PyTuple []]} |}
  = Ok {| arr := a; __dict__ := {["_ncattrs" := PyTuple []]} |}.
Proof. reflexivity. Qed.


End Constructor.



(** ** The constructor of a Dataset *)

Lemma result_bind_Ok {A B} (a : A) (k : A → result B) : Ok a ≫= k = k a.
Proof. reflexivity. Qed.


Section FileInit.
Context {V : Type} `{!Numeric V}.
Implicit Types (f g : PseudoNetCDFFile V).

Lemma file_setattr_plain g k (x : pyval) :
  k ≠ "variables" → k ≠ "dimensions" → k ≠ "_ncattrs" →
  PseudoNetCDFFile__setattr__ g k (FVal x)
  = Ok {| variables := variables g; dimensions := dimensions g;
          _ncattrs := if excluded k then _ncattrs g else _ncattrs g ++ [k];
          props := <[k := x]> (props g) |}.
Proof.
  intros H1 H2 H3. unfold PseudoNetCDFFile__setattr__. fold (excluded k).
  assert (∀ g', object__setattr__ g' k (FVal x)
                = Ok {| variables := variables g'; dimensions := dimensions g';
                        _ncattrs := _ncattrs g'; props := <[k := x]> (props g') |})
    as Hobj.
  { intros g'. unfold object__setattr__.
    destruct (String.eqb_spec k "variables"); [done|].
    destruct (String.eqb_spec k "dimensions"); [done|].
    by destruct (String.eqb_spec k "_ncattrs"). }
  destruct (excluded k); cbn [negb].
  - by rewrite result_bind_Ok, Hobj.
  - by rewrite object_setattr_ncattrs, result_bind_Ok, Hobj.
Qed.


End FileInit.


(** ** The lazy variable registry: keys, stored values, iteration *)

Section RegistryMore.
Context {Var : Type}.
Implicit Types (r : PseudoNetCDFVariables Var) (st : registry_state Var).

Lemma elem_of_registry_keys r k :
  k ∈ registry_keys r ↔ is_Some (store r !! k) ∨ k ∈ __keys r.
Proof.
  unfold registry_keys.
  rewrite elem_of_remove_dups, elem_of_app. fold (keys (store r)).
  by rewrite elem_of_keys.
Qed.

Lemma has_key_spec r k :
  has_key r k = true ↔ is_Some (store r !! k) ∨ k ∈ __keys r.
Proof.
  unfold has_key, str_in. rewrite bool_decide_eq_true.
  apply elem_of_registry_keys.
Qed.

(** X5.  [keys()] lists every stored and every declared key once.  After
    [addkey(k)] the registry has the key [k] besides the keys it had, and
    a lookup of [k], when nothing is stored under it, is the factory's
    result for [k]. *)
Theorem registry_addkey st k :
  let r := registry st in
  let st' := {| registry := addkey r k; factory_calls := factory_calls st |} in
  NoDup (registry_keys r)
  ∧ (∀ j, j ∈ registry_keys r ↔ is_Some (store r !! j) ∨ j ∈ __keys r)
  ∧ has_key (addkey r k) k = true
  ∧ (∀ j, has_key (addkey r k) j = true ↔ j = k ∨ has_key r j = true)
  ∧ (store r !! k = None →
     __getitem__ k st'
     = (__func r k, {| registry := addkey r k;
                       factory_calls := factory_calls st ++ [k] |})).
Proof.
  intros r st'.
  assert (∀ j, has_key (addkey r k) j = true ↔ j = k ∨ has_key r j = true) as Hadd.
  { intros j. rewrite !has_key_spec. simpl.
    rewrite elem_of_app, list_elem_of_singleton. tauto. }
  split; [apply NoDup_remove_dups|].
  split; [apply elem_of_registry_keys|].
  split; [apply Hadd; by left|]. split; [exact Hadd|].
  intros Hnone. unfold __getitem__, __missing__. simpl. rewrite Hnone.
  fold (has_key (addkey r k) k).
  by rewrite (proj2 (Hadd k) (or_introl eq_refl)).
Qed.

(** X6.  A value stored under [k] is what every later lookup of [k] returns,
    without a call of the factory and whether or not [k] was declared;
    [k] is then one of the keys, and the lookups of the other keys give
    what they gave. *)
Theorem registry_setitem_getitem st k v :
  let r := registry st in
  let st' := {| registry := registry_setitem r k v;
                factory_calls := factory_calls st |} in
  __getitem__ k st' = (Ok v, st')
  ∧ has_key (registry_setitem r k v) k = true
  ∧ ∀ j, j ≠ k →
         (__getitem__ j st').1 = (__getitem__ j st).1
         ∧ factory_calls (__getitem__ j st').2
           = factory_calls (__getitem__ j st).2.
Proof.
  intros r st'. split.
  { unfold __getitem__. simpl. by rewrite lookup_insert_eq. }
  split.
  { apply has_key_spec. left. simpl. rewrite lookup_insert_eq. by eexists. }
  intros j Hj. unfold __getitem__. simpl.
  rewrite lookup_insert_ne by done. fold r.
  destruct (store r !! j) as [w|] eqn:Hw; [done|].
  unfold __missing__. simpl.
  fold (has_key (registry_setitem r k v) j). fold (has_key (registry st) j).
  assert (has_key (registry_setitem r k v) j = has_key (registry st) j) as ->.
  { apply eq_true_iff_eq. rewrite !has_key_spec. simpl.
    rewrite lookup_insert_ne by done. done. }
  by destruct (has_key (registry st) j).
Qed.

Lemma registry_items_spec ks :
  ∀ st items st',
    registry_items ks st = (Ok items, st') →
    registry st' = registry st
    ∧ items.*1 = ks
    ∧ (∀ k v, (k, v) ∈ items →
              store (registry st) !! k = Some v
              ∨ (store (registry st) !! k = None
                 ∧ has_key (registry st) k = true
                 ∧ __func (registry st) k = Ok v))
    ∧ factory_calls st'
      = factory_calls st
        ++ List.filter (λ k, bool_decide (store (registry st) !! k = None)) ks.
Proof.
  induction ks as [|k ks IH]; intros st items st'; simpl.
  - intros [= <- <-]. split_and!; try done.
    + intros k v Hin. by apply elem_of_nil in Hin.
    + by rewrite app_nil_r.
  - unfold __getitem__, __missing__. fold (has_key (registry st) k).
    destruct (store (registry st) !! k) as [w|] eqn:Hw.
    + destruct (registry_items ks st) as [rs st2] eqn:Hrest.
      destruct rs as [items'|e]; simpl; [|done]. intros [= <- <-].
      destruct (IH _ _ _ Hrest) as (Hreg & Hkeys & Hvals & Hcalls).
      split_and!; [done|csimpl; by rewrite Hkeys| |].
      * intros k' v' [[= -> ->]|Hin]%elem_of_cons; [by left|by apply Hvals].
      * exact Hcalls.
    + destruct (has_key (registry st) k) eqn:Hk; [|done].
      destruct (__func (registry st) k) as [w|e] eqn:Hf; [|done].
      match goal with |- context [registry_items ks ?s] =>
        destruct (registry_items ks s) as [rs st2] eqn:Hrest end.
      destruct rs as [items'|e]; simpl; [|done]. intros [= <- <-].
      destruct (IH _ _ _ Hrest) as (Hreg & Hkeys & Hvals & Hcalls).
      simpl in Hreg, Hvals, Hcalls.
      split_and!; [done|csimpl; by rewrite Hkeys| |].
      * intros k' v' [[= -> ->]|Hin]%elem_of_cons; [by right|by apply Hvals].
      * rewrite Hcalls. by rewrite <- app_assoc.
Qed.

(** X7.  A loop over [iteritems()] that runs to its end has yielded every key
    of [keys()] once, each with the stored value or, for a declared key
    with nothing stored, with the factory's result; the factory has been
    called once for each such key, in the order of the keys, and nothing
    has been stored. *)
Theorem registry_iteritems st items st' :
  iteritems st = (Ok items, st') →
  registry st' = registry st
  ∧ items.*1 = registry_keys (registry st) ∧ NoDup items.*1
  ∧ (∀ k v, (k, v) ∈ items →
            store (registry st) !! k = Some v
            ∨ (store (registry st) !! k = None ∧ k ∈ __keys (registry st)
               ∧ __func (registry st) k = Ok v))
  ∧ factory_calls st'
    = factory_calls st
      ++ List.filter (λ k, bool_decide (store (registry st) !! k = None))
           (registry_keys (registry st)).
Proof.
  unfold iteritems. intros (Hreg & Hkeys & Hvals & Hcalls)%registry_items_spec.
  split_and!; try done.
  - rewrite Hkeys. apply NoDup_remove_dups.
  - intros k v Hin. destruct (Hvals k v Hin) as [?|(Hnone & Hk & Hf)]; [by left|].
    right. split_and!; try done.
    apply has_key_spec in Hk as [[? ?]|?]; [congruence|done].
Qed.
End RegistryMore.

Lemma registry_iteritems_witness :
  ∃ items st',
    iteritems test_registry = (Ok items, st')
    ∧ NoDup items.*1
    ∧ factory_calls st'
      = factory_calls test_registry
        ++ List.filter (λ k, bool_decide (store (registry test_registry) !! k = None))
             (registry_keys (registry test_registry)).
Proof.
  destruct (iteritems test_registry) as [[items|e] st'] eqn:Hrun;
    [|by vm_compute in Hrun].
  destruct (registry_iteritems _ _ _ Hrun) as (_ & _ & Hnd & _ & Hcalls).
  exists items, st'. split; [reflexivity|]. split; [exact Hnd|exact Hcalls].
Defined.

(** ** [slice_dim] and [reduce_dim]: malformed specifications *)

Section SpecErrors.
Context {V : Type} `{!Numeric V}.
Implicit Types (f : PseudoNetCDFFile V).

Lemma within_depth_Some {A} (o : option (result A)) (r : result A) :
  o = Some r → within_depth o = r.
Proof. by intros ->. Qed.

(** X8.  [slice_dim] rejects a specification before it touches the Dataset: a
    bare dimension name raises [ValueError] (four fields cannot be
    unpacked), ['dim,None'] raises [TypeError] (the stop is [None + 1]),
    and a well-formed specification that names a dimension the Dataset
    does not have raises [KeyError] -- all three with fuzzy matching on
    or off. *)
Theorem slice_dim_rejects f (fuzzydim : bool) :
  (∀ dim, count_char "," dim = 0 →
          slice_dim f dim fuzzydim = Raise ValueError)
  ∧ (∀ dim, count_char "," dim = 0 →
            slice_dim f (dim +:+ ",None") fuzzydim = Raise TypeError)
  ∧ (∀ slicedef dimkey dmin dmax dstride,
       parse_slicedef slicedef = Ok (dimkey, dmin, dmax, dstride) →
       dimensions f !! dimkey = None →
       slice_dim f slicedef fuzzydim = Raise KeyError).
Proof.
  split_and!.
  - intros dim Hdim. unfold slice_dim. rewrite slice_dim_rec_S.
    unfold parse_slicedef. by rewrite split_on_no_sep.
  - intros dim Hdim. unfold slice_dim. rewrite slice_dim_rec_S.
    unfold parse_slicedef.
    change (dim +:+ ",None") with (dim +:+ String "," "None").
    rewrite split_on_app by done. reflexivity.
  - intros slicedef dimkey dmin dmax dstride Hparse Hnone.
    unfold slice_dim. by rewrite slice_dim_rec_S, Hparse, Hnone.
Qed.

(** X9.  [reduce_dim] binds the names [dimkey] and [func] only when the
    specification has one, two or three commas: with none, or with more
    than three, the first use of [dimkey] raises [NameError], whatever
    the Dataset.  A weight that is not a variable of the Dataset raises
    [KeyError]. *)
Theorem reduce_dim_rejects f reducedef (fuzzydim : bool) metakeys :
  (count_char "," reducedef = 0 ∨ 3 < count_char "," reducedef →
   reduce_dim f reducedef fuzzydim metakeys = Raise NameError)
  ∧ (∀ dim func weight,
       count_char "," dim = 0 → count_char "," func = 0 →
       count_char "," weight = 0 →
       reducedef = dim +:+ "," +:+ func +:+ "," +:+ weight →
       variables f !! weight = None →
       reduce_dim f reducedef fuzzydim metakeys = Raise KeyError).
Proof.
  split.
  - intros Hcount. unfold reduce_dim. rewrite reduce_dim_rec_S. cbv zeta.
    unfold parse_reducedef.
    assert ((count_char "," reducedef =? 3)%nat = false) as ->
      by (apply Nat.eqb_neq; lia).
    assert ((count_char "," reducedef =? 2)%nat = false) as ->
      by (apply Nat.eqb_neq; lia).
    assert ((count_char "," reducedef =? 1)%nat = false) as ->
      by (apply Nat.eqb_neq; lia).
    done.
  - intros dim func weight Hdim Hfunc Hweight -> Hnone.
    unfold reduce_dim. rewrite reduce_dim_rec_S. cbv zeta.
    unfold parse_reducedef.
    change (dim +:+ "," +:+ func +:+ "," +:+ weight)
      with (dim +:+ String "," (func +:+ String "," weight)).
    rewrite !count_char_app. simpl. rewrite !count_char_app. simpl.
    rewrite Hdim, Hfunc, Hweight. simpl.
    rewrite !split_on_app by done. rewrite split_on_no_sep by done.
    by rewrite Hnone.
Qed.

(** ** [slice_dim] and [reduce_dim] keep the dimension names *)

(** X10.  Whatever the specification and whether or not fuzzy matching is on,
    a call of [slice_dim] or [reduce_dim] that returns has neither added
    nor removed a Dimension name of the Dataset. *)
Theorem transformations_keep_dimension_names f f' :
  (∃ slicedef fuzzydim, slice_dim f slicedef fuzzydim = Ok f')
  ∨ (∃ reducedef fuzzydim metakeys,
       reduce_dim f reducedef fuzzydim metakeys = Ok f') →
  dom (dimensions f') = dom (dimensions f).
Proof.
  intros Hrun. apply set_eq. intros key. rewrite !elem_of_dom.
  destruct Hrun as [(slicedef & fuzzydim & Hrun)|(reducedef & fuzzydim & metakeys & Hrun)].
  - destruct (slice_dim_rec_converges (max_key_length f) (max_key_length f)
                f slicedef fuzzydim (max_key_length f)) as (r & Hr & _ & Hdom).
    + apply max_key_length_bounds.
    + intros. lia.
    + unfold slice_dim in Hrun. rewrite Hr in Hrun. simpl in Hrun.
      by apply Hdom.
  - destruct (reduce_dim_rec_converges (max_key_length f) (max_key_length f)
                f reducedef fuzzydim metakeys (max_key_length f))
      as (r & Hr & _ & Hdom).
    + apply max_key_length_bounds.
    + intros. lia.
    + unfold reduce_dim in Hrun. rewrite Hr in Hrun. simpl in Hrun.
      by apply Hdom.
Qed.
End SpecErrors.

Lemma slice_dim_rejects_witness :
  slice_dim xy_file "x" true = Raise ValueError
  ∧ slice_dim xy_file "x,None" false = Raise TypeError
  ∧ slice_dim xy_file "z,0,1,1" false = Raise KeyError.
Proof.
  destruct (slice_dim_rejects xy_file true) as (H1 & _ & _).
  destruct (slice_dim_rejects xy_file false) as (_ & H2 & H3).
  split; [|split].
  - apply H1. reflexivity.
  - apply (H2 "x"). reflexivity.
  - apply (H3 "z,0,1,1" "z" (PyInt 0) (PyInt 1) (PyInt 1)); reflexivity.
Defined.

Lemma reduce_dim_rejects_witness :
  reduce_dim xy_file "x" true default_metakeys = Raise NameError
  ∧ reduce_dim xy_file "x,mean,area" true default_metakeys = Raise KeyError.
Proof.
  destruct (reduce_dim_rejects xy_file "x" true default_metakeys) as [Hname _].
  destruct (reduce_dim_rejects xy_file "x,mean,area" true default_metakeys)
    as [_ Hkey].
  split; [apply Hname; by left|].
  apply (Hkey "x" "mean" "area"); reflexivity.
Defined.

Lemma transformations_keep_dimension_names_witness :
  ∃ f', slice_dim sharded_file "x,1" true = Ok f'
        ∧ dom (dimensions f') = dom (dimensions sharded_file).
Proof.
  destruct (slice_dim sharded_file "x,1" true) as [f'|e] eqn:Hrun;
    [|by vm_compute in Hrun].
  exists f'. split; [reflexivity|].
  apply (transformations_keep_dimension_names sharded_file f').
  left. by exists "x,1", true.
Defined.

(** ** What a slice leaves alone, and what it keeps of a sliced variable *)

Section SliceFrame.
Context {V : Type} `{!Numeric V}.
Implicit Types (f : PseudoNetCDFFile V) (var vout p d : PseudoNetCDFVariable V).

Lemma derived_by_attributed (op : ndarray V → result (ndarray V)) p d nc dims :
  attributed p nc dims → derived_by op p = Ok d →
  attributed d nc dims ∧ ∀ k, k ∈ nc → __dict__ d !! k = __dict__ p !! k.
Proof.
  intros Hattr. unfold derived_by. intros (a & _ & Hd)%bind_Ok.
  destruct (derive_attributed a p nc dims Hattr) as (d' & Hd' & _ & Hattr' & Hsame).
  rewrite Hd' in Hd. injection Hd as <-. done.
Qed.

Lemma slice_var_attributed axis dmin dmax dstride var vout nc dims :
  attributed var nc dims →
  slice_var axis dmin dmax dstride var = Ok vout →
  attributed vout nc dims ∧ ∀ k, k ∈ nc → __dict__ vout !! k = __dict__ var !! k.
Proof.
  intros Hattr. unfold slice_var, ellipsis.
  intros (v1 & [H1 S1]%(derived_by_attributed _ _ _ _ _ Hattr) & Hrest)%bind_Ok.
  apply bind_Ok in Hrest as (v2 & [H2 S2]%(derived_by_attributed _ _ _ _ _ H1) & Hrest).
  apply bind_Ok in Hrest as (lo & _ & (hi & _ & (st & _ & Hrest)%bind_Ok)%bind_Ok).
  apply bind_Ok in Hrest as (v3 & [H3 S3]%(derived_by_attributed _ _ _ _ _ H2) & Hrest).
  apply (derived_by_attributed _ _ _ _ _ H3) in Hrest as [H4 S4].
  split; [done|]. intros k Hk. by rewrite S4, S3, S2, S1.
Qed.

Lemma getattr_same_dict var var' k :
  __dict__ var' !! k = __dict__ var !! k → getattr var' k = getattr var k.
Proof. intros Hk. unfold getattr. by rewrite Hk. Qed.

(** X11.  A slice of one dimension, when fuzzy matching is off or finds no
    sibling, touches nothing but that dimension: every other Dimension,
    every variable that does not reference it and every file attribute
    other than [history] are as before, no variable is added or removed,
    and [history] is the old text followed by the record of the call. *)
Theorem slice_dim_frame f slicedef (fuzzydim : bool) dimkey dmin dmax dstride f' :
  parse_slicedef slicedef = Ok (dimkey, dmin, dmax, dstride) →
  no_siblings fuzzydim f dimkey →
  slice_dim f slicedef fuzzydim = Ok f' →
  (∀ key, key ≠ dimkey → dimensions f' !! key = dimensions f !! key)
  ∧ dom (variables f') = dom (variables f)
  ∧ (∀ k var, variables f !! k = Some var → axis_of dimkey var = Ok None →
              variables f' !! k = Some var)
  ∧ (∀ k, k ≠ "history" → props f' !! k = props f !! k)
  ∧ ncattrs f' = ncattrs f ++ ["history"]
  ∧ ∃ old, (props f !! "history" = None ∧ old = ""
            ∨ props f !! "history" = Some (PyStr old))
           ∧ props f' !! "history"
             = Some (PyStr (old +:+ slice_historydef slicedef fuzzydim)).
Proof.
  intros Hparse Hsib Hrun.
  destruct (dimensions f !! dimkey) as [d|] eqn:Hd.
  2: { unfold slice_dim in Hrun. by rewrite slice_dim_rec_S, Hparse, Hd in Hrun. }
  rewrite (slice_dim_no_siblings f slicedef fuzzydim dimkey dmin dmax dstride d)
    in Hrun by done.
  unfold slice_dim_target in Hrun.
  apply bind_Ok in Hrun as (f1 & Hloop & Hhist).
  apply append_history_spec in Hhist as (Hv & Hdims & Hnc & old & Hold & Hprops).
  apply slice_loop in Hloop as (Hp1 & Hn1 & Hother & Hout & Hin & _);
    [|apply keys_NoDup].
  split_and!.
  - intros key Hkey. rewrite Hdims. by apply Hother.
  - apply set_eq. intros k. rewrite !elem_of_dom, Hv.
    split.
    + intros [var' Hvar'].
      destruct (variables f !! k) as [var|] eqn:Hvar; [by eexists|].
      exfalso.
      assert (k ∉ keys (variables f)) as Hk.
      { rewrite elem_of_keys, Hvar. by intros [? ?]. }
      rewrite (Hout k Hk) in Hvar'. congruence.
    + intros Hk%elem_of_keys. destruct (Hin k Hk) as (var & _ & [[_ ->]|(? & ? & _ & _ & ->)]);
        by eexists.
  - intros k var Hvar Hax. rewrite Hv.
    assert (k ∈ keys (variables f)) as Hk by (rewrite elem_of_keys; by eexists).
    destruct (Hin k Hk) as (var0 & Hvar0 & [[_ ->]|(? & ? & Hax' & _)]);
      congruence.
  - intros k Hk. rewrite Hprops, lookup_insert_ne by done. by rewrite Hp1.
  - unfold ncattrs. by rewrite Hnc, Hn1.
  - exists old. rewrite <- Hp1. split; [done|].
    rewrite Hprops. apply lookup_insert_eq.
Qed.
End SliceFrame.

Section SliceMetadata.
Context {V : Type} `{!Numeric V}.
Implicit Types (f : PseudoNetCDFFile V) (var vout : PseudoNetCDFVariable V).

(** X12.  Slicing keeps the metadata of the variables.  In a Dataset of
    Attributed Arrays, after a slice of one dimension (fuzzy matching off
    or without sibling) every variable has the dimension names and the
    user attributes, names and values, it had; a variable that does not
    reference the dimension is the same object, and one that does has
    changed its shape along that axis only, to the length of the sliced
    extent. *)
Theorem slice_dim_keeps_metadata f slicedef (fuzzydim : bool) dimkey dmin dmax
    dstride f' :
  (∀ k var, variables f !! k = Some var →
            ∃ nc names, attributed var nc (PyTuple names)) →
  parse_slicedef slicedef = Ok (dimkey, dmin, dmax, dstride) →
  no_siblings fuzzydim f dimkey →
  slice_dim f slicedef fuzzydim = Ok f' →
  ∀ k var, variables f !! k = Some var →
    ∃ var' nc names,
      variables f' !! k = Some var'
      ∧ attributed var nc (PyTuple names)
      ∧ attributed var' nc (PyTuple names)
      ∧ (∀ a, a ∈ nc → getattr var' a = getattr var a)
      ∧ (((dimkey ∉ names) ∧ var' = var)
         ∨ ∃ axis n count,
             names !! axis = Some dimkey
             ∧ shape (arr var) !! axis = Some n
             ∧ sliced_length dmin dmax dstride n = Ok count
             ∧ shape (arr var') = <[axis := count]> (shape (arr var))).
Proof.
  intros Hwf Hparse Hsib Hrun k var Hvar.
  destruct (Hwf k var Hvar) as (nc & names & Hattr).
  destruct (dimensions f !! dimkey) as [d|] eqn:Hd.
  2: { unfold slice_dim in Hrun. by rewrite slice_dim_rec_S, Hparse, Hd in Hrun. }
  rewrite (slice_dim_no_siblings f slicedef fuzzydim dimkey dmin dmax dstride d)
    in Hrun by done.
  unfold slice_dim_target in Hrun.
  apply bind_Ok in Hrun as (f1 & Hloop & Hhist).
  apply append_history_spec in Hhist as (Hv & _).
  apply slice_loop in Hloop as (_ & _ & _ & _ & Hin & _); [|apply keys_NoDup].
  assert (k ∈ keys (variables f)) as Hk by (rewrite elem_of_keys; by eexists).
  destruct (Hin k Hk) as (var0 & Hvar0 & Hcase).
  assert (var0 = var) as -> by congruence.
  rewrite Hv.
  destruct Hcase as [[Hax Hsame]|(axis & vout & Hax & Hvout & Hsame)].
  - exists var, nc, names. split_and!; try done. left. split; [|done].
    destruct (axis_of_attributed dimkey var nc names Hattr)
      as [[? _]|(axis & Hax' & _)]; [done|congruence].
  - destruct (slice_var_attributed _ _ _ _ _ _ _ _ Hattr Hvout) as [Hattr' Hdict].
    destruct (slice_var_shape _ _ _ _ _ _ Hvout) as (n & count & Hn & Hcount & Hshape).
    exists vout, nc, names. split_and!; try done.
    + intros a Ha. apply getattr_same_dict. by apply Hdict.
    + right. exists axis, n, count. split_and!; try done.
      destruct (axis_of_attributed dimkey var nc names Hattr)
        as [[_ Hnone]|(axis' & Hax' & Hnames)]; [congruence|].
      assert (axis' = axis) as -> by congruence. done.
Qed.

(** ** What a reduction leaves alone *)

End SliceMetadata.

Lemma slice_dim_frame_witness :
  parse_slicedef "y,1" = Ok ("y", PyInt 1, PyInt 2, PyNone)
  ∧ no_siblings true xy_file "y"
  ∧ ∃ f', slice_dim xy_file "y,1" true = Ok f'
          ∧ dimensions f' !! "x" = dimensions xy_file !! "x"
          ∧ ncattrs f' = ncattrs xy_file ++ ["history"].
Proof.
  split; [reflexivity|]. split; [reflexivity|].
  destruct (slice_dim xy_file "y,1" true) as [f'|e] eqn:Hrun;
    [|by vm_compute in Hrun].
  destruct (slice_dim_frame xy_file "y,1" true "y" (PyInt 1) (PyInt 2) PyNone f')
    as (Hother & _ & _ & _ & Hnc & _); [reflexivity|reflexivity|exact Hrun|].
  exists f'. split; [reflexivity|]. split; [|exact Hnc].
  apply Hother. discriminate.
Defined.

Lemma slice_dim_keeps_metadata_witness :
  ∃ f' var',
    slice_dim xy_file "y,1" true = Ok f'
    ∧ variables f' !! "v" = Some var'
    ∧ attributed var' ["units"] (PyTuple ["x"; "y"])
    ∧ getattr var' "units" = Ok (PyStr "ppb").
Proof.
  destruct (slice_dim xy_file "y,1" true) as [f'|e] eqn:Hrun;
    [|by vm_compute in Hrun].
  destruct (variables xy_file !! "v") as [var|] eqn:Hvar;
    [|by vm_compute in Hvar].
  destruct (slice_dim_keeps_metadata xy_file "y,1" true "y" (PyInt 1) (PyInt 2)
              PyNone f') with (k := "v") (var := var)
    as (var' & nc & names & Hvar' & Hattr & Hattr' & Hget & _).
  - intros k var0 Hvar0. exact (proj2 (xy_file_well_formed k var0 Hvar0)).
  - reflexivity.
  - reflexivity.
  - exact Hrun.
  - exact Hvar.
  - assert (nc = ["units"] ∧ names = ["x"; "y"]) as [-> ->].
    { destruct Hattr as [Hnc _ _ _ Hdims].
      vm_compute in Hvar. injection Hvar as <-.
      vm_compute in Hnc. vm_compute in Hdims.
      injection Hnc as <-. injection Hdims as <-. split; reflexivity. }
    exists f', var'. split; [reflexivity|]. split; [exact Hvar'|].
    split; [exact Hattr'|].
    rewrite Hget by (apply elem_of_cons; left; reflexivity).
    vm_compute in Hvar. injection Hvar as <-. reflexivity.
Defined.


(** ** [extract] *)

Section Extract.
Context {V : Type} `{!Numeric V}.
Implicit Types (f g : PseudoNetCDFFile V) (v nv : PseudoNetCDFVariable V).

(** The variable the constructor builds over given values carries their
    buffer and user attributes, and the dimension names it was given. *)
Lemma new_over_values pd name typecode dnames values nc dims nv :
  attributed values nc dims →
  PseudoNetCDFVariable__new__ pd name typecode dnames (Some values) ∅ = Ok nv →
  arr nv = arr values
  ∧ attributed nv nc (PyTuple dnames)
  ∧ ∀ k, k ∈ nc → k ≠ "typecode" → __dict__ nv !! k = __dict__ values !! k.
Proof.
  intros Hattr. unfold PseudoNetCDFVariable__new__. simpl.
  intros (r1 & Hr1 & (r2 & Hr2 & Hloop)%bind_Ok)%bind_Ok.
  rewrite delete_empty, map_to_list_empty in Hloop. simpl in Hloop.
  injection Hloop as <-.
  pose proof (ellipsis_arr _ _ Hr1) as Ha1.
  pose proof (derived_by_arr _ _ _ Hr2) as Ha2. injection Ha2 as Ha2.
  unfold ellipsis in Hr1.
  apply (derived_by_attributed _ _ _ _ _ Hattr) in Hr1 as [H1 S1].
  apply (derived_by_attributed _ _ _ _ _ H1) in Hr2 as [[Hnc Hnd Hpres Hrec Hdims] S2].
  simpl. split; [congruence|]. split.
  - split; simpl; try done.
    + rewrite lookup_insert_ne by done. by rewrite lookup_insert_ne.
    + intros k Hk. destruct (Hrec k Hk) as [_ Hkd].
      rewrite lookup_insert_ne by done.
      destruct (decide (k = "typecode")) as [->|Hkt].
      * rewrite lookup_insert_eq. by eexists.
      * rewrite lookup_insert_ne by done. by apply Hpres.
    + apply lookup_insert_eq.
  - intros k Hk Hkt. destruct (Hrec k Hk) as [_ Hkd].
    rewrite lookup_insert_ne by done. rewrite lookup_insert_ne by done.
    by rewrite S2, S1.
Qed.

(** Assigning again the attributes a variable already has. *)
Lemma copy_attributes_loop v nc dims (aks : list string) :
  attributed v nc dims → aks ⊆ nc →
  ∀ nv nv' dims',
    attributed nv nc dims' →
    for_each (λ nv ak, x ← getattr v ak;
                       PseudoNetCDFVariable__setattr__ nv ak x) aks nv = Ok nv' →
    arr nv' = arr nv ∧ attributed nv' nc dims'
    ∧ (∀ k, k ∈ aks → __dict__ nv' !! k = __dict__ v !! k)
    ∧ (∀ k, k ∉ aks → __dict__ nv' !! k = __dict__ nv !! k).
Proof.
  intros Hv. induction aks as [|ak aks IH]; intros Hsub nv nv' dims' Hnv; simpl.
  - intros [= <-]. split_and!; try done. intros k Hk. by apply elem_of_nil in Hk.
  - intros (nv1 & (x & Hx & Hset)%bind_Ok & Hloop)%bind_Ok.
    assert (ak ∈ nc) as Hak by (apply Hsub; by left).
    destruct (attributed_recordable _ _ _ Hv ak Hak) as [Hrec Hakd].
    destruct (recordable_spec ak Hrec) as (_ & Hdesc & _).
    destruct (attributed_present _ _ _ Hv ak Hak) as [y Hy].
    rewrite (getattr_present v ak y Hy Hdesc) in Hx. injection Hx as <-.
    rewrite setattr_old in Hset;
      [|left; apply hasattr_present, (attributed_present _ _ _ Hnv ak Hak)|done].
    injection Hset as <-.
    assert (ak ≠ "_ncattrs") as Hnca by (by apply recordable_not_ncattrs).
    assert (attributed {| arr := arr nv; __dict__ := <[ak := y]> (__dict__ nv) |}
              nc dims') as Hnv1.
    { destruct Hnv as [Hnc Hnd Hpres Hrecs Hdims]. split; simpl.
      - by rewrite lookup_insert_ne.
      - done.
      - intros k Hk. destruct (decide (k = ak)) as [->|Hne].
        + rewrite lookup_insert_eq. by eexists.
        + rewrite lookup_insert_ne by done. by apply Hpres.
      - done.
      - by rewrite lookup_insert_ne. }
    assert (aks ⊆ nc) as Hsub' by (intros k Hk; apply Hsub; by right).
    destruct (IH Hsub' _ _ _ Hnv1 Hloop) as (Harr & Hattr' & Hin & Hout).
    simpl in *. split_and!; try done.
    + intros k [->|Hk]%elem_of_cons.
      * destruct (decide (ak ∈ aks)) as [Hin'|Hnin]; [by apply Hin|].
        rewrite Hout by done. by rewrite lookup_insert_eq.
      * by apply Hin.
    + intros k Hk. apply not_elem_of_cons in Hk as [Hne Hk].
      rewrite Hout by done. by rewrite lookup_insert_ne.
Qed.

(** One iteration of the loop of [extract]. *)
Lemma extract_step_inv latidxs lonidxs g k v g' :
  extract_step latidxs lonidxs g (k, v) = Ok g' →
  props g' = props g ∧ _ncattrs g' = _ncattrs g
  ∧ dimensions g'
    = <["points" := PseudoNetCDFDimension__init__ (Z.of_nat (length latidxs))]>
        (dimensions g)
  ∧ ((on_grid v = Ok false ∧ variables g' = variables g)
     ∨ (on_grid v = Ok true
        ∧ ∃ nv, variables g' = <[k := nv]> (variables g)
                ∧ ∀ nc names,
                    attributed v nc (PyTuple names) →
                    attributed nv nc (PyTuple (extract_newdims names))
                    ∧ (∀ a, a ∈ nc → __dict__ nv !! a = __dict__ v !! a)
                    ∧ fancy_index (length latidxs)
                        (extract_newslice latidxs lonidxs names) (arr v)
                      = Ok (arr nv))).
Proof.
  unfold extract_step, on_grid.
  intros (coords & Hc & (dims & Hdims & (has_lon & Hlon & (has_lat & Hlat & Hrest)%bind_Ok)%bind_Ok)%bind_Ok)%bind_Ok.
  rewrite Hc, result_bind_Ok, Hlon, result_bind_Ok, Hlat.
  destruct has_lat; simpl in Hrest.
  2: { injection Hrest as <-. simpl. split_and!; try done. by left. }
  apply bind_Ok in Hrest as (names0 & Hnames0 & (values & Hvalues & (f1 & Hcreate & Hrest)%bind_Ok)%bind_Ok).
  apply bind_Ok in Hrest as (nc0 & Hnc0 & (aks & Haks & (nv0 & Hnv0 & (nv & Hloop & [= <-])%bind_Ok)%bind_Ok)%bind_Ok).
  unfold createVariable in Hcreate.
  apply bind_Ok in Hcreate as (var & Hnew & [= <-]).
  simpl in *. rewrite lookup_insert_eq in Hnv0. injection Hnv0 as ->.
  split_and!; try done. right. split; [done|].
  exists nv. split.
  { by rewrite insert_insert_eq, insert_delete_eq. }
  intros nc names Hattr.
  assert (dims = PyTuple names) as ->.
  { destruct Hattr as [_ _ _ _ Hd]. unfold getattr in Hdims.
    rewrite Hd in Hdims. simpl in Hdims. congruence. }
  injection Hnames0 as <-.
  assert (nc0 = PyTuple nc) as ->.
  { destruct Hattr as [Hn _ _ _ _]. unfold getattr in Hnc0.
    rewrite Hn in Hnc0. simpl in Hnc0. congruence. }
  injection Haks as <-.
  pose proof (derived_by_arr _ _ _ Hvalues) as Hbuf.
  apply (derived_by_attributed _ _ _ _ _ Hattr) in Hvalues as [Hval Sval].
  apply (new_over_values _ _ _ _ _ _ _ _ Hval) in Hnew as (Harr & Hattr1 & S1).
  destruct (copy_attributes_loop v nc (PyTuple names) nc Hattr (reflexivity _)
              _ _ _ Hattr1 Hloop) as (Harr2 & Hattr2 & Hin & _).
  split; [exact Hattr2|]. split; [exact Hin|].
  unfold extract_newslice. rewrite Hbuf. f_equal. congruence.
Qed.
(** The loop of [extract] over the items of the variables. *)
Lemma extract_loop latidxs lonidxs (l : list (string * PseudoNetCDFVariable V)) :
  NoDup l.*1 →
  ∀ g g',
    for_each (extract_step latidxs lonidxs) l g = Ok g' →
    props g' = props g ∧ _ncattrs g' = _ncattrs g
    ∧ (l ≠ [] →
       dimensions g'
       = <["points" := PseudoNetCDFDimension__init__ (Z.of_nat (length latidxs))]>
           (dimensions g))
    ∧ (∀ k, k ∉ l.*1 → variables g' !! k = variables g !! k)
    ∧ (∀ k v, (k, v) ∈ l →
         (on_grid v = Ok false ∧ variables g' !! k = variables g !! k)
         ∨ (on_grid v = Ok true
            ∧ ∃ nv, variables g' !! k = Some nv
                    ∧ ∀ nc names,
                        attributed v nc (PyTuple names) →
                        attributed nv nc (PyTuple (extract_newdims names))
                        ∧ (∀ a, a ∈ nc → __dict__ nv !! a = __dict__ v !! a)
                        ∧ fancy_index (length latidxs)
                            (extract_newslice latidxs lonidxs names) (arr v)
                          = Ok (arr nv))).
Proof.
  induction l as [|[k v] l IH]; intros Hnd g g'; simpl.
  - intros [= <-]. split_and!; try done.
    intros k v Hin. by apply elem_of_nil in Hin.
  - apply NoDup_cons in Hnd as [Hk Hnd].
    intros (g1 & Hstep & Hloop)%bind_Ok.
    apply extract_step_inv in Hstep as (Hp1 & Hn1 & Hd1 & Hcase).
    destruct (IH Hnd _ _ Hloop) as (Hp2 & Hn2 & Hd2 & Hout & Hin).
    assert (∀ k', k' ≠ k → variables g1 !! k' = variables g !! k') as Hother.
    { intros k' Hk'. destruct Hcase as [[_ ->]|(_ & nv & -> & _)]; [done|].
      by rewrite lookup_insert_ne. }
    split_and!.
    + congruence.
    + congruence.
    + intros _. destruct l as [|kv l].
      * simpl in Hloop. injection Hloop as <-. done.
      * rewrite Hd2 by done. rewrite Hd1. by rewrite insert_insert_eq.
    + intros k' Hk'. apply not_elem_of_cons in Hk' as [Hne Hk'].
      rewrite Hout by done. by apply Hother.
    + intros k' v' [[= -> ->]|Hin']%elem_of_cons.
      * rewrite (Hout k Hk).
        destruct Hcase as [[Hg ->]|(Hg & nv & -> & Hnv)]; [by left|].
        right. split; [done|]. exists nv. by rewrite lookup_insert_eq.
      * assert (k' ≠ k) as Hne.
        { intros ->. apply Hk. apply list_elem_of_fmap. by exists (k, v'). }
        destruct (Hin k' v' Hin') as [[Hg Hsame]|Hgrid].
        -- left. split; [done|]. rewrite Hsame. by apply Hother.
        -- by right.
Qed.

(** X14.  [extract] touches the variables on the grid and the Dimension
    [points] only: when it returns, [points] is a Dimension whose length
    is the number of points asked for, every other Dimension and every
    variable that mentions neither [longitude] nor [latitude] is as
    before, no variable is added or removed, and the file attributes are
    unchanged -- unlike [slice_dim] and [reduce_dim], [extract] leaves no
    record in [history]. *)
Theorem extract_frame f lonlat f' :
  extract f lonlat = Ok f' →
  dimensions f'
  = <["points" := {| _len := Z.of_nat (length (flat_map (split_on "/") lonlat));
                     _unlimited := false |}]> (dimensions f)
  ∧ dom (variables f') = dom (variables f)
  ∧ props f' = props f ∧ ncattrs f' = ncattrs f
  ∧ ∀ k v, variables f !! k = Some v → on_grid v = Ok false →
           variables f' !! k = Some v.
Proof.
  unfold extract.
  intros (longitude & Hlon%from_option_Ok & (latitude & _ & (idxs & Hidxs & Hloop)%bind_Ok)%bind_Ok)%bind_Ok.
  apply map_result_length in Hidxs.
  apply extract_loop in Hloop as (Hp & Hn & Hd & Hout & Hin);
    [|apply (keys_NoDup (variables f))].
  rewrite length_fmap, Hidxs in Hd.
  split_and!.
  - apply Hd. intros Hnil. apply map_to_list_empty_iff in Hnil.
    rewrite Hnil in Hlon. by rewrite lookup_empty in Hlon.
  - apply set_eq. intros k. rewrite !elem_of_dom.
    destruct (variables f !! k) as [v|] eqn:Hv.
    + assert ((k, v) ∈ map_to_list (variables f)) as Hkv
        by (by apply elem_of_map_to_list).
      destruct (Hin k v Hkv) as [[_ ->]|(_ & nv & -> & _)];
        rewrite ?Hv; split; by eauto.
    + rewrite Hout, Hv; [done|].
      fold (keys (variables f)). rewrite elem_of_keys, Hv. by intros [? ?].
  - done.
  - done.
  - intros k v Hv Hg.
    assert ((k, v) ∈ map_to_list (variables f)) as Hkv
      by (by apply elem_of_map_to_list).
    destruct (Hin k v Hkv) as [[_ ->]|(Hg' & _)]; [done|congruence].
Qed.

(** X15.  A variable on the grid is replaced by its values at the grid indices
    nearest to the points: the new variable has the dimension names of
    the old one without [longitude] and [latitude], followed by
    [points]; it has the user attributes of the old one, names and
    values; and its buffer is the old buffer indexed, along [latitude]
    and [longitude], by the indices of the nearest coordinate values. *)
Theorem extract_variable f lonlat f' k v nc names :
  extract f lonlat = Ok f' →
  variables f !! k = Some v → attributed v nc (PyTuple names) →
  on_grid v = Ok true →
  ∃ nv longitude latitude idxs,
    variables f' !! k = Some nv
    ∧ variables f !! "longitude" = Some longitude
    ∧ variables f !! "latitude" = Some latitude
    ∧ map_result (nearest_indices longitude latitude)
        (flat_map (split_on "/") lonlat) = Ok idxs
    ∧ attributed nv nc (PyTuple (extract_newdims names))
    ∧ (∀ a, a ∈ nc → getattr nv a = getattr v a)
    ∧ fancy_index (length idxs) (extract_newslice idxs.*1 idxs.*2 names) (arr v)
      = Ok (arr nv).
Proof.
  unfold extract.
  intros (longitude & Hlon%from_option_Ok & (latitude & Hlat%from_option_Ok & (idxs & Hidxs & Hloop)%bind_Ok)%bind_Ok)%bind_Ok Hv Hattr Hg.
  apply extract_loop in Hloop as (_ & _ & _ & _ & Hin);
    [|apply (keys_NoDup (variables f))].
  assert ((k, v) ∈ map_to_list (variables f)) as Hkv
    by (by apply elem_of_map_to_list).
  destruct (Hin k v Hkv) as [[Hg' _]|(_ & nv & Hnv & Hfacts)]; [congruence|].
  destruct (Hfacts nc names Hattr) as (Hattr' & Hdict & Hbuf).
  exists nv, longitude, latitude, idxs. split_and!; try done.
  - intros a Ha. apply getattr_same_dict. by apply Hdict.
  - by rewrite length_fmap in Hbuf.
Qed.

Lemma nearest_indices_raises longitude latitude ll :
  (∃ r, nearest_indices longitude latitude ll = Ok r)
  ∨ nearest_indices longitude latitude ll = Raise ValueError.
Proof.
  unfold nearest_indices.
  destruct (map_result _ (split_on "," ll)) as [xs|e] eqn:Hxs; simpl.
  - destruct xs as [|lon [|lat [|? ?]]]; try by right.
    repeat case_bool_decide; try by right. left. by eexists.
  - right. f_equal.
    revert e Hxs. generalize (split_on "," ll). intros l.
    induction l as [|w l IH]; intros e; simpl; [done|].
    destruct (py_float w); simpl; [|by intros [= <-]].
    destruct (map_result _ l) eqn:Hl; simpl; [done|].
    intros [= <-]. by apply IH.
Qed.

(** X16.  [extract] needs the variables [longitude] and [latitude]: without
    one of them it raises [KeyError].  With both, a point that is not two
    fields separated by a comma raises [ValueError]. *)
Theorem extract_rejects f lonlat :
  (variables f !! "longitude" = None ∨ variables f !! "latitude" = None →
   extract f lonlat = Raise KeyError)
  ∧ (is_Some (variables f !! "longitude") →
     is_Some (variables f !! "latitude") →
     ∀ ll, ll ∈ flat_map (split_on "/") lonlat →
           length (split_on "," ll) ≠ 2 →
           extract f lonlat = Raise ValueError).
Proof.
  split.
  - unfold extract. intros [Hnone|Hnone].
    + by rewrite Hnone.
    + destruct (variables f !! "longitude"); by rewrite ?Hnone.
  - intros [longitude Hlon] [latitude Hlat] ll Hll Hfields.
    unfold extract. rewrite Hlon, Hlat. simpl.
    rewrite (map_result_Raise _ _ ll ValueError); [done|done| |].
    + unfold nearest_indices.
      destruct (map_result _ (split_on "," ll)) as [xs|e] eqn:Hxs.
      * apply map_result_length in Hxs. simpl.
        destruct xs as [|? [|? [|? ?]]]; done.
      * destruct (nearest_indices_raises longitude latitude ll) as [[r Hr]|Hr];
          unfold nearest_indices in Hr; rewrite Hxs in Hr; [done|exact Hr].
    + intros ll' _. apply nearest_indices_raises.
Qed.
End Extract.

Lemma extract_frame_witness :
  ∃ f', extract (Numeric0 := numeric_Q_points) grid_file ["11,58/0,50"] = Ok f'
        ∧ dimensions f' !! "points" = Some {| _len := 2; _unlimited := false |}
        ∧ variables f' !! "time" = variables grid_file !! "time"
        ∧ ncattrs f' = ncattrs grid_file.
Proof.
  destruct (extract (Numeric0 := numeric_Q_points) grid_file ["11,58/0,50"])
    as [f'|e] eqn:Hrun; [|by vm_compute in Hrun].
  destruct (extract_frame (Numeric0 := numeric_Q_points) grid_file
              ["11,58/0,50"] f' Hrun) as (Hd & _ & _ & Hnc & Hvars).
  exists f'. split; [reflexivity|]. split; [|split; [|exact Hnc]].
  - rewrite Hd. apply lookup_insert_eq.
  - destruct (variables grid_file !! "time") as [v|] eqn:Hv;
      [|by vm_compute in Hv].
    apply Hvars; [exact Hv|].
    vm_compute in Hv. injection Hv as <-. reflexivity.
Defined.

Lemma extract_variable_witness :
  ∃ f' nv,
    extract (Numeric0 := numeric_Q_points) grid_file ["11,58/0,50"] = Ok f'
    ∧ variables f' !! "temp" = Some nv
    ∧ attributed nv ["units"] (PyTuple ["points"])
    ∧ getattr nv "units" = Ok (PyStr "K").
Proof.
  destruct (extract (Numeric0 := numeric_Q_points) grid_file ["11,58/0,50"])
    as [f'|e] eqn:Hrun; [|by vm_compute in Hrun].
  destruct (variables grid_file !! "temp") as [v|] eqn:Hv;
    [|by vm_compute in Hv].
  assert (attributed v ["units"] (PyTuple ["latitude"; "longitude"])) as Hattr.
  { vm_compute in Hv. injection Hv as <-. split.
    - reflexivity.
    - repeat constructor; intros H; apply elem_of_nil in H; exact H.
    - intros k ->%list_elem_of_singleton. eexists. reflexivity.
    - intros k ->%list_elem_of_singleton. split; [reflexivity|discriminate].
    - reflexivity. }
  destruct (extract_variable (Numeric0 := numeric_Q_points) grid_file
              ["11,58/0,50"] f' "temp" v ["units"] ["latitude"; "longitude"]
              Hrun Hv Hattr)
    as (nv & _ & _ & _ & Hnv & _ & _ & _ & Hattr' & Hget & _).
  { vm_compute in Hv. injection Hv as <-. reflexivity. }
  exists f', nv. split; [reflexivity|]. split; [exact Hnv|].
  split; [exact Hattr'|].
  rewrite Hget by (apply list_elem_of_singleton; reflexivity).
  vm_compute in Hv. injection Hv as <-. reflexivity.
Defined.

Lemma extract_rejects_witness :
  extract xy_file ["0,0"] = Raise KeyError
  ∧ extract (Numeric0 := numeric_Q_points) grid_file ["11,58/7"] = Raise ValueError.
Proof.
  split.
  - apply (extract_rejects xy_file ["0,0"]). left. reflexivity.
  - apply (extract_rejects (Numeric0 := numeric_Q_points) grid_file ["11,58/7"])
      with (ll := "7").
    + eexists. reflexivity.
    + eexists. reflexivity.
    + apply elem_of_cons. right. apply elem_of_cons. left. reflexivity.
    + discriminate.
Defined.

(** ** [getvarpnc]: the file attributes and the Dimensions of the result *)

Section ProjectionMore.
Context {V : Type} `{!Numeric V}.
Implicit Types (f outf : PseudoNetCDFFile V) (C : gset string).

(** The loops of [getvarpnc] after the copy of the attributes leave the
    file attributes alone. *)
Lemma copy_variable_attributes outf key var outf' :
  copy_variable outf key var = Ok outf' →
  props outf' = props outf ∧ _ncattrs outf' = _ncattrs outf.
Proof.
  unfold copy_variable.
  intros (propd & _ & (d & _ & (values & _ & Hrest)%bind_Ok)%bind_Ok)%bind_Ok.
  case_bool_decide; [done|].
  apply bind_Ok in Hrest as (names & _ & Hcreate).
  unfold createVariable in Hcreate.
  by apply bind_Ok in Hcreate as (v' & _ & [= <-]).
Qed.

Lemma getvarpnc_dim_attributes f outf C dim outf' C' :
  getvarpnc_dim f (outf, C) dim = Ok (outf', C') →
  props outf' = props outf ∧ _ncattrs outf' = _ncattrs outf.
Proof.
  unfold getvarpnc_dim. destruct dim as [dimk dimv].
  case_bool_decide; [by intros [= <- <-]|].
  intros (d & _ & Hrest)%bind_Ok.
  assert (∀ o : PseudoNetCDFFile V,
            props (if isunlimited d then setunlimited_at o dimk true else o)
            = props o
            ∧ _ncattrs (if isunlimited d then setunlimited_at o dimk true else o)
              = _ncattrs o) as Hflag by (intros o; by destruct (isunlimited d)).
  destruct (Hflag (createDimension outf dimk (Z.of_nat dimv))) as [Hp Hn].
  simpl in Hp, Hn.
  repeat case_match; simplify_eq; by rewrite ?Hp, ?Hn.
Qed.

Lemma getvarpnc_coorddim_attributes f outf coordk outf' :
  getvarpnc_coorddim f outf coordk = Ok outf' →
  props outf' = props outf ∧ _ncattrs outf' = _ncattrs outf.
Proof.
  unfold getvarpnc_coorddim.
  destruct (dimensions f !! coordk) as [d|]; [|by intros [= <-]].
  case_bool_decide; [by intros [= <-]|].
  intros (n & _ & [= <-])%bind_Ok. by destruct (isunlimited d).
Qed.

Lemma getvarpnc_var_attributes f outf C varkey outf' C' :
  getvarpnc_var f (outf, C) varkey = Ok (outf', C') →
  props outf' = props outf ∧ _ncattrs outf' = _ncattrs outf.
Proof.
  unfold getvarpnc_var.
  intros (var & _ & (d & _ & (names & _ & Hrest)%bind_Ok)%bind_Ok)%bind_Ok.
  apply bind_Ok in Hrest as ([outf1 C1] & Hdims & Hrest).
  apply bind_Ok in Hrest as (outf2 & Hcoord & Hrest).
  apply bind_Ok in Hrest as (outf3 & Hcopy & [= <- <-]).
  assert (props outf1 = props outf ∧ _ncattrs outf1 = _ncattrs outf) as [Hp1 Hn1].
  { revert Hdims.
    apply (for_each_invariant
             (λ st, props st.1 = props outf ∧ _ncattrs st.1 = _ncattrs outf));
      [|done].
    intros [o c] dim [o' c'] _ [Hp Hn] Hstep. simpl in *.
    apply getvarpnc_dim_attributes in Hstep as [-> ->]. done. }
  assert (props outf2 = props outf1 ∧ _ncattrs outf2 = _ncattrs outf1) as [Hp2 Hn2].
  { revert Hcoord.
    apply (for_each_invariant
             (λ o, props o = props outf1 ∧ _ncattrs o = _ncattrs outf1));
      [|done].
    intros o k o' _ [Hp Hn] Hstep.
    apply getvarpnc_coorddim_attributes in Hstep as [-> ->]. done. }
  apply copy_variable_attributes in Hcopy as [-> ->]. split; congruence.
Qed.

(** The loop that copies the file attributes. *)
Lemma copy_attributes_loop_spec f ks :
  Forall (λ k, excluded k = false) ks →
  ∀ outf outf',
    for_each (λ outf propkey, v ← file_getattr f propkey;
                              PseudoNetCDFFile__setattr__ outf propkey v)
      ks outf = Ok outf' →
    _ncattrs outf' = _ncattrs outf ++ ks
    ∧ (∀ k, k ∈ ks → file_getattr outf' k = file_getattr f k)
    ∧ (∀ k, k ∉ ks → props outf' !! k = props outf !! k).
Proof.
  induction 1 as [|k ks Hk Hks IH]; intros outf outf'; simpl.
  - intros [= <-]. rewrite app_nil_r. split_and!; try done.
    intros k Hk. by apply elem_of_nil in Hk.
  - intros (outf1 & (v & Hget & Hset)%bind_Ok & Hloop)%bind_Ok.
    destruct (file_getattr_value _ _ _ Hk Hget) as [x ->].
    assert (k ≠ "variables" ∧ k ≠ "dimensions" ∧ k ≠ "_ncattrs")
      as (H1 & H2 & H3) by (split_and!; intros ->; done).
    rewrite file_setattr_plain in Hset by done. rewrite Hk in Hset.
    injection Hset as <-.
    apply IH in Hloop as (Hn & Hin & Hout). simpl in *.
    split_and!.
    + by rewrite Hn, <- app_assoc.
    + intros k' Hk'.
      destruct (decide (k' ∈ ks)) as [Hin'|Hnin]; [by apply Hin|].
      apply elem_of_cons in Hk' as [->|?]; [|done].
      rewrite Hget. unfold file_getattr.
      destruct (String.eqb_spec k "variables"); [done|].
      destruct (String.eqb_spec k "dimensions"); [done|].
      destruct (String.eqb_spec k "_ncattrs"); [done|].
      rewrite Hout by done. by rewrite lookup_insert_eq.
    + intros k' Hk'. apply not_elem_of_cons in Hk' as [Hne Hk'].
      rewrite Hout by done. by rewrite lookup_insert_ne.
Qed.

(** X17.  The result of [getvarpnc] carries the file attributes of the source:
    [ncattrs()] of the result is that of the source, name by name in the
    same order, and each of these attributes reads the same on both. *)
Theorem getvarpnc_copies_attributes f varkeys coordkeys outf warnings :
  Forall (λ k, excluded k = false) (ncattrs f) →
  getvarpnc f varkeys coordkeys = Ok (outf, warnings) →
  ncattrs outf = ncattrs f
  ∧ ∀ k, k ∈ ncattrs f → file_getattr outf k = file_getattr f k.
Proof.
  intros Hattrs. unfold getvarpnc.
  destruct (getvarpnc_keys f varkeys (list_to_set coordkeys)) as [kept w].
  intros (outf1 & Hcopy & Hrun)%bind_Ok.
  apply bind_Ok in Hrun as ([outf2 C] & Hloop & Hrun).
  apply bind_Ok in Hrun as (outf3 & Hcoord & [= <- <-]).
  apply copy_attributes_loop_spec in Hcopy as (Hn1 & Hget1 & _); [|done].
  simpl in Hn1.
  assert (props outf2 = props outf1 ∧ _ncattrs outf2 = _ncattrs outf1) as [Hp2 Hn2].
  { revert Hloop. unfold getvarpnc_loop.
    apply (for_each_invariant
             (λ st, props st.1 = props outf1 ∧ _ncattrs st.1 = _ncattrs outf1));
      [|done].
    intros [o c] k [o' c'] _ [Hp Hn] Hstep. simpl in *.
    apply getvarpnc_var_attributes in Hstep as [-> ->]. done. }
  assert (props outf3 = props outf2 ∧ _ncattrs outf3 = _ncattrs outf2) as [Hp3 Hn3].
  { revert Hcoord.
    apply (for_each_invariant
             (λ o, props o = props outf2 ∧ _ncattrs o = _ncattrs outf2));
      [|done].
    intros o k o' _ [Hp Hn] Hstep. unfold getvarpnc_coordvar in Hstep.
    destruct (variables f !! k); [|by simplify_eq].
    apply copy_variable_attributes in Hstep as [-> ->]. done. }
  split.
  - unfold ncattrs. by rewrite Hn3, Hn2, Hn1.
  - intros k Hk. rewrite <- (Hget1 k Hk). unfold file_getattr.
    rewrite Forall_forall in Hattrs. specialize (Hattrs k Hk).
    destruct (String.eqb_spec k "variables") as [->|_]; [done|].
    destruct (String.eqb_spec k "dimensions") as [->|_]; [done|].
    by rewrite Hp3, Hp2, Hn3, Hn2.
Qed.
End ProjectionMore.

Lemma getvarpnc_copies_attributes_witness :
  ∃ outf warnings,
    getvarpnc bounds_file (Some ["temp"]) [] = Ok (outf, warnings)
    ∧ ncattrs outf = ["title"]
    ∧ file_getattr outf "title" = Ok (FVal (PyStr "hourly")).
Proof.
  destruct (getvarpnc bounds_file (Some ["temp"]) [])
    as [[outf warnings]|e] eqn:Hrun; [|by vm_compute in Hrun].
  destruct (getvarpnc_copies_attributes bounds_file (Some ["temp"]) [] outf
              warnings) as [Hnc Hget].
  - repeat constructor.
  - exact Hrun.
  - exists outf, warnings. split; [reflexivity|]. split; [exact Hnc|].
    rewrite Hget; [reflexivity|].
    apply list_elem_of_singleton. reflexivity.
Defined.

Section ProjectionDimensions.
Context {V : Type} `{!Numeric V}.
Implicit Types (f outf o : PseudoNetCDFFile V) (C : gset string).

Lemma elem_of_zip_lookup {A B} (l : list A) (k : list B) a b :
  (a, b) ∈ zip l k → ∃ i, l !! i = Some a ∧ k !! i = Some b.
Proof.
  intros [i Hi]%list_elem_of_lookup. exists i.
  apply lookup_zip_with_Some in Hi as (a' & b' & [= <- <-] & ? & ?). done.
Qed.

(** What the loops of [getvarpnc] keep true of the Dimensions of the
    result under construction. *)
Lemma projected_new_dimension f o dimk (n : Z) d :
  dimensions o !! "nv" = Some {| _len := 2; _unlimited := false |} →
  (∀ k d', dimensions o !! k = Some d' → k ≠ "nv" → projected_dimension f k d') →
  dimensions o !! dimk = None →
  dimensions f !! dimk = Some d →
  (∀ d', _len d' = n → isunlimited d' = isunlimited d →
         projected_dimension f dimk d') →
  let o' := if isunlimited d
            then setunlimited_at (createDimension o dimk n) dimk true
            else createDimension o dimk n in
  dimensions o' !! "nv" = Some {| _len := 2; _unlimited := false |}
  ∧ ∀ k d', dimensions o' !! k = Some d' → k ≠ "nv" → projected_dimension f k d'.
Proof.
  intros Hnv HP Hnone Hd Hnew o'.
  assert (dimk ≠ "nv") as Hne by (intros ->; congruence).
  assert (dimensions o' !! dimk
          = Some {| _len := n; _unlimited := isunlimited d |}) as Hdimk.
  { subst o'. destruct (isunlimited d); simpl.
    - by rewrite lookup_alter_eq, lookup_insert_eq.
    - by rewrite lookup_insert_eq. }
  assert (∀ k, k ≠ dimk → dimensions o' !! k = dimensions o !! k) as Hother.
  { intros k Hk. subst o'. destruct (isunlimited d); simpl.
    - rewrite lookup_alter_ne by done. by rewrite lookup_insert_ne.
    - by rewrite lookup_insert_ne. }
  split; [by rewrite Hother|].
  intros k d' Hk Hknv. destruct (decide (k = dimk)) as [->|Hkd].
  - rewrite Hdimk in Hk. injection Hk as <-. by apply Hnew.
  - rewrite Hother in Hk by done. by apply HP.
Qed.

(** X18.  Every Dimension of the result of [getvarpnc] other than [nv] stands
    for the Dimension of that name of the source: it has its unlimited
    flag, and its length is the length of the source Dimension or the
    extent of a source variable along an axis of that name.  [nv] is the
    Dimension of length 2 the function creates first, also when the
    source has a Dimension [nv] of another length. *)
Theorem getvarpnc_dimensions f varkeys coordkeys outf warnings :
  Forall (λ k, excluded k = false) (ncattrs f) →
  getvarpnc f varkeys coordkeys = Ok (outf, warnings) →
  dimensions outf !! "nv" = Some {| _len := 2; _unlimited := false |}
  ∧ ∀ k d', dimensions outf !! k = Some d' → k ≠ "nv" →
            projected_dimension f k d'.
Proof.
  intros Hattrs. unfold getvarpnc.
  destruct (getvarpnc_keys f varkeys (list_to_set coordkeys)) as [kept w].
  intros (outf1 & Hcopy & Hrun)%bind_Ok.
  apply bind_Ok in Hrun as ([outf2 C] & Hloop & Hrun).
  apply bind_Ok in Hrun as (outf3 & Hcoord & [= <- <-]).
  apply copy_attributes_contents in Hcopy as [_ Hd1]; [|done].
  simpl in Hd1.
  set (P := λ o : PseudoNetCDFFile V,
         dimensions o !! "nv" = Some {| _len := 2; _unlimited := false |}
         ∧ ∀ k d', dimensions o !! k = Some d' → k ≠ "nv" →
                   projected_dimension f k d').
  assert (P outf1) as HP1.
  { split.
    - rewrite Hd1. apply lookup_insert_eq.
    - intros k d'. rewrite Hd1. intros Hk Hne.
      rewrite lookup_insert_ne in Hk by done. by rewrite lookup_empty in Hk. }
  assert (P outf2) as HP2.
  { revert Hloop. unfold getvarpnc_loop.
    apply (for_each_invariant (λ st, P st.1)); [|done].
    intros [o c] varkey [o3 c3] _ HP Hstep. simpl in *.
    unfold getvarpnc_var, lookup_variable in Hstep.
    apply bind_Ok in Hstep as (var & Hvar & (d & Hd & (names & Hnames & Hstep)%bind_Ok)%bind_Ok).
    destruct (is_identifier varkey); [|done].
    apply from_option_Ok in Hvar.
    apply bind_Ok in Hstep as ([o1 c1] & Hdims & Hstep).
    apply bind_Ok in Hstep as (o2 & Hcoorddim & Hstep).
    apply bind_Ok in Hstep as (o3' & Hcopyv & [= <- <-]).
    assert (var_dimensions var = Ok names) as Hvd.
    { unfold var_dimensions. rewrite Hd. simpl. by rewrite Hnames. }
    assert (P o1) as HPo1.
    { revert Hdims.
      apply (for_each_invariant (λ st, P st.1)); [|done].
      intros [oa ca] [dimk dimv] [ob cb] Hin [Hnv HPa] Hstep. simpl in *.
      unfold getvarpnc_dim in Hstep.
      case_bool_decide as Hpresent; [by simplify_eq|].
      apply bind_Ok in Hstep as (dm & Hdm%from_option_Ok & Hstep).
      assert (dimensions oa !! dimk = None) as Hnone.
      { destruct (dimensions oa !! dimk) eqn:E; [|done].
        destruct Hpresent. by eexists. }
      apply elem_of_zip_lookup in Hin as (axis & Hname & Hshape).
      pose proof (projected_new_dimension f oa dimk (Z.of_nat dimv) dm
                    Hnv HPa Hnone Hdm) as Hnew.
      cbv zeta in Hnew.
      assert (P (if isunlimited dm
                 then setunlimited_at (createDimension oa dimk (Z.of_nat dimv))
                        dimk true
                 else createDimension oa dimk (Z.of_nat dimv))) as HPb.
      { apply Hnew. intros d' Hlen Hflag. exists dm. split_and!; try done.
        right. by exists varkey, var, names, axis, dimv. }
      repeat case_match; simplify_eq; exact HPb. }
    assert (P o2) as HPo2.
    { revert Hcoorddim.
      apply (for_each_invariant P); [|done].
      intros oa coordk ob _ [Hnv HPa] Hstep.
      unfold getvarpnc_coorddim in Hstep.
      destruct (dimensions f !! coordk) as [dm|] eqn:Hdm; [|by simplify_eq].
      case_bool_decide as Hpresent; [by simplify_eq|].
      apply bind_Ok in Hstep as (n & Hn & [= <-]).
      assert (dimensions oa !! coordk = None) as Hnone.
      { destruct (dimensions oa !! coordk) eqn:E; [|done].
        destruct Hpresent. by eexists. }
      apply (projected_new_dimension f oa coordk (Z.of_nat n) dm Hnv HPa Hnone Hdm).
      intros d' Hlen Hflag. exists dm. split_and!; try done. left.
      unfold len_dim in Hn. destruct (_len dm <? 0)%Z eqn:Hneg; [done|].
      injection Hn as <-. apply Z.ltb_ge in Hneg. rewrite Hlen. lia. }
    apply copy_variable_spec in Hcopyv as [Hsame _].
    unfold P. by rewrite Hsame. }
  revert Hcoord.
  apply (for_each_invariant P); [|done].
  intros oa k ob _ HPa Hstep. unfold getvarpnc_coordvar in Hstep.
  destruct (variables f !! k); [|by simplify_eq].
  apply copy_variable_spec in Hstep as [Hsame _].
  unfold P. by rewrite Hsame.
Qed.
End ProjectionDimensions.

Lemma getvarpnc_dimensions_witness :
  ∃ outf warnings d',
    getvarpnc bounds_file (Some ["temp"]) [] = Ok (outf, warnings)
    ∧ dimensions outf !! "time" = Some d'
    ∧ projected_dimension bounds_file "time" d'.
Proof.
  destruct (getvarpnc bounds_file (Some ["temp"]) [])
    as [[outf warnings]|e] eqn:Hrun; [|by vm_compute in Hrun].
  destruct (dimensions outf !! "time") as [d'|] eqn:Hd'.
  - exists outf, warnings, d'. split; [reflexivity|]. split; [exact Hd'|].
    destruct (getvarpnc_dimensions bounds_file (Some ["temp"]) [] outf warnings)
      as [_ Hproj]; [repeat constructor|exact Hrun|].
    apply Hproj; [exact Hd'|discriminate].
  - exfalso. vm_compute in Hrun. injection Hrun as <- _.
    vm_compute in Hd'. discriminate Hd'.
Defined.

(** ** [PseudoIOAPIVariable] *)

Lemma string_of_list_ascii_length l :
  String.length (string_of_list_ascii l) = length l.
Proof. induction l; simpl; congruence. Qed.

Lemma get_padding s n i :
  (String.length s <= i)%nat → (i < String.length s + n)%nat →
  String.get i (s +:+ string_of_list_ascii (replicate n " "%char))
  = Some " "%char.
Proof.
  revert i. induction s as [|c s IH]; intros i Hi Hn; simpl in *.
  - clear Hi. revert i Hn. induction n as [|n IHn]; intros i Hn; [lia|].
    destruct i as [|i]; simpl; [done|]. apply IHn. lia.
  - destruct i as [|i]; [lia|]. apply IH; lia.
Qed.

(** [ljust] pads on the right, with spaces, up to the width. *)
Lemma ljust_spec s width :
  String.length (ljust s width) = Nat.max width (String.length s)
  ∧ str_take (String.length s) (ljust s width) = s
  ∧ ∀ i, (String.length s <= i)%nat → (i < width)%nat →
         String.get i (ljust s width) = Some " "%char.
Proof.
  unfold ljust. split_and!.
  - rewrite str_length_app, string_of_list_ascii_length, length_replicate. lia.
  - apply str_take_app.
  - intros i Hi Hw. apply get_padding; lia.
Qed.

Section IOAPIFacts.
Context {V : Type} `{!Numeric V}.
Implicit Types (v : PseudoNetCDFVariable V).

(** What an assignment does to the instance [__dict__]. *)
Lemma setattr_dict v k x v' :
  PseudoNetCDFVariable__setattr__ v k x = Ok v' →
  arr v' = arr v ∧ __dict__ v' !! k = Some x
  ∧ ∀ j, j ≠ k → j ≠ "_ncattrs" → __dict__ v' !! j = __dict__ v !! j.
Proof.
  intros Hset. split; [by apply setattr_arr in Hset|].
  revert Hset. unfold PseudoNetCDFVariable__setattr__, ndarray__setattr__.
  intros (v1 & H1 & H2)%bind_Ok.
  assert (∀ j, j ≠ "_ncattrs" → __dict__ v1 !! j = __dict__ v !! j) as Hv1.
  { intros j Hj. destruct (_ && _); [|by simplify_eq].
    apply bind_Ok in H1 as (nc & _ & (nc' & _ & H1)%bind_Ok).
    destruct (str_in "_ncattrs" ndarray_descriptors); simplify_eq. simpl.
    by rewrite lookup_insert_ne. }
  destruct (str_in k ndarray_descriptors); simplify_eq. simpl.
  split; [apply lookup_insert_eq|].
  intros j Hj Hj'. rewrite lookup_insert_ne by done. by apply Hv1.
Qed.

(** The keyword properties given to the constructor are attributes of
    the new variable. *)
Lemma new_keywords pd name typecode dnames values kwds v :
  PseudoNetCDFVariable__new__ pd name typecode dnames values kwds = Ok v →
  ∀ k x, kwds !! k = Some x → k ≠ "values" → k ≠ "_ncattrs" →
         __dict__ v !! k = Some x.
Proof.
  unfold PseudoNetCDFVariable__new__.
  intros (r0 & _ & (r1 & _ & (r2 & _ & Hloop)%bind_Ok)%bind_Ok)%bind_Ok k x Hk Hkv Hkn.
  assert ((k, x) ∈ map_to_list (delete "values" kwds)) as Hin.
  { apply elem_of_map_to_list. by rewrite lookup_delete_ne. }
  pose proof (NoDup_fst_map_to_list (delete "values" kwds)) as Hnd.
  revert Hin Hnd Hloop.
  generalize (map_to_list (delete "values" kwds)).
  generalize ({| arr := arr r2;
                 __dict__ := <["dimensions":=PyTuple dnames]>
                               (<["typecode":=PyLambda typecode]> (__dict__ r2)) |}).
  intros r l. revert r. induction l as [|[k' x'] l IH]; intros r Hin Hnd; simpl.
  - by apply elem_of_nil in Hin.
  - apply NoDup_cons in Hnd as [Hk' Hnd].
    intros (r' & Hset & Hloop)%bind_Ok.
    apply elem_of_cons in Hin as [[= <- <-]|Hin]; [|by eapply IH].
    apply setattr_dict in Hset as (_ & Hset & _).
    revert Hloop.
    apply (for_each_invariant (λ r, __dict__ r !! k = Some x)); [|done].
    intros s [k2 x2] s' Hin2 Hs Hstep. simpl in Hstep.
    apply setattr_dict in Hstep as (_ & _ & Hother).
    rewrite Hother; [done| |done].
    intros ->. apply Hk'. apply list_elem_of_fmap. by exists (k2, x2).
Qed.

(** X19.  A variable built by [PseudoIOAPIVariable] always has the attributes
    [units], [long_name] and [var_desc]: those given as keywords, and
    otherwise the text [None] for the units and the name, padded with
    spaces to 16 and to 80 characters, for the other two.  The function
    warns exactly when no units are given; the buffer is that of the
    variable the constructor builds. *)
Theorem PseudoIOAPIVariable_defaults pd name typecode dnames values kwds v
    warnings :
  PseudoIOAPIVariable pd name typecode dnames values kwds = Ok (v, warnings) →
  getattr v "units" = Ok (default (PyStr "None") (kwds !! "units"))
  ∧ getattr v "long_name" = Ok (default (PyStr (ljust name 16)) (kwds !! "long_name"))
  ∧ getattr v "var_desc" = Ok (default (PyStr (ljust name 80)) (kwds !! "var_desc"))
  ∧ warnings = (if kwds !! "units" is Some _ then [] else [ioapi_units_warning])
  ∧ ∃ v0, PseudoNetCDFVariable__new__ pd name typecode dnames values kwds = Ok v0
          ∧ arr v = arr v0.
Proof.
  unfold PseudoIOAPIVariable.
  intros (v0 & Hnew & ([v1 w] & Hunits & (v2 & Hlong & (v3 & Hdesc & [= <- <-])%bind_Ok)%bind_Ok)%bind_Ok)%bind_Ok.
  pose proof (new_keywords _ _ _ _ _ _ _ Hnew) as Hkw.
  assert (__dict__ v1 !! "units" = Some (default (PyStr "None") (kwds !! "units"))
          ∧ w = (if kwds !! "units" is Some _ then [] else [ioapi_units_warning])
          ∧ arr v1 = arr v0
          ∧ ∀ j, j ≠ "units" → j ≠ "_ncattrs" →
                 __dict__ v1 !! j = __dict__ v0 !! j) as (Hu & Hw & Ha1 & Ho1).
  { destruct (kwds !! "units") as [x|] eqn:Hx.
    - rewrite bool_decide_eq_true_2 in Hunits by (by eexists).
      injection Hunits as <- <-. simpl. split_and!; try done. by apply Hkw.
    - rewrite bool_decide_eq_false_2 in Hunits by (by intros [? ?]).
      apply bind_Ok in Hunits as (v1' & Hset & [= <- <-]).
      apply setattr_dict in Hset as (? & ? & ?). done. }
  assert (__dict__ v2 !! "long_name"
          = Some (default (PyStr (ljust name 16)) (kwds !! "long_name"))
          ∧ arr v2 = arr v1
          ∧ ∀ j, j ≠ "long_name" → j ≠ "_ncattrs" →
                 __dict__ v2 !! j = __dict__ v1 !! j) as (Hl & Ha2 & Ho2).
  { destruct (kwds !! "long_name") as [x|] eqn:Hx.
    - rewrite bool_decide_eq_true_2 in Hlong by (by eexists).
      injection Hlong as <-. simpl. split_and!; try done.
      rewrite Ho1 by done. by apply Hkw.
    - rewrite bool_decide_eq_false_2 in Hlong by (by intros [? ?]).
      apply setattr_dict in Hlong as (? & ? & ?). done. }
  assert (__dict__ v3 !! "var_desc"
          = Some (default (PyStr (ljust name 80)) (kwds !! "var_desc"))
          ∧ arr v3 = arr v2
          ∧ ∀ j, j ≠ "var_desc" → j ≠ "_ncattrs" →
                 __dict__ v3 !! j = __dict__ v2 !! j) as (Hd & Ha3 & Ho3).
  { destruct (kwds !! "var_desc") as [x|] eqn:Hx.
    - rewrite bool_decide_eq_true_2 in Hdesc by (by eexists).
      injection Hdesc as <-. simpl. split_and!; try done.
      rewrite Ho2, Ho1 by done. by apply Hkw.
    - rewrite bool_decide_eq_false_2 in Hdesc by (by intros [? ?]).
      apply setattr_dict in Hdesc as (? & ? & ?). done. }
  split_and!.
  - apply getattr_present; [|done]. rewrite Ho3, Ho2 by done. done.
  - apply getattr_present; [|done]. rewrite Ho3 by done. done.
  - by apply getattr_present.
  - done.
  - exists v0. split; [done|]. congruence.
Qed.
End IOAPIFacts.

Lemma PseudoIOAPIVariable_defaults_witness :
  ∃ v warnings,
    PseudoIOAPIVariable (V := Q) ∅ "O3" "f" ["TIME"]
      (Some (plain [3%nat] [1; 2; 3]%Q)) {["long_name" := PyStr "ozone"]}
    = Ok (v, warnings)
    ∧ getattr v "units" = Ok (PyStr "None")
    ∧ getattr v "long_name" = Ok (PyStr "ozone")
    ∧ getattr v "var_desc" = Ok (PyStr (ljust "O3" 80))
    ∧ warnings = [ioapi_units_warning].
Proof.
  destruct (PseudoIOAPIVariable (V := Q) ∅ "O3" "f" ["TIME"]
              (Some (plain [3%nat] [1; 2; 3]%Q)) {["long_name" := PyStr "ozone"]})
    as [[v warnings]|e] eqn:Hrun; [|by vm_compute in Hrun].
  destruct (PseudoIOAPIVariable_defaults _ _ _ _ _ _ _ _ Hrun)
    as (Hu & Hl & Hd & Hw & _).
  exists v, warnings. split; [reflexivity|].
  split; [exact Hu|]. split; [exact Hl|]. split; [exact Hd|exact Hw].
Defined.

(** ** [Pseudo2NetCDF]: conversion onto a dataset object *)

Lemma filter_fst {A B} (p : A → bool) (l : list (A * B)) :
  List.filter p l.*1 = (List.filter (λ kv, p kv.1) l).*1.
Proof.
  induction l as [|[a b] l IH]; csimpl; [done|].
  destruct (p a); csimpl; by f_equal.
Qed.

Lemma NoDup_fst_filter {A B} (p : A * B → bool) (l : list (A * B)) :
  NoDup l.*1 → NoDup (List.filter p l).*1.
Proof.
  induction l as [|[a b] l IH]; csimpl; [done|].
  intros [Ha Hnd]%NoDup_cons. destruct (p (a, b)); csimpl; [|by apply IH].
  apply NoDup_cons. split; [|by apply IH].
  intros ([a' b'] & -> & Hin)%list_elem_of_fmap. apply Ha.
  apply list_elem_of_fmap. exists (a', b'). split; [done|].
  apply list_elem_of_In, filter_In in Hin as [Hin _]. by apply list_elem_of_In.
Qed.

Section ConverterFacts.
Context {V : Type} `{!Numeric V}.
Implicit Types (pfile nfile : PseudoNetCDFFile V).
Implicit Types (pvar nvar : PseudoNetCDFVariable V).





Lemma global_property_names_props pfile :
  global_property_names pfile
  = (List.filter (λ kv : string * pyval,
                    negb (str_in kv.1 ignore_global_properties)
                    && negb (ignore_re_match kv.1))
                 (map_to_list (props pfile))).*1.
Proof.
  unfold global_property_names, file_dict_keys, keys.
  rewrite <- (filter_fst (λ k, negb (str_in k ignore_global_properties)
                               && negb (ignore_re_match k))).
  reflexivity.
Qed.

Lemma addGlobalProperties_loop pfile (l : list (string * pyval)) :
  NoDup l.*1 →
  (∀ k x, (k, x) ∈ l → props pfile !! k = Some x) →
  ∀ nfile warnings,
    for_each (addGlobalProperties_step pfile)
      (List.filter (λ kv : string * pyval,
                      negb (str_in kv.1 ignore_global_properties)
                      && negb (ignore_re_match kv.1)) l).*1
      (nfile, warnings)
    = Ok ({| variables := variables nfile; dimensions := dimensions nfile;
             _ncattrs := _ncattrs nfile
                         ++ List.filter (λ k, negb (excluded k))
                              (List.filter copied_property l).*1;
             props := list_to_map (List.filter copied_property l)
                      ∪ props nfile |}, warnings).
Proof.
  induction l as [|[k x] l IH]; intros Hnd Hl nfile warnings.
  - simpl. rewrite app_nil_r, (left_id_L ∅ (∪)). by destruct nfile.
  - rewrite fmap_cons in Hnd. apply NoDup_cons in Hnd as [Hk Hnd].
    cbn [fst] in Hk. cbn [List.filter].
    assert (∀ k x, (k, x) ∈ l → props pfile !! k = Some x) as Hl'
      by (intros k' x' ?; apply (Hl k' x'); by right).
    assert (copied_property (k, x)
            = negb (str_in k ignore_global_properties)
              && negb (ignore_re_match k) && negb (is_method x)) as ->
      by reflexivity.
    cbn [fst].
    destruct (negb (str_in k ignore_global_properties)
              && negb (ignore_re_match k)) eqn:Hpub; cbn [andb].
    2: { apply IH; done. }
    rewrite fmap_cons. cbn [fst for_each].
    apply andb_true_iff in Hpub as [Hign Hre].
    apply negb_true_iff in Hign, Hre.
    assert (k ≠ "variables" ∧ k ≠ "dimensions" ∧ k ≠ "_ncattrs")
      as (H1 & H2 & H3).
    { split_and!; intros ->; discriminate. }
    assert (addGlobalProperties_step pfile (nfile, warnings) k
            = Ok (if is_method x then nfile
                  else {| variables := variables nfile;
                          dimensions := dimensions nfile;
                          _ncattrs := if excluded k then _ncattrs nfile
                                      else _ncattrs nfile ++ [k];
                          props := <[k := x]> (props nfile) |}, warnings))
      as ->.
    { unfold addGlobalProperties_step, file_getattr.
      destruct (String.eqb_spec k "variables"); [done|].
      destruct (String.eqb_spec k "dimensions"); [done|].
      destruct (String.eqb_spec k "_ncattrs"); [done|].
      rewrite (Hl k x) by (by left). rewrite result_bind_Ok.
      destruct x; try (by rewrite file_setattr_plain by done). done. }
    rewrite result_bind_Ok, IH by done.
    destruct (is_method x); cbn [negb]; [done|]. simpl.
    f_equal. f_equal. f_equal.
    + destruct (excluded k); simpl; [done|]. by rewrite <- app_assoc.
    + rewrite <- insert_union_l, insert_union_r; [done|].
      apply not_elem_of_list_to_map_1. intros Hin. apply Hk.
      apply list_elem_of_fmap in Hin as ([k' x'] & -> & Hin).
      apply list_elem_of_fmap. exists (k', x'). split; [done|].
      apply list_elem_of_In, filter_In in Hin as [Hin _].
      by apply list_elem_of_In.
Qed.

(** X22.  [addGlobalProperties] always succeeds on a dataset object, without a
    warning.  It copies the entries of the source's [__dict__] whose name
    is not [variables] or [dimensions] and does not start with an
    underscore, and whose value is not a method; the other entries of the
    target stay, and so do its variables and Dimensions.  The names
    copied are added to the attribute names of the target (also a name it
    had before), except [groups]. *)
Theorem addGlobalProperties_copies pfile nfile warnings :
  ∃ nfile',
    addGlobalProperties pfile (nfile, warnings) = Ok (nfile', warnings)
    ∧ variables nfile' = variables nfile
    ∧ dimensions nfile' = dimensions nfile
    ∧ (∀ k x, props pfile !! k = Some x → copied_property (k, x) = true →
              file_getattr nfile' k = Ok (FVal x))
    ∧ (∀ k, (∀ x, props pfile !! k = Some x → copied_property (k, x) = false) →
            props nfile' !! k = props nfile !! k)
    ∧ ncattrs nfile'
      = ncattrs nfile
        ++ List.filter (λ k, negb (String.eqb k "groups"))
             (List.filter copied_property (map_to_list (props pfile))).*1.
Proof.
  unfold addGlobalProperties. rewrite global_property_names_props.
  rewrite addGlobalProperties_loop;
    [|apply NoDup_fst_map_to_list|by intros k x ?%elem_of_map_to_list].
  eexists. split; [reflexivity|]. simpl.
  assert (∀ k x, (k, x) ∈ List.filter copied_property (map_to_list (props pfile))
                 ↔ props pfile !! k = Some x ∧ copied_property (k, x) = true)
    as Hin.
  { intros k x. rewrite list_elem_of_In, filter_In, <- list_elem_of_In.
    by rewrite elem_of_map_to_list. }
  pose proof (NoDup_fst_filter copied_property _
                (NoDup_fst_map_to_list (props pfile))) as Hnd.
  split; [done|]. split; [done|]. split; [|split].
  - intros k x Hk Hc.
    assert (negb (str_in k ignore_global_properties)
            && negb (ignore_re_match k) = true) as [Hign Hre]%andb_true_iff.
    { unfold copied_property in Hc. apply andb_true_iff in Hc as [Hc _].
      exact Hc. }
    apply negb_true_iff in Hign, Hre.
    unfold file_getattr.
    destruct (String.eqb_spec k "variables") as [->|_]; [discriminate|].
    destruct (String.eqb_spec k "dimensions") as [->|_]; [discriminate|].
    destruct (String.eqb_spec k "_ncattrs") as [->|_]; [discriminate|].
    simpl. erewrite lookup_union_Some_l; [done|].
    apply elem_of_list_to_map_1; [done|]. by apply Hin.
  - intros k Hk. apply lookup_union_r, not_elem_of_list_to_map_1.
    intros ([k' x'] & -> & [Hx Hc]%Hin)%list_elem_of_fmap.
    simpl in Hk. rewrite (Hk x' Hx) in Hc. discriminate.
  - unfold ncattrs. simpl. f_equal. apply filter_ext_in.
    intros k ([k' x'] & -> & [Hx Hc]%Hin)%list_elem_of_In%list_elem_of_fmap.
    simpl.
    assert (negb (str_in k' ignore_global_properties)
            && negb (ignore_re_match k') = true) as [Hign Hre]%andb_true_iff.
    { unfold copied_property in Hc. apply andb_true_iff in Hc as [Hc _].
      exact Hc. }
    apply negb_true_iff in Hign, Hre. f_equal.
    unfold excluded. unfold ignore_re_match in Hre. rewrite Hre. simpl.
    destruct (String.eqb_spec k' "groups") as [->|Hg]; [done|].
    apply bool_decide_eq_false. intros Hel.
    apply bool_decide_eq_false in Hign. apply Hign.
    apply elem_of_cons in Hel as [->|Hel]; [set_solver|].
    apply elem_of_cons in Hel as [->|Hel]; [set_solver|].
    apply list_elem_of_singleton in Hel. done.
Qed.
(** *** The data of a variable *)






(** *** The definition of a variable *)






(** *** The conversion as a whole *)





End ConverterFacts.











(** ** [PseudoNetCDFVariableConvertUnit] *)

Section ConvertUnitFacts.
Context {V : Type} `{!Numeric V}.
Variable convert : PseudoNetCDFVariable V → pyval → string
                   → result (PseudoNetCDFVariable V).
Implicit Types (var o values : PseudoNetCDFVariable V).

(** An assignment on an instance whose recorded names are a tuple. *)
Lemma setattr_tracked o k x nc :
  __dict__ o !! "_ncattrs" = Some (PyTuple nc) →
  str_in k ndarray_descriptors = false →
  (k = "_ncattrs" → ∃ t, x = PyTuple t) →
  ∃ o' nc', PseudoNetCDFVariable__setattr__ o k x = Ok o'
            ∧ arr o' = arr o
            ∧ __dict__ o' !! "_ncattrs" = Some (PyTuple nc')
            ∧ __dict__ o' !! k = Some x
            ∧ ∀ k', k' ≠ k → k' ≠ "_ncattrs" →
                    __dict__ o' !! k' = __dict__ o !! k'.
Proof.
  intros Hnc Hdesc Htuple.
  destruct (decide (hasattr o k = true ∨ String.eqb (str_take 1 k) "_" = true))
    as [Hold|Hnew].
  - rewrite setattr_old by done.
    destruct (decide (k = "_ncattrs")) as [->|Hk].
    + destruct Htuple as [t ->]; [done|].
      eexists _, t. split; [reflexivity|]. simpl.
      split; [done|]. split; [apply lookup_insert_eq|].
      split; [apply lookup_insert_eq|].
      intros k' Hk' _. by rewrite lookup_insert_ne.
    + eexists _, nc. split; [reflexivity|]. simpl.
      split; [done|]. split; [by rewrite lookup_insert_ne|].
      split; [apply lookup_insert_eq|].
      intros k' Hk' _. by rewrite lookup_insert_ne.
  - assert (hasattr o k = false) as Hhas.
    { destruct (hasattr o k); [|done]. exfalso. apply Hnew. by left. }
    assert (String.eqb (str_take 1 k) "_" = false) as Hu.
    { destruct (String.eqb (str_take 1 k) "_"); [|done].
      exfalso. apply Hnew. by right. }
    assert (k ≠ "_ncattrs") as Hk by (intros ->; discriminate).
    unfold hasattr in Hhas.
    destruct (__dict__ o !! k) as [y|] eqn:Hy; [done|].
    apply orb_false_iff in Hhas as [_ Hmeth].
    rewrite (setattr_new o k x nc); [|done|done|].
    2: { unfold recordable. by rewrite Hu, Hdesc, Hmeth. }
    eexists _, (nc ++ [k]). split; [reflexivity|]. simpl.
    split; [done|]. split.
    { rewrite lookup_insert_ne by done. apply lookup_insert_eq. }
    split; [apply lookup_insert_eq|].
    intros k' Hk' Hk''. rewrite lookup_insert_ne by done.
    by rewrite lookup_insert_ne.
Qed.

Lemma copy_dict_loop (l : list (string * pyval)) :
  NoDup l.*1 →
  (∀ k x, (k, x) ∈ l → str_in k ndarray_descriptors = false
                       ∧ (k = "_ncattrs" → ∃ t, x = PyTuple t)) →
  ∀ o nc,
    __dict__ o !! "_ncattrs" = Some (PyTuple nc) →
    ∃ o' nc',
      for_each (λ outvar kv, PseudoNetCDFVariable__setattr__ outvar kv.1 kv.2)
        l o = Ok o'
      ∧ arr o' = arr o
      ∧ __dict__ o' !! "_ncattrs" = Some (PyTuple nc')
      ∧ (∀ k x, (k, x) ∈ l → k ≠ "_ncattrs" → __dict__ o' !! k = Some x)
      ∧ (∀ k, k ∉ l.*1 → k ≠ "_ncattrs" → __dict__ o' !! k = __dict__ o !! k).
Proof.
  induction l as [|[k x] l IH]; intros Hnd Hl o nc Hnc.
  - exists o, nc. split_and!; try done. intros k x Hk. by apply elem_of_nil in Hk.
  - rewrite fmap_cons in Hnd. apply NoDup_cons in Hnd as [Hk Hnd].
    cbn [fst] in Hk.
    destruct (Hl k x) as [Hdesc Htuple]; [by left|].
    destruct (setattr_tracked o k x nc Hnc Hdesc Htuple)
      as (o1 & nc1 & Hset & Harr1 & Hnc1 & Hget1 & Hsame1).
    cbn [for_each fst snd]. rewrite Hset, result_bind_Ok.
    destruct (IH Hnd) with (o := o1) (nc := nc1)
      as (o' & nc' & Hrun & Harr & Hnc' & Hin & Hout).
    { intros k' x' ?. apply (Hl k' x'). by right. }
    { exact Hnc1. }
    exists o', nc'. split; [exact Hrun|]. split; [congruence|].
    split; [exact Hnc'|]. split.
    + intros k' x' [[= -> ->]|Hin']%elem_of_cons Hk'; [|by apply Hin].
      rewrite Hout by done. exact Hget1.
    + intros k' Hk' Hk''. rewrite fmap_cons in Hk'.
      apply not_elem_of_cons in Hk' as [Hne Hk'].
      rewrite Hout by done. by apply Hsame1.
Qed.

Lemma new_over_values_tracked (pd : gmap string PseudoNetCDFDimension)
    name typecode names values :
  (__dict__ values = ∅ ∨ ∃ nc dv, attributed values nc dv) →
  ∃ nv nc,
    PseudoNetCDFVariable__new__ pd name typecode names (Some values) ∅ = Ok nv
    ∧ arr nv = arr values
    ∧ __dict__ nv !! "_ncattrs" = Some (PyTuple nc).
Proof.
  intros Hvalues. unfold PseudoNetCDFVariable__new__.
  rewrite delete_empty, map_to_list_empty. cbn [for_each].
  rewrite result_bind_Ok.
  destruct Hvalues as [Hempty|(nc & dv & Hattr)].
  - assert (values = {| arr := arr values; __dict__ := ∅ |}) as ->
      by (destruct values; simpl in *; by subst).
    rewrite view_of_plain, result_bind_Ok, view_of_fresh, result_bind_Ok.
    eexists _, []. split; [reflexivity|]. simpl. split; [done|].
    rewrite lookup_insert_ne by done. by rewrite lookup_insert_ne.
  - destruct (derive_attributed (arr values) values nc dv Hattr)
      as (r1 & Hr1 & Harr1 & Hattr1 & _).
    destruct (derive_attributed (arr r1) r1 nc dv Hattr1)
      as (r2 & Hr2 & Harr2 & Hattr2 & _).
    unfold ellipsis, derived_by. cbn [mbind result_bind].
    rewrite Hr1. cbn [mbind result_bind]. rewrite Hr2.
    cbn [mbind result_bind].
    eexists _, nc. split; [reflexivity|]. simpl. split; [congruence|].
    rewrite lookup_insert_ne by done. rewrite lookup_insert_ne by done.
    apply (attributed_ncattrs _ _ _ Hattr2).
Qed.

(** X26.  [PseudoNetCDFVariableConvertUnit] returns a variable over the array
    the conversion function returns whose [units] is the target unit and
    whose other [__dict__] entries are those of the variable it was
    given (the recorded names apart).  The variable needs a string
    [long_name], a typecode, [units], no more dimension names than axes,
    and no entry under a name of an [ndarray] data descriptor. *)
Theorem ConvertUnit_attributes var outunit nc names long_name typecode unit
    values :
  attributed var nc (PyTuple names) →
  __dict__ var !! "long_name" = Some (PyStr long_name) →
  __dict__ var !! "typecode" = Some (PyLambda typecode) →
  __dict__ var !! "units" = Some unit →
  (length names ≤ ndim (arr var))%nat →
  (∀ k, is_Some (__dict__ var !! k) → str_in k ndarray_descriptors = false) →
  convert var unit outunit = Ok values →
  (__dict__ values = ∅ ∨ ∃ nc' dv, attributed values nc' dv) →
  ∃ outvar,
    PseudoNetCDFVariableConvertUnit convert var outunit = Ok outvar
    ∧ arr outvar = arr values
    ∧ getattr outvar "units" = Ok (PyStr outunit)
    ∧ ∀ k x, __dict__ var !! k = Some x → k ≠ "units" → k ≠ "_ncattrs" →
             getattr outvar k = Ok x.
Proof.
  intros Hattr Hln Htc Hunit Hlen Hdesc Hconv Hvalues.
  pose proof (attributed_dimensions _ _ _ Hattr) as Hdims.
  unfold PseudoNetCDFVariableConvertUnit.
  rewrite (getattr_present var "dimensions" _ Hdims) by done.
  cbn [mbind result_bind iter_names].
  destruct (for_each_total (λ _, True)
              (λ (do : PseudoNetCDFFile V) (id : nat * string),
                 n ← from_option IndexError (shape (arr var) !! id.1);
                 Ok (createDimension do id.2 (Z.of_nat n)))
              (imap pair names) PseudoNetCDFFile__new__ I)
    as (do & Hdo & _).
  { intros do [i d] (i' & d' & [= <- <-] & Hi)%elem_of_lookup_imap _.
    apply lookup_lt_Some in Hi.
    destruct (lookup_lt_is_Some_2 (shape (arr var)) i) as [n Hn].
    { unfold ndim in Hlen. lia. }
    simpl. rewrite Hn. simpl. eauto. }
  rewrite Hdo. cbn [mbind result_bind].
  rewrite (getattr_present var "long_name" _ Hln) by done.
  cbn [mbind result_bind py_strip].
  rewrite (getattr_present var "typecode" _ Htc) by done.
  cbn [mbind result_bind py_call].
  rewrite (getattr_present var "units" _ Hunit) by done.
  cbn [mbind result_bind]. rewrite Hconv. cbn [mbind result_bind].
  destruct (new_over_values_tracked (dimensions do) (strip long_name) typecode
              names values Hvalues) as (nv & nc0 & Hnew & Harr0 & Hnc0).
  rewrite Hnew. cbn [mbind result_bind].
  destruct (copy_dict_loop (map_to_list (__dict__ var)))
    with (o := nv) (nc := nc0)
    as (o1 & nc1 & Hloop & Harr1 & Hnc1 & Hin1 & _).
  { apply NoDup_fst_map_to_list. }
  { intros k x Hk%elem_of_map_to_list. split; [apply Hdesc; by eexists|].
    intros ->. exists nc. rewrite (attributed_ncattrs _ _ _ Hattr) in Hk.
    congruence. }
  { exact Hnc0. }
  rewrite Hloop. cbn [mbind result_bind].
  destruct (setattr_tracked o1 "units" (PyStr outunit) nc1 Hnc1)
    as (outvar & nc2 & Hset & Harr2 & _ & Hget2 & Hsame2); [done|done|].
  exists outvar. split; [exact Hset|]. split; [congruence|]. split.
  - by apply getattr_present.
  - intros k x Hk Hku Hkn. apply getattr_present; [|apply Hdesc; by eexists].
    rewrite Hsame2 by done. apply Hin1; [|done]. by apply elem_of_map_to_list.
Qed.
End ConvertUnitFacts.

Lemma ConvertUnit_attributes_witness :
  ∃ outvar,
    PseudoNetCDFVariableConvertUnit same_elements o3_ioapi "ppmv" = Ok outvar
    ∧ arr outvar = arr o3_ioapi
    ∧ getattr outvar "units" = Ok (PyStr "ppmv")
    ∧ getattr outvar "long_name" = Ok (PyStr "O3  ").
Proof.
  destruct (ConvertUnit_attributes same_elements o3_ioapi "ppmv"
              ["units"; "long_name"] ["TIME"] "O3  " "d" (PyStr "ppbv")
              {| arr := arr o3_ioapi; __dict__ := ∅ |})
    as (outvar & Hrun & Harr & Hunits & Hothers).
  - split.
    + vm_compute. reflexivity.
    + apply NoDup_cons. split; [|apply NoDup_singleton].
      intros Hin%list_elem_of_singleton. discriminate Hin.
    + intros k [->|Hk]%elem_of_cons.
      * eexists. vm_compute. reflexivity.
      * apply list_elem_of_singleton in Hk as ->. eexists. vm_compute.
        reflexivity.
    + intros k [->|Hk]%elem_of_cons.
      * split; [reflexivity|discriminate].
      * apply list_elem_of_singleton in Hk as ->.
        split; [reflexivity|discriminate].
    + vm_compute. reflexivity.
  - vm_compute. reflexivity.
  - vm_compute. reflexivity.
  - vm_compute. reflexivity.
  - vm_compute. lia.
  - intros k [x Hk].
    assert (k ∈ keys (__dict__ o3_ioapi)) as Hin
      by (apply elem_of_keys; by eexists).
    assert (keys (__dict__ o3_ioapi)
            = ["_ncattrs"; "units"; "long_name"; "typecode"; "dimensions"])
      as Hkeys by (vm_compute; reflexivity).
    rewrite Hkeys in Hin.
    repeat (apply elem_of_cons in Hin as [->|Hin]; [reflexivity|]).
    exfalso. exact (proj1 (elem_of_nil _) Hin).
  - reflexivity.
  - left. reflexivity.
  - exists outvar. split; [exact Hrun|]. split; [exact Harr|].
    split; [exact Hunits|].
    apply Hothers; [vm_compute; reflexivity|discriminate|discriminate].
Defined.
